(** * Hong Kong sea-level scripts: crawler, polar animators, analyzer

    A shallow embedding of the four scripts
    [crawl_hko_sea_level.py], [animated_sea_level.py],
    [polarCoordVisualization.py] and [seaLevelAnalysis.py].

    Integers are [Z] (Python [int] and numpy [int64] agree on [%] and [//]
    with [Z.modulo] and [Z.div] for a positive divisor).  The scripts compute
    on [float64]; their arithmetic is written once over the interface
    [Arith] and read at two instances:
    - [Exact]: real numbers with one extra element for an undefined result,
      the arithmetic the formulas of the documentation are written in;
    - [Binary64]: IEEE 754 binary64, the arithmetic the scripts run in.  *)

From Stdlib Require Import ZArith List Sorted Permutation Bool String Ascii Lia.
From Stdlib Require Import Reals Lra.
From Stdlib Require Import Floats Uint63.
Import ListNotations.

Set Implicit Arguments.
Local Open Scope Z_scope.

(** ** Exceptions and results *)

Inductive exn : Type :=
| FileNotFoundError
| IndexError
| KeyError
| TypeError
| ValueError
| OverflowError
| RequestException
| JSONDecodeError.

Inductive result (A : Type) : Type :=
| Ok (a : A)
| Raise (e : exn).

Arguments Ok {A} a.
Arguments Raise {A} e.

Definition bind {A B : Type} (c : result A) (k : A -> result B) : result B :=
  match c with
  | Ok a => k a
  | Raise e => Raise e
  end.

Notation "x <- c ;; k" := (bind c (fun x => k))
  (at level 61, c at next level, right associativity).

(** ** Arithmetic interface *)

Class Arith (F : Type) : Type := {
  of_int : Z -> F;          (* int to float conversion *)
  add : F -> F -> F;
  sub : F -> F -> F;
  mul : F -> F -> F;
  div : F -> F -> F;        (* numpy true division: no exception on zero *)
  sqrt : F -> F;
  ltb : F -> F -> bool;
  eqb : F -> F -> bool;
  pi : F;                   (* np.pi *)
  nan : F;
  isnan : F -> bool         (* pandas isna on a float cell *)
}.

(** A decimal literal [m / d] of the source, such as [1.35 = dec 135 100]. *)
Definition dec {F} `{Arith F} (m d : Z) : F := div (of_int m) (of_int d).

(** *** Exact arithmetic: a real number, or [None] for an undefined result *)

Definition xreal : Type := option R.

Definition xlift2 (f : R -> R -> R) (a b : xreal) : xreal :=
  match a, b with
  | Some x, Some y => Some (f x y)
  | _, _ => None
  end.

Definition xdiv (a b : xreal) : xreal :=
  match a, b with
  | Some x, Some y => if Req_dec_T y 0 then None else Some (x / y)%R
  | _, _ => None
  end.

Definition xsqrt (a : xreal) : xreal :=
  match a with
  | Some x => if Rlt_dec x 0 then None else Some (R_sqrt.sqrt x)
  | None => None
  end.

Definition xltb (a b : xreal) : bool :=
  match a, b with
  | Some x, Some y => if Rlt_dec x y then true else false
  | _, _ => false
  end.

Definition xeqb (a b : xreal) : bool :=
  match a, b with
  | Some x, Some y => if Req_dec_T x y then true else false
  | _, _ => false
  end.

Definition xisnan (a : xreal) : bool :=
  match a with
  | Some _ => false
  | None => true
  end.

#[export] Instance Exact : Arith xreal := {
  of_int := fun z => Some (IZR z);
  add := xlift2 Rplus;
  sub := xlift2 Rminus;
  mul := xlift2 Rmult;
  div := xdiv;
  sqrt := xsqrt;
  ltb := xltb;
  eqb := xeqb;
  pi := Some PI;
  nan := None;
  isnan := xisnan
}.

(** *** IEEE 754 binary64 *)

(** Conversion of an [int64] to [float64], rounding to nearest. *)
Definition float_of_Z (z : Z) : float :=
  match z with
  | Z0 => PrimFloat.zero
  | Zpos _ => PrimFloat.of_uint63 (Uint63.of_Z z)
  | Zneg p => PrimFloat.opp (PrimFloat.of_uint63 (Uint63.of_Z (Zpos p)))
  end.

(** [np.pi = 3.141592653589793]. *)
Definition float_pi : float := 0x1.921fb54442d18p+1%float.

#[export] Instance Binary64 : Arith float := {
  of_int := float_of_Z;
  add := PrimFloat.add;
  sub := PrimFloat.sub;
  mul := PrimFloat.mul;
  div := PrimFloat.div;
  sqrt := PrimFloat.sqrt;
  ltb := PrimFloat.ltb;
  eqb := PrimFloat.eqb;
  pi := float_pi;
  nan := PrimFloat.nan;
  isnan := PrimFloat.is_nan
}.

(** ** Python sequences *)

(** [l[i]]: a negative index counts from the end, an index out of range
    raises [IndexError]. *)
Definition getitem {A : Type} (l : list A) (i : Z) : result A :=
  let n := Z.of_nat (List.length l) in
  let j := if i <? 0 then i + n else i in
  if (j <? 0) || (n <=? j) then Raise IndexError
  else match nth_error l (Z.to_nat j) with
       | Some a => Ok a
       | None => Raise IndexError
       end.

(** [l[:stop]] for any [stop]. *)
Definition slice_to {A : Type} (l : list A) (stop : Z) : list A :=
  let n := Z.of_nat (List.length l) in
  let j := if stop <? 0 then Z.max 0 (stop + n) else stop in
  firstn (Z.to_nat j) l.

(** [range(n)] as integers. *)
Definition range (n : Z) : list Z := map Z.of_nat (seq 0 (Z.to_nat n)).

(** ** Data model *)

(** One row of the CSV as pandas holds it: a missing cell of a float column
    is [nan]. *)
Record SeaLevelRecord (F : Type) : Type := mkRecord {
  Year : Z;
  Mean_Sea_Level_m : F;
  Mean_Higher_High_Water_m : F;
  Mean_Lower_High_Water_m : F;
  Mean_Higher_Low_Water_m : F;
  Mean_Lower_Low_Water_m : F
}.

Definition DataFrame (F : Type) : Type := list (SeaLevelRecord F).

(** [df.dropna(subset=['Mean_Sea_Level_m'])]. *)
Definition dropna_msl {F} `{Arith F} (df : DataFrame F) : DataFrame F :=
  filter (fun r => negb (isnan (Mean_Sea_Level_m r))) df.

(** The files on disk: [None] when the path does not exist, otherwise what
    [pd.read_csv] makes of the contents. *)
Definition FileSystem (F : Type) : Type := string -> option (result (DataFrame F)).

Definition read_csv {F} (fs : FileSystem F) (path : string) : result (DataFrame F) :=
  match fs path with
  | None => Raise FileNotFoundError
  | Some r => r
  end.

(** [for x in l: ...] with a body that may raise. *)
Fixpoint mapM {A B : Type} (f : A -> result B) (l : list A) : result (list B) :=
  match l with
  | [] => Ok []
  | a :: t => b <- f a ;; bs <- mapM f t ;; Ok (b :: bs)
  end.

(** The elements kept by a loop that appends under a condition. *)
Fixpoint somes {A : Type} (l : list (option A)) : list A :=
  match l with
  | [] => []
  | Some a :: t => a :: somes t
  | None :: t => somes t
  end.

(** [np.column_stack([a, b])] of two one-dimensional arrays. *)
Definition column_stack {A : Type} (a b : list A) : result (list (A * A)) :=
  if Nat.eqb (List.length a) (List.length b) then Ok (combine a b)
  else Raise ValueError.

(** [a.min()] and [a.max()] of a numpy array: the reduction keeps the
    accumulator when it is smaller (greater) or [nan]. *)
Definition fmin {F} `{Arith F} (a b : F) : F := if ltb a b || isnan a then a else b.
Definition fmax {F} `{Arith F} (a b : F) : F := if ltb b a || isnan a then a else b.

Definition np_min {F} `{Arith F} (l : list F) : result F :=
  match l with
  | [] => Raise ValueError
  | x :: t => Ok (fold_left fmin t x)
  end.

Definition np_max {F} `{Arith F} (l : list F) : result F :=
  match l with
  | [] => Raise ValueError
  | x :: t => Ok (fold_left fmax t x)
  end.

(** ** The animators *)

(** What the scripts write to standard output. *)
Inductive output (F : Type) : Type :=
| Printed (s : string)
| PrintedAnimationInfo (first_year last_year : Z) (n : Z) (lo hi : F) (total_frames : Z).

Arguments Printed {F} s.

(** A year label placed by [ax.text]. *)
Record Text (F : Type) : Type := mkText {
  text_angle : F;
  text_radius : F;
  text_year : Z
}.

(** The contents of the information box. *)
Inductive InfoBox (F : Type) : Type :=
| InfoEmpty
| InfoStart (year : Z) (level : F) (decade : Z) (n : Z)
| InfoCurrent (year decade year_in_decade : Z) (level : F)
              (radius : option F) (shown n : Z) (progress : F).

Arguments InfoEmpty {F}.

(** The artists the frame callback updates. *)
Record Artists (F : Type) : Type := mkArtists {
  line : list F * list F;
  points_offsets : list (F * F);
  points_array : list F;
  start_point : list F * list F;
  current_point : list F * list F;
  year_texts : list (Text F);
  info_text : InfoBox F
}.

(** The artists as created before the first frame. *)
Definition initial_artists {F : Type} : Artists F :=
  mkArtists ([], []) [] [] ([], []) ([], []) [] InfoEmpty.

Section Animate.
Context {F : Type} `{Arith F}.

(** The arrays captured by the closure [animate]. *)
Variables (years : list Z) (sea_levels angles radii : list F).

(** The two scripts differ in the colour given to a point (computed from
    its index) and in whether the information box shows the radius. *)
Variable colour : Z -> result F.
Variable show_radius : bool.

Definition len_years : Z := Z.of_nat (List.length years).

(** The test of the labelling loop,
    [i == 0 or i == current_idx or years[i] % 5 == 0]. *)
Definition labelled (current_idx i : Z) : result bool :=
  if (i =? 0) || (i =? current_idx) then Ok true
  else y <- getitem years i ;; Ok (y mod 5 =? 0).

(** One turn of the labelling loop: the label of point [i], if it gets one. *)
Definition label_at (current_idx i : Z) : result (option (Text F)) :=
  label_angle <- getitem angles i ;;
  r <- getitem radii i ;;
  let label_radius := add r (dec 15 100) in
  b <- labelled current_idx i ;;
  if b then y <- getitem years i ;; Ok (Some (mkText label_angle label_radius y))
  else Ok None.

Definition animate (prev : Artists F) (frame : Z) : result (Artists F) :=
  if frame =? 0 then
    a0 <- getitem angles 0 ;;
    r0 <- getitem radii 0 ;;
    y0 <- getitem years 0 ;;
    l0 <- getitem sea_levels 0 ;;
    Ok {| line := ([], []);
          points_offsets := [];
          points_array := points_array prev;
          start_point := ([a0], [r0]);
          current_point := ([], []);
          year_texts := [];
          info_text := InfoStart y0 l0 (y0 / 10 * 10) len_years |}
  else
    let current_idx := Z.min frame (len_years - 1) in
    let line_angles := slice_to angles (current_idx + 1) in
    let line_radii := slice_to radii (current_idx + 1) in
    scatter <-
      (if 0 <=? current_idx then
         colors <- mapM colour (range (current_idx + 1)) ;;
         offsets <- column_stack line_angles line_radii ;;
         Ok (offsets, colors)
       else Ok (points_offsets prev, points_array prev)) ;;
    labels <- mapM (label_at current_idx) (range (current_idx + 1)) ;;
    ac <- getitem angles current_idx ;;
    rc <- getitem radii current_idx ;;
    a0 <- getitem angles 0 ;;
    r0 <- getitem radii 0 ;;
    current_year <- getitem years current_idx ;;
    current_level <- getitem sea_levels current_idx ;;
    let current_decade := current_year / 10 * 10 in
    let year_in_decade := current_year mod 10 in
    let progress :=
      mul (div (of_int (current_idx + 1)) (of_int len_years)) (of_int 100) in
    Ok {| line := (line_angles, line_radii);
          points_offsets := fst scatter;
          points_array := snd scatter;
          start_point := ([a0], [r0]);
          current_point := ([ac], [rc]);
          year_texts := somes labels;
          info_text :=
            InfoCurrent current_year current_decade year_in_decade current_level
              (if show_radius then Some rc else None)
              (current_idx + 1) len_years progress |}.

(** [FuncAnimation(fig, animate, frames=total_frames, ...)]: the frame
    indices of one pass. *)
Definition total_frames : Z := len_years + 60.
Definition frames : list Z := range total_frames.

(** What a frame puts on the canvas: the scatter draws one marker per
    offset, coloured from [points_array]. *)
Definition rendered (a : Artists F) :=
  (line a, combine (points_offsets a) (points_array a), start_point a,
   current_point a, year_texts a, info_text a).

(** The data points a frame shows, by whichever artist. *)
Definition plotted (a : Artists F) : list (F * F) :=
  combine (fst (start_point a)) (snd (start_point a))
  ++ combine (fst (line a)) (snd (line a))
  ++ points_offsets a
  ++ combine (fst (current_point a)) (snd (current_point a)).

End Animate.

(** A tick label of the radial grid. *)
Inductive grid_label (F : Type) : Type :=
| DecadeLabel (decade_year : Z)
| LevelLabel (actual_level : F).

Arguments DecadeLabel {F} decade_year.

(** The figure handed to [plt.show()]. *)
Record Chart (F : Type) : Type := mkChart {
  chart_years : list Z;
  chart_sea_levels : list F;
  chart_angles : list F;
  chart_radii : list F;
  chart_ylim : Z;
  chart_rgrids : list (Z * grid_label F);
  chart_start_year : Z;
  chart_frames : list Z
}.

Definition csv_path : string := "HKO_QUB_SeaLevel_Data_20250918_163225.csv".

(** *** animated_sea_level.py: the decade-offset policy *)

Module animated_sea_level.
Section Script.
Context {F : Type} `{Arith F}.

Definition load_sea_level_data (fs : FileSystem F)
  : list (output F) * result (option (DataFrame F)) :=
  match read_csv fs csv_path with
  | Ok df => ([], Ok (Some (dropna_msl df)))
  | Raise FileNotFoundError => ([Printed "未找到数据文件！"], Ok None)
  | Raise e => ([], Raise e)
  end.

Definition angle_of (year : Z) : F :=
  let year_in_decade := year mod 10 in
  mul (mul (div (of_int year_in_decade) (of_int 10)) (of_int 2)) pi.

Definition radius_of (year : Z) (level : F) : F :=
  let decade := year / 10 - 195 in
  let level_offset := mul (sub level (dec 135 100)) (of_int 5) in
  add (of_int (decade + 1)) level_offset.

Definition angles_of (years : list Z) (sea_levels : list F) : list F :=
  map (fun yl => angle_of (fst yl)) (combine years sea_levels).

Definition radii_of (years : list Z) (sea_levels : list F) : list F :=
  map (fun yl => radius_of (fst yl) (snd yl)) (combine years sea_levels).

(** The dashed decade circles and their labels, 1950s to 2020s. *)
Definition decade_grid (max_radius : Z) : list (Z * grid_label F) :=
  somes (map (fun decade_num =>
                let decade_year := 1950 + decade_num * 10 in
                let radius := decade_num + 1 in
                if radius <=? max_radius
                then Some (radius, DecadeLabel decade_year) else None)
             (range 8)).

(** The colour of point [i]: its decade, scaled by 7. *)
Definition colour (years : list Z) (i : Z) : result F :=
  y <- getitem years i ;;
  let decade := y / 10 - 195 in
  Ok (div (of_int decade) (of_int 7)).

Definition animate (years : list Z) (sea_levels angles radii : list F)
  : Artists F -> Z -> result (Artists F) :=
  animate years sea_levels angles radii (colour years) false.

Definition create_animated_polar_chart (fs : FileSystem F)
  : list (output F) * result (option (Chart F)) :=
  match load_sea_level_data fs with
  | (out, Raise e) => (out, Raise e)
  | (out, Ok None) => (out, Ok None)
  | (out, Ok (Some df)) =>
      let years := map (@Year F) df in
      let sea_levels := map (@Mean_Sea_Level_m F) df in
      let angles := angles_of years sea_levels in
      let radii := radii_of years sea_levels in
      match
        (last_year <- getitem years (-1) ;;
         let max_radius := last_year / 10 - 195 + 3 in
         first_year <- getitem years 0 ;;
         lo <- np_min sea_levels ;;
         hi <- np_max sea_levels ;;
         Ok (mkChart years sea_levels angles radii max_radius
               (decade_grid max_radius) first_year (frames years),
             PrintedAnimationInfo first_year last_year (len_years years) lo hi
               (total_frames years)))
      with
      | Ok (chart, info) => (out ++ [info], Ok (Some chart))
      | Raise e => (out, Raise e)
      end
  end.

(** The script run as a program. *)
Definition main (fs : FileSystem F) : list (output F) * result (option (Chart F)) :=
  let (out, r) := create_animated_polar_chart fs in
  ([Printed "创建海平面动画...";
    Printed "动画效果：10年一个轮回，角度=年代内年份，半径=年代+海平面";
    Printed "年份标签：显示在每个点旁边"] ++ out, r).

End Script.
End animated_sea_level.

(** *** polarCoordVisualization.py: the min-max normalized policy *)

Module polarCoordVisualization.
Section Script.
Context {F : Type} `{Arith F}.

Definition load_sea_level_data (fs : FileSystem F)
  : list (output F) * result (option (DataFrame F)) :=
  match read_csv fs csv_path with
  | Ok df => ([], Ok (Some (dropna_msl df)))
  | Raise FileNotFoundError => ([Printed "Data file not found!"], Ok None)
  | Raise e => ([], Raise e)
  end.

Definition angle_of (year : Z) : F :=
  let year_in_decade := year mod 10 in
  mul (mul (div (of_int year_in_decade) (of_int 10)) (of_int 2)) pi.

Definition radius_of (min_level max_level level : F) : F :=
  add (of_int 1)
      (mul (div (sub level min_level) (sub max_level min_level)) (of_int 4)).

Definition angles_of (years : list Z) (sea_levels : list F) : list F :=
  map (fun yl => angle_of (fst yl)) (combine years sea_levels).

(** The loop recomputes the minimum and the maximum of the whole array at
    every turn. *)
Definition radii_of (years : list Z) (sea_levels : list F) : result (list F) :=
  mapM (fun yl : Z * F =>
          min_level <- np_min sea_levels ;;
          max_level <- np_max sea_levels ;;
          Ok (radius_of min_level max_level (snd yl)))
       (combine years sea_levels).

(** The radial ticks 1 to 5, labelled with the level each stands for. *)
Definition level_grid (min_level max_level : F) : list (Z * grid_label F) :=
  map (fun r =>
         (r, LevelLabel
               (add min_level
                    (mul (div (of_int (r - 1)) (of_int 4))
                         (sub max_level min_level)))))
      [1; 2; 3; 4; 5].

(** The colour of point [i]: its year as a fraction of the covered span. *)
Definition colour (years : list Z) (i : Z) : result F :=
  y <- getitem years i ;;
  first_year <- getitem years 0 ;;
  last_year <- getitem years (-1) ;;
  first_year' <- getitem years 0 ;;
  Ok (div (of_int (y - first_year)) (of_int (last_year - first_year'))).

Definition animate (years : list Z) (sea_levels angles radii : list F)
  : Artists F -> Z -> result (Artists F) :=
  animate years sea_levels angles radii (colour years) true.

Definition create_animated_polar_chart (fs : FileSystem F)
  : list (output F) * result (option (Chart F)) :=
  match load_sea_level_data fs with
  | (out, Raise e) => (out, Raise e)
  | (out, Ok None) => (out, Ok None)
  | (out, Ok (Some df)) =>
      let years := map (@Year F) df in
      let sea_levels := map (@Mean_Sea_Level_m F) df in
      let angles := angles_of years sea_levels in
      match
        (radii <- radii_of years sea_levels ;;
         min_level <- np_min sea_levels ;;
         max_level <- np_max sea_levels ;;
         first_year <- getitem years 0 ;;
         last_year <- getitem years (-1) ;;
         Ok (mkChart years sea_levels angles radii 6
               (level_grid min_level max_level) first_year (frames years),
             PrintedAnimationInfo first_year last_year (len_years years)
               min_level max_level (total_frames years)))
      with
      | Ok (chart, info) => (out ++ [info], Ok (Some chart))
      | Raise e => (out, Raise e)
      end
  end.

Definition main (fs : FileSystem F) : list (output F) * result (option (Chart F)) :=
  let (out, r) := create_animated_polar_chart fs in
  ([Printed "Creating sea level animation...";
    Printed "Animation effect: 10-year cycles, angle=year in decade, radius=sea level height";
    Printed "Year labels: Displayed next to each point"] ++ out, r).

End Script.
End polarCoordVisualization.

(** *** The two animators side by side *)

Inductive Policy : Type := DecadeOffset | MinMax.

Definition create_chart {F} `{Arith F} (p : Policy) (fs : FileSystem F)
  : list (output F) * result (option (Chart F)) :=
  match p with
  | DecadeOffset => animated_sea_level.create_animated_polar_chart fs
  | MinMax => polarCoordVisualization.create_animated_polar_chart fs
  end.

(** The frame callback of a chart. *)
Definition animate_chart {F} `{Arith F} (p : Policy) (chart : Chart F)
  : Artists F -> Z -> result (Artists F) :=
  match p with
  | DecadeOffset =>
      animated_sea_level.animate (chart_years chart) (chart_sea_levels chart)
        (chart_angles chart) (chart_radii chart)
  | MinMax =>
      polarCoordVisualization.animate (chart_years chart) (chart_sea_levels chart)
        (chart_angles chart) (chart_radii chart)
  end.

(** ** crawl_hko_sea_level.py *)

(** A JSON scalar as [response.json()] returns it. *)
Inductive pyval (F : Type) : Type :=
| PNone
| PBool (b : bool)
| PInt (z : Z)
| PFloat (x : F)
| PStr (s : string).

Arguments PNone {F}.
Arguments PBool {F} b.
Arguments PInt {F} z.
Arguments PStr {F} s.

(** One station of the payload, [{code, yearData: [[year, msl, ...], ...]}]. *)
Record Station (F : Type) : Type := mkStation {
  code : option string;
  yearData : list (list (pyval F))
}.

(** What [requests.get], [raise_for_status] and [response.json()] end in. *)
Inductive Response (F : Type) : Type :=
| NetworkFailure
| MalformedJSON
| UnexpectedShape                       (* no [tide.data], no [yearData] *)
| Payload (stations : list (Station F)).

Arguments NetworkFailure {F}.
Arguments MalformedJSON {F}.
Arguments UnexpectedShape {F}.

(** One entry of [processed_data]: a level is a float or Python's [None]. *)
Record YearDict (F : Type) : Type := mkYearDict {
  d_Year : Z;
  d_Mean_Sea_Level_m : option F;
  d_Mean_Higher_High_Water_m : option F;
  d_Mean_Lower_High_Water_m : option F;
  d_Mean_Higher_Low_Water_m : option F;
  d_Mean_Lower_Low_Water_m : option F
}.

(** The three files of a successful run. *)
Record CrawlFiles (F : Type) : Type := mkCrawlFiles {
  csv_file : DataFrame F;
  simple_csv_file : list (Z * F);
  metadata_total_records : Z;
  metadata_year_range : Z * Z
}.

(** Insertion of a row into rows sorted by year. *)
Fixpoint insert_by_year {F : Type} (r : SeaLevelRecord F) (l : DataFrame F)
  : DataFrame F :=
  match l with
  | [] => [r]
  | h :: t => if Year r <? Year h then r :: h :: t else h :: insert_by_year r t
  end.

(** [df.sort_values('Year')].  Rows of equal year keep their order here;
    pandas leaves their order open. *)
Definition sort_values_Year {F : Type} (df : DataFrame F) : DataFrame F :=
  fold_left (fun acc r => insert_by_year r acc) df [].

Section Crawler.
Context {F : Type} `{Arith F}.

(** Python's built-in conversions [int(...)] and [float(...)]. *)
Variable py_int : pyval F -> result Z.
Variable py_float : pyval F -> result F.

(** The truth value of a scalar, as [if v] tests it. *)
Definition truthy (v : pyval F) : bool :=
  match v with
  | PNone => false
  | PBool b => b
  | PInt z => negb (z =? 0)
  | PFloat x => negb (eqb x (of_int 0))
  | PStr s => negb (String.eqb s "")
  end.

(** [v != '***']. *)
Definition not_sentinel (v : pyval F) : bool :=
  match v with
  | PStr s => negb (String.eqb s "***")
  | _ => true
  end.

(** [v if v != '***' else None]. *)
Definition strip_sentinel (v : pyval F) : pyval F :=
  if not_sentinel v then v else PNone.

(** [float(x) if x else None]. *)
Definition float_or_None (x : pyval F) : result (option F) :=
  if truthy x then (f <- py_float x ;; Ok (Some f)) else Ok None.

(** The body of the loop over [yearData]. *)
Definition process_record (year_record : list (pyval F)) : result (YearDict F) :=
  year <- getitem year_record 0 ;;
  v1 <- getitem year_record 1 ;;
  let mean_sea_level := strip_sentinel v1 in
  v2 <- getitem year_record 2 ;;
  let mean_higher_high_water := strip_sentinel v2 in
  v3 <- getitem year_record 3 ;;
  let mean_lower_high_water := strip_sentinel v3 in
  v4 <- getitem year_record 4 ;;
  let mean_higher_low_water := strip_sentinel v4 in
  v5 <- getitem year_record 5 ;;
  let mean_lower_low_water := strip_sentinel v5 in
  y <- py_int year ;;
  msl <- float_or_None mean_sea_level ;;
  mhhw <- float_or_None mean_higher_high_water ;;
  mlhw <- float_or_None mean_lower_high_water ;;
  mhlw <- float_or_None mean_higher_low_water ;;
  mllw <- float_or_None mean_lower_low_water ;;
  Ok (mkYearDict y msl mhhw mlhw mhlw mllw).

(** A [None] of [processed_data] becomes [nan] in the frame. *)
Definition cell (v : option F) : F :=
  match v with
  | Some x => x
  | None => nan
  end.

Definition frame_row (d : YearDict F) : SeaLevelRecord F :=
  mkRecord (d_Year d) (cell (d_Mean_Sea_Level_m d))
    (cell (d_Mean_Higher_High_Water_m d)) (cell (d_Mean_Lower_High_Water_m d))
    (cell (d_Mean_Higher_Low_Water_m d)) (cell (d_Mean_Lower_Low_Water_m d)).

(** [pd.DataFrame(processed_data).sort_values('Year')]: a frame built from
    no rows has no column [Year]. *)
Definition sorted_frame (processed_data : list (YearDict F)) : result (DataFrame F) :=
  match processed_data with
  | [] => Raise KeyError
  | _ => Ok (sort_values_Year (map frame_row processed_data))
  end.

(** [df[['Year', 'Mean_Sea_Level_m']].copy().dropna()]. *)
Definition simple_df (df : DataFrame F) : list (Z * F) :=
  filter (fun row => negb (isnan (snd row)))
         (map (fun r => (Year r, Mean_Sea_Level_m r)) df).

Definition year_min (df : DataFrame F) (d : Z) : Z :=
  fold_left Z.min (map (@Year F) df) d.
Definition year_max (df : DataFrame F) (d : Z) : Z :=
  fold_left Z.max (map (@Year F) df) d.

(** The first station whose code is QUB. *)
Definition find_qub (stations : list (Station F)) : option (Station F) :=
  find (fun st => match code st with
                  | Some c => String.eqb c "QUB"
                  | None => false
                  end) stations.

(** The [try] block.  [Ok None] is the early [return None] when the station
    is missing. *)
Definition crawl_body (resp : Response F)
  : result (option (DataFrame F * CrawlFiles F)) :=
  match resp with
  | NetworkFailure => Raise RequestException
  | MalformedJSON => Raise JSONDecodeError
  | UnexpectedShape => Raise KeyError
  | Payload stations =>
      match find_qub stations with
      | None => Ok None
      | Some qub_data =>
          processed_data <- mapM process_record (yearData qub_data) ;;
          df <- sorted_frame processed_data ;;
          let first := match df with r :: _ => Year r | [] => 0 end in
          Ok (Some (df,
                    mkCrawlFiles df (simple_df df)
                      (Z.of_nat (List.length df))
                      (year_min df first, year_max df first)))
      end
  end.

(** Every exception is caught, reported, and turned into [None]; the
    progress messages are not modelled. *)
Definition crawl_hko_sea_level_data (resp : Response F)
  : option (DataFrame F) * option (CrawlFiles F) :=
  match crawl_body resp with
  | Ok (Some (df, files)) => (Some df, Some files)
  | Ok None => (None, None)
  | Raise _ => (None, None)
  end.

End Crawler.

(** *** The built-in conversions on the values the payload carries

    [float(s)] and [int(s)] are modelled on plain decimal numerals (an
    optional sign, digits, for [float] an optional fraction); the other
    spellings Python accepts (exponents, [inf], [nan], blanks around the
    numeral, underscores) are refused here with [ValueError].  The quotient
    [m / 10^d] is the correctly rounded value of the numeral in binary64 as
    long as [m < 2^53] and [d <= 22]. *)

Definition digit_of (c : ascii) : option Z :=
  let n := Z.of_nat (nat_of_ascii c) in
  if (48 <=? n) && (n <=? 57) then Some (n - 48) else None.

(** The value of a run of digits read after [acc], and their number. *)
Fixpoint digits (s : string) (acc : Z) (count : Z) : option (Z * Z) :=
  match s with
  | EmptyString => Some (acc, count)
  | String c rest =>
      match digit_of c with
      | Some d => digits rest (10 * acc + d) (count + 1)
      | None => None
      end
  end.

(** The part of a string before the first dot, and the part after it. *)
Fixpoint split_dot (s : string) : string * option string :=
  match s with
  | EmptyString => (EmptyString, None)
  | String c rest =>
      if Ascii.eqb c "."%char then (EmptyString, Some rest)
      else let (a, b) := split_dot rest in (String c a, b)
  end.

(** A sign and the rest of the numeral. *)
Definition split_sign (s : string) : bool * string :=
  match s with
  | String c rest =>
      if Ascii.eqb c "-"%char then (true, rest)
      else if Ascii.eqb c "+"%char then (false, rest)
      else (false, s)
  | EmptyString => (false, s)
  end.

Definition int_of_string (s : string) : result Z :=
  let (neg, body) := split_sign s in
  match digits body 0 0 with
  | Some (m, count) =>
      if count =? 0 then Raise ValueError else Ok (if neg then - m else m)
  | None => Raise ValueError
  end.

Definition float_of_string {F} `{Arith F} (s : string) : result F :=
  let (neg, body) := split_sign s in
  let (whole, frac) := split_dot body in
  match digits whole 0 0 with
  | Some (m, nw) =>
      match digits (match frac with Some f => f | None => EmptyString end) m 0 with
      | Some (m', nf) =>
          if nw + nf =? 0 then Raise ValueError
          else
            let q := div (of_int m') (of_int (10 ^ nf)) in
            Ok (if neg then mul (of_int (-1)) q else q)
      | None => Raise ValueError
      end
  | None => Raise ValueError
  end.

(** [float(v)]. *)
Definition float_builtin {F} `{Arith F} (v : pyval F) : result F :=
  match v with
  | PNone => Raise TypeError
  | PBool b => Ok (of_int (if b then 1 else 0))
  | PInt z => Ok (of_int z)
  | PFloat x => Ok x
  | PStr s => float_of_string s
  end.

(** [int(v)], given the truncation [trunc] of a float towards zero. *)
Definition int_builtin {F} (trunc : F -> result Z) (v : pyval F) : result Z :=
  match v with
  | PNone => Raise TypeError
  | PBool b => Ok (if b then 1 else 0)
  | PInt z => Ok z
  | PFloat x => trunc x
  | PStr s => int_of_string s
  end.

(** Truncation of a binary64 value; the infinities and NaN have none. *)
Definition float_trunc (x : float) : result Z :=
  match Prim2SF x with
  | S754_zero _ => Ok 0
  | S754_finite s m e =>
      let a := if 0 <=? e then Z.shiftl (Zpos m) e else Z.shiftr (Zpos m) (- e) in
      Ok (if s then - a else a)
  | S754_infinity _ => Raise OverflowError
  | S754_nan => Raise ValueError
  end.

(** ** seaLevelAnalysis.py *)

(** One row of [decade_stats]. *)
Record DecadeStats (F : Type) : Type := mkDecadeStats {
  Decade : Z;
  stat_mean : F;
  stat_std : F;
  stat_count : Z
}.

(** Insertion into a strictly increasing list of keys. *)
Fixpoint insert_key (k : Z) (l : list Z) : list Z :=
  match l with
  | [] => [k]
  | h :: t => if k <? h then k :: h :: t
              else if k =? h then h :: t
              else h :: insert_key k t
  end.

(** The group keys of a [groupby]: the distinct values, ascending. *)
Definition group_keys (keys : list Z) : list Z :=
  fold_left (fun acc k => insert_key k acc) keys [].

Section Analyzer.
Context {F : Type} `{Arith F}.

Definition fsum (l : list F) : F := fold_left add l (of_int 0).

(** [np.polyfit(x, y, 1)], numpy's least-squares line, by its closed form:
    the pair (slope, intercept), which is [z[0]], [z[1]].  numpy refuses an
    empty [x] and arrays of different lengths with a [TypeError].  numpy
    solves the problem by a singular value decomposition in binary64; the
    closed form agrees with it in exact arithmetic when the years are not
    all equal, and is undefined where numpy returns the minimum-norm
    solution or fails on [nan]. *)
Definition polyfit1 (x : list Z) (y : list F) : result (F * F) :=
  if Nat.eqb (List.length x) 0 then Raise TypeError
  else if negb (Nat.eqb (List.length x) (List.length y)) then Raise TypeError
  else
    let xs := map of_int x in
    let n := of_int (Z.of_nat (List.length x)) in
    let sx := fsum xs in
    let sy := fsum y in
    let sxx := fsum (map (fun a => mul a a) xs) in
    let sxy := fsum (map (fun ab => mul (fst ab) (snd ab)) (combine xs y)) in
    let slope := div (sub (mul n sxy) (mul sx sy)) (sub (mul n sxx) (mul sx sx)) in
    let intercept := div (sub sy (mul slope sx)) n in
    Ok (slope, intercept).

(** [df['Decade'] = (df['Year'] // 10) * 10]. *)
Definition decade_of (year : Z) : Z := year / 10 * 10.

(** The levels of one group, missing cells skipped as the aggregations of
    pandas do. *)
Definition group_levels (df : DataFrame F) (decade : Z) : list F :=
  filter (fun x => negb (isnan x))
         (map (@Mean_Sea_Level_m F)
              (filter (fun r => decade_of (Year r) =? decade) df)).

Definition agg_count (l : list F) : Z := Z.of_nat (List.length l).

Definition agg_mean (l : list F) : F := div (fsum l) (of_int (agg_count l)).

(** The sample standard deviation (one degree of freedom removed), [nan]
    for fewer than two values. *)
Definition agg_std (l : list F) : F :=
  if agg_count l <=? 1 then nan
  else
    let m := agg_mean l in
    sqrt (div (fsum (map (fun x => mul (sub x m) (sub x m)) l))
              (of_int (agg_count l - 1))).

(** [df.groupby('Decade')['Mean_Sea_Level_m'].agg(['mean', 'std', 'count'])]. *)
Definition decade_stats (df : DataFrame F) : list (DecadeStats F) :=
  map (fun d =>
         let l := group_levels df d in
         mkDecadeStats d (agg_mean l) (agg_std l) (agg_count l))
      (group_keys (map (fun r => decade_of (Year r)) df)).

(** [decade_stats[decade_stats['count'] >= 5]], the bars of the fifth panel,
    and the lines written under DECADAL AVERAGES. *)
Definition displayed_decades (df : DataFrame F) : list (DecadeStats F) :=
  filter (fun s => 5 <=? stat_count s) (decade_stats df).

(** The parts of the six-panel figure that the properties below concern:
    the trend line of the first panel and the bars of the fifth. *)
Record Analysis : Type := mkAnalysis {
  trend : F * F;
  recent_trend : option (F * F);
  decadal_bars : list (DecadeStats F)
}.

Definition create_comprehensive_analysis (df : DataFrame F) : result Analysis :=
  let years := map (@Year F) df in
  let sea_level := map (@Mean_Sea_Level_m F) df in
  z <- polyfit1 years sea_level ;;
  let recent_df := filter (fun r => 1995 <=? Year r) df in
  z_recent <-
    (if Nat.ltb 0 (List.length recent_df) then
       zr <- polyfit1 (map (@Year F) recent_df)
                      (map (@Mean_Sea_Level_m F) recent_df) ;;
       Ok (Some zr)
     else Ok None) ;;
  Ok (mkAnalysis z z_recent (displayed_decades df)).

(** The DECADAL AVERAGES section the report writer produces: one line per
    decade with at least five counted years (its other sections are not
    modelled). *)
Definition generate_summary_report (df : DataFrame F) : list (DecadeStats F) :=
  somes (map (fun s => if 5 <=? stat_count s then Some s else None)
             (decade_stats df)).

End Analyzer.

(** ** Sample data and auxiliary notions *)

(** A disk without the file. *)
Definition empty_disk : FileSystem float := fun _ => None.

(** Three rows, one of them without a level, and a disk holding them as
    the data file. *)
Definition sample_rows : DataFrame xreal :=
  [ mkRecord 1954 (Some 1.31%R) None None None None;
    mkRecord 1955 None None None None None;
    mkRecord 1956 (Some 1.33%R) None None None None ].

Definition sample_disk : FileSystem xreal :=
  fun path => if String.eqb path csv_path then Some (Ok sample_rows) else None.

(** Two years at the same level, in each arithmetic. *)
Definition flat_rows_exact : DataFrame xreal :=
  [ mkRecord 2001 (Some 1.4%R) None None None None;
    mkRecord 2002 (Some 1.4%R) None None None None ].

Definition flat_disk_exact : FileSystem xreal :=
  fun path => if String.eqb path csv_path then Some (Ok flat_rows_exact) else None.

Definition flat_rows_float : DataFrame float :=
  [ mkRecord 2001 (dec 14 10) nan nan nan nan;
    mkRecord 2002 (dec 14 10) nan nan nan nan ].

Definition flat_disk_float : FileSystem float :=
  fun path => if String.eqb path csv_path then Some (Ok flat_rows_float) else None.

(** Three consecutive years in binary64. *)
Definition rows_1954 : DataFrame float :=
  [ mkRecord 1954 (dec 131 100) nan nan nan nan;
    mkRecord 1955 (dec 133 100) nan nan nan nan;
    mkRecord 1956 (dec 129 100) nan nan nan nan ].

Definition disk_1954 : FileSystem float :=
  fun path => if String.eqb path csv_path then Some (Ok rows_1954) else None.

(** Three levels, the second 10^-17 above the first. *)
Definition near_rows : DataFrame float :=
  [ mkRecord 2001 (of_int 0) nan nan nan nan;
    mkRecord 2002 (dec 1 (10 ^ 17)) nan nan nan nan;
    mkRecord 2003 (of_int 1) nan nan nan nan ].

Definition near_disk : FileSystem float :=
  fun path => if String.eqb path csv_path then Some (Ok near_rows) else None.

(** The indices the labelling loop labels on a frame with current index [c]. *)
Definition labelled_indices (years : list Z) (c : Z) : list Z :=
  filter (fun i => match labelled years c i with
                   | Ok b => b
                   | Raise _ => false
                   end) (range (c + 1)).

(** The indices the documentation names: every fifth index, the first and
    the last visible one. *)
Definition every_fifth_index (c : Z) : list Z :=
  filter (fun i => (i mod 5 =? 0) || (i =? 0) || (i =? c)) (range (c + 1)).

(** The one fact about [nan] the crawler's properties rest on. *)
Class NanLaw (F : Type) `{Arith F} : Prop := isnan_nan : isnan nan = true.

(** A year record without any level. *)
Definition record_1957 : list (pyval float) :=
  [PStr "1957"; PStr "***"; PStr "***"; PStr "***"; PStr "***"; PStr "***"].

(** A payload for QUB with one complete year, one year without a mean sea
    level, and one year whose lower low water is the number 0. *)
Definition sample_qub : Station float :=
  mkStation (Some "QUB"%string)
    [ [PStr "2024"; PStr "1.410"; PStr "1.750"; PStr "1.520"; PStr "0.880"; PStr "0.650"];
      record_1957;
      [PStr "1990"; PStr "1.300"; PStr "1.700"; PStr "1.500"; PStr "0.900"; PInt 0] ].

Definition sample_stations : list (Station float) :=
  [ mkStation (Some "TBT"%string) []; sample_qub ].

Definition sample_payload : Response float := Payload sample_stations.

(** A year record with falsy values at three of its level positions. *)
Definition record_1990 : list (pyval float) :=
  [PStr "1990"; PInt 0; PStr ""; PFloat PrimFloat.zero; PStr "0.900"; PStr "0"].



(** The five years 2020 to 2024 with the levels 1.30, 1.32, 1.35, 1.33 and
    1.38, in each arithmetic. *)
Definition recent_row {F} `{Arith F} (year : Z) (centimetres : Z) : SeaLevelRecord F :=
  mkRecord year (dec centimetres 100) nan nan nan nan.

Definition recent_five {F} `{Arith F} : DataFrame F :=
  [ recent_row 2020 130; recent_row 2021 132; recent_row 2022 135;
    recent_row 2023 133; recent_row 2024 138 ].

(** A disk whose data file holds two rows, both without a level. *)
Definition blank_rows : DataFrame float :=
  [ mkRecord 1954 nan nan nan nan nan;
    mkRecord 1955 nan nan nan nan nan ].

Definition blank_disk : FileSystem float :=
  fun path => if String.eqb path csv_path then Some (Ok blank_rows) else None.

(** A disk whose data file holds a single year. *)
Definition one_row_disk : FileSystem float :=
  fun path =>
    if String.eqb path csv_path
    then Some (Ok [mkRecord 1999 (dec 14 10) nan nan nan nan])
    else None.

(** The data file as a crawl of [sample_payload] leaves it, read back
    unchanged. *)
Definition crawled_disk : FileSystem float :=
  fun path =>
    if String.eqb path csv_path then
      match crawl_hko_sea_level_data (int_builtin float_trunc) float_builtin
              sample_payload with
      | (_, Some files) => Some (Ok (csv_file files))
      | _ => None
      end
    else None.

(** A station whose second record lacks its last entry. *)
Definition short_qub : Station float :=
  mkStation (Some "QUB"%string)
    [ [PStr "2024"; PStr "1.410"; PStr "1.750"; PStr "1.520"; PStr "0.880"; PStr "0.650"];
      [PStr "2023"; PStr "1.400"; PStr "1.740"; PStr "1.510"; PStr "0.870"] ].

(** ** seaLevelAnalysis.py: loading, the remaining panels, the report, main *)

(** A file of the working directory: its name, its [os.path.getctime] (the
    creation time on Windows, the time of the last metadata change on
    Unix; compared as a number) and what [pd.read_csv] makes of its
    contents. *)
Record DirEntry (F : Type) : Type := mkDirEntry {
  entry_name : string;
  entry_ctime : Z;
  entry_frame : result (DataFrame F)
}.

(** [s] without its prefix [p], when it starts with it. *)
Fixpoint strip_prefix (p s : string) : option string :=
  match p, s with
  | EmptyString, _ => Some s
  | String a p', String b s' => if Ascii.eqb a b then strip_prefix p' s' else None
  | String _ _, EmptyString => None
  end.

Fixpoint ends_with (suffix s : string) : bool :=
  String.eqb s suffix ||
  match s with
  | EmptyString => false
  | String _ rest => ends_with suffix rest
  end.

(** The pattern of [glob.glob("HKO_QUB_SeaLevel_Data_*.csv")] on a file
    name: the star stands for any run of characters; case matters, as it
    does on a POSIX system. *)
Definition glob_data_csv (name : string) : bool :=
  match strip_prefix "HKO_QUB_SeaLevel_Data_" name with
  | Some rest => ends_with ".csv" rest
  | None => false
  end.

(** [max(h :: t, key=key)]: a later element replaces the best one only when
    its key is greater. *)
Definition max_by_key {A : Type} (key : A -> Z) (h : A) (t : list A) : A :=
  fold_left (fun best a => if key best <? key a then a else best) t h.

(** The colours of the year-to-year bars. *)
Inductive bar_colour : Type := red | blue.

(** What [main] has written to disk. *)
Inductive Saved (Fig Tidal Rep : Type) : Type :=
| SavedComprehensive (fig : Fig)
| SavedTidal (fig : Tidal)
| SavedReport (report : Rep)
| SavedPartialReport.

Arguments SavedComprehensive {Fig Tidal Rep} fig.
Arguments SavedTidal {Fig Tidal Rep} fig.
Arguments SavedReport {Fig Tidal Rep} report.
Arguments SavedPartialReport {Fig Tidal Rep}.

(** The three panels of the first figure modelled above. *)
Definition panels_1_2_5 {F} `{Arith F} (df : DataFrame F) : result (@Analysis F) :=
  create_comprehensive_analysis df.

(** The DECADAL AVERAGES section modelled above. *)
Definition decadal_averages {F} `{Arith F} (df : DataFrame F) : list (DecadeStats F) :=
  generate_summary_report df.

Module seaLevelAnalysis.
Section Script.
Context {F : Type} `{Arith F}.

Definition load_latest_data (dir : list (DirEntry F))
  : list (output F) * result (option (DataFrame F)) :=
  let csv_files := filter (fun e => glob_data_csv (entry_name e)) dir in
  match csv_files with
  | [] => ([Printed "No data files found. Please run crawl_hko_sea_level.py first"],
           Ok None)
  | h :: t =>
      let latest_file := max_by_key (@entry_ctime F) h t in
      ([Printed ("Loading data file: " ++ entry_name latest_file)],
       match entry_frame latest_file with
       | Ok df => Ok (Some df)
       | Raise e => Raise e
       end)
  end.

(** [s.diff()]: nothing to subtract from the first value. *)
Definition diff (s : list F) : list F :=
  match s with
  | [] => []
  | _ :: t => nan :: map (fun ab => sub (snd ab) (fst ab)) (combine s t)
  end.

(** [['red' if x < 0 else 'blue' for x in sea_level_change]]. *)
Definition change_colours (sea_level_change : list F) : list bar_colour :=
  map (fun x => if ltb x (of_int 0) then red else blue) sea_level_change.

(** [ax.bar(x, height, color=colors)]: matplotlib gives the bars the colours
    of the list in order, from its first entry (a list shorter than the
    bars would be cycled; here it never is). *)
Definition bar (x : list Z) (height : list F) (colors : list bar_colour)
  : list (Z * F * bar_colour) :=
  combine (combine x height) colors.

(** The third panel. *)
Definition year_to_year_changes (df : DataFrame F) : list (Z * F * bar_colour) :=
  let years := map (@Year F) df in
  let sea_level := map (@Mean_Sea_Level_m F) df in
  let sea_level_change := diff sea_level in
  let colors := change_colours sea_level_change in
  bar (tl years) (tl sea_level_change) colors.

(** [df.dropna(subset=['Mean_Higher_High_Water_m', 'Mean_Lower_Low_Water_m'])]. *)
Definition complete_data (df : DataFrame F) : DataFrame F :=
  filter (fun r => negb (isnan (Mean_Higher_High_Water_m r))
                   && negb (isnan (Mean_Lower_Low_Water_m r))) df.

Definition tidal_range (r : SeaLevelRecord F) : F :=
  sub (Mean_Higher_High_Water_m r) (Mean_Lower_Low_Water_m r).

(** The fourth panel: the tidal range of the complete years and its trend. *)
Definition tidal_range_changes (df : DataFrame F)
  : result (option (list (Z * F) * (F * F))) :=
  let complete_data := complete_data df in
  if Nat.ltb 0 (List.length complete_data) then
    z_range <- polyfit1 (map (@Year F) complete_data) (map tidal_range complete_data) ;;
    Ok (Some (map (fun r => (Year r, tidal_range r)) complete_data, z_range))
  else Ok None.

(** The values present in a series. *)
Definition present (s : list F) : list F := filter (fun x => negb (isnan x)) s.

(** Position and value of the first extreme among the values present. *)
Fixpoint idx_extreme (better : F -> F -> bool) (s : list F) (i : Z)
         (best : option (Z * F)) : option (Z * F) :=
  match s with
  | [] => best
  | x :: t =>
      idx_extreme better t (i + 1)
        (if isnan x then best
         else match best with
              | None => Some (i, x)
              | Some (_, b) => if better x b then Some (i, x) else best
              end)
  end.

(** [df.loc[s.idxmax(), 'Year']] with [s.max()], on a frame with the default
    index.  Without a value present the lookup raises ([ValueError] from
    [idxmax], or in older pandas [KeyError] from [df.loc]). *)
Definition year_of_max (years : list Z) (s : list F) : result (F * Z) :=
  match idx_extreme (fun x b => ltb b x) s 0 None with
  | Some (i, v) => y <- getitem years i ;; Ok (v, y)
  | None => Raise ValueError
  end.

Definition year_of_min (years : list Z) (s : list F) : result (F * Z) :=
  match idx_extreme (fun x b => ltb x b) s 0 None with
  | Some (i, v) => y <- getitem years i ;; Ok (v, y)
  | None => Raise ValueError
  end.

(** [df[df['Year']==year]['Mean_Sea_Level_m'].iloc[0]]. *)
Definition level_in (df : DataFrame F) (year : Z) : result F :=
  getitem (map (@Mean_Sea_Level_m F) (filter (fun r => Year r =? year) df)) 0.

(** The numbers of the sixth panel's text. *)
Record Statistics : Type := mkStatistics {
  n_years : Z;
  average : F;
  std_dev : F;
  maximum : F * Z;
  minimum : F * Z;
  total_change : F;
  rate : F;
  level_2020 : F;
  level_2024 : F;
  four_year_change : F;
  complete_tide_years : Z;
  coverage : F
}.

Definition statistics_summary (df : DataFrame F) (z : F * F) : result Statistics :=
  let years := map (@Year F) df in
  let sea_level := map (@Mean_Sea_Level_m F) df in
  let n := Z.of_nat (List.length df) in
  hi <- year_of_max years sea_level ;;
  lo <- year_of_min years sea_level ;;
  l2020 <- level_in df 2020 ;;
  l2024 <- level_in df 2024 ;;
  l2024' <- level_in df 2024 ;;
  l2020' <- level_in df 2020 ;;
  Ok (mkStatistics n
        (agg_mean (present sea_level)) (agg_std (present sea_level))
        hi lo
        (mul (fst z) (of_int 71)) (mul (fst z) (of_int 10))
        l2020 l2024 (mul (sub l2024' l2020') (of_int 100))
        (Z.of_nat (List.length (complete_data df)))
        (mul (div (of_int n) (of_int 71)) (of_int 100))).

(** The whole first figure.  Panels 3 and 5 cannot raise, so the panels
    raise in the order of the source. *)
Record Figure : Type := mkFigure {
  trends_and_decades : @Analysis F;
  year_to_year : list (Z * F * bar_colour);
  tidal_panel : option (list (Z * F) * (F * F));
  statistics : Statistics
}.

Definition create_comprehensive_analysis (df : DataFrame F) : result Figure :=
  a <- panels_1_2_5 df ;;
  let bars := year_to_year_changes df in
  p4 <- tidal_range_changes df ;;
  s <- statistics_summary df (trend a) ;;
  Ok (mkFigure a bars p4 s).

(** The second figure: the years plotted and the three range curves (the
    box plot and the correlation matrix are not modelled). *)
Record TidalFigure : Type := mkTidalFigure {
  tidal_years : list Z;
  total_tidal_range : list F;
  high_water_range : list F;
  low_water_range : list F
}.

Definition create_tide_components_analysis (df : DataFrame F)
  : list (output F) * option TidalFigure :=
  let complete_data := complete_data df in
  if Nat.eqb (List.length complete_data) 0 then
    ([Printed "No complete tidal data available"], None)
  else
    ([], Some (mkTidalFigure
                 (map (@Year F) complete_data)
                 (map tidal_range complete_data)
                 (map (fun r => sub (Mean_Higher_High_Water_m r)
                                    (Mean_Lower_High_Water_m r)) complete_data)
                 (map (fun r => sub (Mean_Higher_Low_Water_m r)
                                    (Mean_Lower_Low_Water_m r)) complete_data))).

(** The numbers of the text report. *)
Record Report : Type := mkReport {
  report_n_years : Z;
  report_average : F;
  report_std : F;
  report_maximum : F * Z;
  report_minimum : F * Z;
  report_range : F;
  report_slope : F;
  report_rate : F;
  report_total_change : F;
  report_recent : list (Z * F);
  report_recent_change : option F;
  report_decadal : list (DecadeStats F);
  report_complete : Z;
  report_completeness : F;
  report_missing_years : Z
}.

Definition generate_summary_report (df : DataFrame F) : result Report :=
  let n := Z.of_nat (List.length df) in
  let sea_level := map (@Mean_Sea_Level_m F) df in
  hi <- year_of_max (map (@Year F) df) sea_level ;;
  lo <- year_of_min (map (@Year F) df) sea_level ;;
  let years := map (@Year F) df in
  z <- polyfit1 years sea_level ;;
  let recent_data := filter (fun r => 2020 <=? Year r) df in
  change <-
    (if 2 <=? Z.of_nat (List.length recent_data) then
       last <- getitem recent_data (-1) ;;
       first <- getitem recent_data 0 ;;
       let change_2020_2024 := sub (Mean_Sea_Level_m last) (Mean_Sea_Level_m first) in
       Ok (Some (mul change_2020_2024 (of_int 100)))
     else Ok None) ;;
  Ok (mkReport n
        (agg_mean (present sea_level)) (agg_std (present sea_level))
        hi lo (sub (fst hi) (fst lo))
        (fst z) (mul (fst z) (of_int 10)) (mul (fst z) (of_int n))
        (map (fun r => (Year r, Mean_Sea_Level_m r)) recent_data) change
        (decadal_averages df)
        (Z.of_nat (List.length (complete_data df)))
        (mul (div (of_int n) (of_int 71)) (of_int 100))
        (71 - n)).

(** The key findings printed last. *)
Definition key_findings (df : DataFrame F) : result (F * F * F) :=
  let sea_level := map (@Mean_Sea_Level_m F) df in
  let years := map (@Year F) df in
  z <- polyfit1 years sea_level ;;
  current <- level_in df 2024 ;;
  Ok (mul (fst z) (of_int 10), mul (fst z) (of_int 71), current).

(** The script run as a program: the files written, and how it ends.  No
    exception is caught. *)
Definition main (dir : list (DirEntry F))
  : list (Saved Figure TidalFigure Report) * result unit :=
  match snd (load_latest_data dir) with
  | Raise e => ([], Raise e)
  | Ok None => ([], Ok tt)
  | Ok (Some df) =>
      match create_comprehensive_analysis df with
      | Raise e => ([], Raise e)
      | Ok fig1 =>
          let saved1 := [SavedComprehensive fig1] in
          let fig2 := snd (create_tide_components_analysis df) in
          let saved2 :=
            saved1 ++ match fig2 with
                      | Some fig => [SavedTidal fig]
                      | None => []
                      end in
          match generate_summary_report df with
          | Raise e => (saved2 ++ [SavedPartialReport], Raise e)
          | Ok report =>
              let saved3 := saved2 ++ [SavedReport report] in
              match key_findings df with
              | Raise e => (saved3, Raise e)
              | Ok _ => (saved3, Ok tt)
              end
          end
      end
  end.

End Script.
End seaLevelAnalysis.

(** Three years with a rise and then a drop, in exact arithmetic. *)
Definition rise_then_drop : DataFrame xreal :=
  [ mkRecord 2001 (Some 1.0%R) None None None None;
    mkRecord 2002 (Some 1.2%R) None None None None;
    mkRecord 2003 (Some 1.1%R) None None None None ].

(** The three files of one crawl and an older data file. *)
Definition sample_dir : list (DirEntry float) :=
  [ mkDirEntry "HKO_QUB_SeaLevel_Data_20250101_000000.csv" 100 (Ok rows_1954);
    mkDirEntry "HKO_QUB_MeanSeaLevel_Simple_20250918_163225.csv" 300 (Ok []);
    mkDirEntry "HKO_QUB_SeaLevel_Data_20250918_163225.csv" 300 (Ok flat_rows_float);
    mkDirEntry "HKO_QUB_SeaLevel_Metadata_20250918_163225.json" 300 (Raise ValueError) ].

(** A directory holding one data file, the years 2020 to 2024. *)
Definition recent_dir : list (DirEntry float) :=
  [ mkDirEntry "HKO_QUB_SeaLevel_Data_20250918_163225.csv" 300 (Ok recent_five) ].

(** Three years, the middle one without tidal levels. *)
Definition tidal_rows : DataFrame float :=
  [ mkRecord 1990 (dec 130 100) (dec 170 100) (dec 150 100) (dec 90 100) (dec 60 100);
    mkRecord 2007 (dec 135 100) nan nan nan nan;
    mkRecord 2024 (dec 141 100) (dec 175 100) (dec 152 100) (dec 88 100) (dec 65 100) ].



(** ** Bounded checks in binary64

    The station publishes its levels in metres with three decimals.
    [millimetres k] is the binary64 value of the decimal k/1000 (the
    quotient of two exactly represented integers, rounded once), which is
    what [float] makes of such a numeral.  The checks below run the
    scripts' own arithmetic over all such levels of a range. *)

Definition millimetres (k : Z) : float := dec k 1000.

(** [count] consecutive integers from [first] on. *)
Fixpoint count_up (count : nat) (first : Z) : list Z :=
  match count with
  | O => []
  | S n => first :: count_up n (first + 1)
  end.



(** Policy A, for the decades [1950 + 10 d] and the levels of [k]
    millimetres listed: the radius is within the radial limit of every
    chart whose last year lies in the same or a later decade of the list. *)
Definition within_limit_check (levels decades : list Z) : bool :=
  forallb (fun k =>
    let level := millimetres k in
    forallb (fun d =>
      let r := animated_sea_level.radius_of (1950 + 10 * d) level in
      forallb (fun dl => (dl <? d) || PrimFloat.leb r (of_int (dl + 3))) decades)
      decades)
    levels.

(** Policy A: the radius grows from each level listed to the level one
    millimetre above it, and from each decade listed to the next decade. *)
Definition radius_steps_check (levels decades : list Z) : bool :=
  forallb (fun k =>
    let level := millimetres k in
    let next := millimetres (k + 1) in
    forallb (fun d =>
      PrimFloat.ltb (animated_sea_level.radius_of (1950 + 10 * d) level)
                    (animated_sea_level.radius_of (1950 + 10 * d) next))
      decades)
    levels.

Definition radius_decades_check (levels decades : list Z) : bool :=
  forallb (fun k =>
    let level := millimetres k in
    forallb (fun d =>
      PrimFloat.ltb (animated_sea_level.radius_of (1950 + 10 * d) level)
                    (animated_sea_level.radius_of (1960 + 10 * d) level))
      decades)
    levels.






(** * Part II: properties *)

(** ** Results *)

Lemma bind_Ok_inv {A B : Type} (c : result A) (k : A -> result B) (b : B) :
  (x <- c ;; k x) = Ok b -> exists a, c = Ok a /\ k a = Ok b.
Proof.
  destruct c as [a|e]; simpl; intro E; [exists a; auto | discriminate].
Qed.

Tactic Notation "inv_bind_as" hyp(H) ident(a) ident(E) :=
  apply bind_Ok_inv in H; destruct H as (a & E & H).

Ltac inv_bind H :=
  let a := fresh "a" in
  let E := fresh "E" in
  inv_bind_as H a E.

(** ** Exact arithmetic *)

Arguments xdiv : simpl never.

Lemma xdiv_some (x y : R) : y <> 0%R -> xdiv (Some x) (Some y) = Some (x / y)%R.
Proof.
  intro Hy. unfold xdiv.
  destruct (Req_dec_T y 0) as [e|n]; [contradiction | reflexivity].
Qed.

Lemma xdiv_zero (x : R) : xdiv (Some x) (Some 0%R) = None.
Proof.
  unfold xdiv.
  destruct (Req_dec_T 0 0) as [e|n]; [reflexivity | exfalso; apply n; reflexivity].
Qed.

Lemma xisnan_false (a : xreal) : xisnan a = false -> exists x, a = Some x.
Proof. destruct a as [x|]; simpl; intro E; [exists x; reflexivity | discriminate]. Qed.

(** ** Lists *)

Lemma nth_error_map_combine {A B C : Type} (f : A * B -> C) :
  forall (la : list A) (lb : list B) (i : nat) (a : A) (b : B),
    nth_error la i = Some a -> nth_error lb i = Some b ->
    nth_error (map f (combine la lb)) i = Some (f (a, b)).
Proof.
  induction la as [|a0 la IH]; intros lb i a b Ha Hb.
  - destruct i; discriminate.
  - destruct lb as [|b0 lb]; [destruct i; discriminate|].
    destruct i as [|i]; simpl in *.
    + congruence.
    + apply IH; assumption.
Qed.

(** ** Loading: the missing file *)

(** C7. When the CSV file does not exist, loading reports it, returns no
    dataset and raises nothing; the chart function and the program then
    return without a figure. This holds for both animators. *)
Theorem load_missing_file :
  forall (F : Type) (A : Arith F) (fs : FileSystem F),
    fs csv_path = None ->
    animated_sea_level.load_sea_level_data fs
      = ([Printed "未找到数据文件！"], Ok None) /\
    animated_sea_level.create_animated_polar_chart fs
      = ([Printed "未找到数据文件！"], Ok None) /\
    snd (animated_sea_level.main fs) = Ok None /\
    polarCoordVisualization.load_sea_level_data fs
      = ([Printed "Data file not found!"], Ok None) /\
    polarCoordVisualization.create_animated_polar_chart fs
      = ([Printed "Data file not found!"], Ok None) /\
    snd (polarCoordVisualization.main fs) = Ok None.
Proof.
  intros F A fs Hfs.
  assert (HA : animated_sea_level.load_sea_level_data fs
               = ([Printed "未找到数据文件！"], Ok None)).
  { unfold animated_sea_level.load_sea_level_data, read_csv. rewrite Hfs. reflexivity. }
  assert (HB : polarCoordVisualization.load_sea_level_data fs
               = ([Printed "Data file not found!"], Ok None)).
  { unfold polarCoordVisualization.load_sea_level_data, read_csv. rewrite Hfs. reflexivity. }
  repeat split; try assumption.
  - unfold animated_sea_level.create_animated_polar_chart. rewrite HA. reflexivity.
  - unfold animated_sea_level.main, animated_sea_level.create_animated_polar_chart.
    rewrite HA. reflexivity.
  - unfold polarCoordVisualization.create_animated_polar_chart. rewrite HB. reflexivity.
  - unfold polarCoordVisualization.main, polarCoordVisualization.create_animated_polar_chart.
    rewrite HB. reflexivity.
Qed.

Lemma load_missing_file_witness :
  animated_sea_level.load_sea_level_data empty_disk
    = ([Printed "未找到数据文件！"], Ok None) /\
  polarCoordVisualization.create_animated_polar_chart empty_disk
    = ([Printed "Data file not found!"], Ok None).
Proof.
  destruct (@load_missing_file float Binary64 empty_disk eq_refl) as (H1 & _ & _ & _ & H5 & _).
  split; assumption.
Defined.

(** ** Binary64 arithmetic *)

Lemma is_nan_of_SF (x : float) : Prim2SF x = S754_nan -> PrimFloat.is_nan x = true.
Proof.
  intro E. unfold PrimFloat.is_nan. rewrite FloatAxioms.eqb_spec, E. reflexivity.
Qed.

Lemma SFsub_diag (s : spec_float) :
  SF64sub s s = S754_zero false \/ SF64sub s s = S754_nan.
Proof.
  unfold SF64sub.
  destruct s as [b|b| |b m e]; simpl.
  - left. destruct b; reflexivity.
  - right. destruct b; reflexivity.
  - right. reflexivity.
  - left. rewrite Z.sub_diag. reflexivity.
Qed.

Lemma div_sub_diag_nan (x : float) :
  Prim2SF (PrimFloat.div (PrimFloat.sub x x) (PrimFloat.sub x x)) = S754_nan.
Proof.
  rewrite FloatAxioms.div_spec, FloatAxioms.sub_spec.
  destruct (SFsub_diag (Prim2SF x)) as [E|E]; rewrite E; reflexivity.
Qed.

Lemma mul_nan_l (x y : float) :
  Prim2SF x = S754_nan -> Prim2SF (PrimFloat.mul x y) = S754_nan.
Proof. intro E. rewrite FloatAxioms.mul_spec, E. reflexivity. Qed.

Lemma add_nan_r (x y : float) :
  Prim2SF y = S754_nan -> Prim2SF (PrimFloat.add x y) = S754_nan.
Proof.
  intro E. rewrite FloatAxioms.add_spec, E. unfold SF64add, SFadd.
  destruct (Prim2SF x); reflexivity.
Qed.

Lemma leb_nan_r (x y : float) : Prim2SF y = S754_nan -> PrimFloat.leb x y = false.
Proof.
  intro E. rewrite FloatAxioms.leb_spec, E. unfold SFleb, SFcompare.
  destruct (Prim2SF x); reflexivity.
Qed.

Lemma leb_nan_l (x y : float) : Prim2SF x = S754_nan -> PrimFloat.leb x y = false.
Proof. intro E. rewrite FloatAxioms.leb_spec, E. reflexivity. Qed.

Lemma sub_diag_finite (x : float) :
  PrimFloat.is_finite x = true -> PrimFloat.sub x x = PrimFloat.zero.
Proof.
  intro Hf. apply Prim2SF_inj. rewrite FloatAxioms.sub_spec.
  unfold PrimFloat.is_finite, PrimFloat.is_nan, PrimFloat.is_infinity in Hf.
  rewrite !FloatAxioms.eqb_spec, FloatAxioms.abs_spec in Hf.
  destruct (Prim2SF x) as [b|b| |b m e].
  - destruct b; reflexivity.
  - destruct b; vm_compute in Hf; discriminate.
  - vm_compute in Hf. discriminate.
  - unfold SF64sub. simpl. rewrite Z.sub_diag. reflexivity.
Qed.

Lemma SFmul_comm (x y : spec_float) : SF64mul x y = SF64mul y x.
Proof.
  unfold SF64mul.
  destruct x as [sx|sx| |sx mx ex], y as [sy|sy| |sy my ey]; simpl;
    try reflexivity; try (rewrite xorb_comm; reflexivity).
  rewrite xorb_comm, Pos.mul_comm, Z.add_comm. reflexivity.
Qed.

Lemma float_mul_comm (x y : float) : PrimFloat.mul x y = PrimFloat.mul y x.
Proof.
  apply Prim2SF_inj. rewrite !FloatAxioms.mul_spec. apply SFmul_comm.
Qed.





(** ** Policy A: the decade-offset mapping *)

Lemma angle_of_exact (y : Z) :
  animated_sea_level.angle_of (F:=xreal) y = Some (2 * PI * IZR (y mod 10) / 10)%R.
Proof.
  unfold animated_sea_level.angle_of. cbn. rewrite xdiv_some by lra.
  cbn. f_equal. field.
Qed.

Lemma radius_of_exact (y : Z) (L : R) :
  animated_sea_level.radius_of (F:=xreal) y (Some L)
  = Some (IZR (y / 10 - 195) + 1 + 5 * (L - 1.35))%R.
Proof.
  unfold animated_sea_level.radius_of, dec. cbn. rewrite xdiv_some by lra.
  cbn. f_equal. rewrite plus_IZR. lra.
Qed.

Lemma create_chart_A_inv {F : Type} `{Arith F} (fs : FileSystem F) out chart :
  animated_sea_level.create_animated_polar_chart fs = (out, Ok (Some chart)) ->
  exists df,
    read_csv fs csv_path = Ok df /\
    chart_years chart = map (@Year F) (dropna_msl df) /\
    chart_sea_levels chart = map (@Mean_Sea_Level_m F) (dropna_msl df) /\
    chart_angles chart
      = animated_sea_level.angles_of (chart_years chart) (chart_sea_levels chart) /\
    chart_radii chart
      = animated_sea_level.radii_of (chart_years chart) (chart_sea_levels chart) /\
    chart_frames chart = frames (chart_years chart) /\
    exists y0, getitem (chart_years chart) 0 = Ok y0.
Proof.
  unfold animated_sea_level.create_animated_polar_chart,
    animated_sea_level.load_sea_level_data.
  destruct (read_csv fs csv_path) as [df|e].
  - intro E. exists df. split; [reflexivity|].
    match type of E with
    | (match ?c with _ => _ end) = _ => destruct c as [[ch info]|e] eqn:Ec
    end; [|discriminate].
    inversion E; subst; clear E.
    inv_bind_as Ec yl Eyl. inv_bind_as Ec y0 Ey0. inv_bind Ec. inv_bind Ec.
    inversion Ec; subst; clear Ec. simpl. repeat (split; [reflexivity|]).
    exists y0. assumption.
  - destruct e; intro E; discriminate.
Qed.

Lemma angle_of_float (y : Z) :
  animated_sea_level.angle_of (F:=float) y
  = div (mul (mul (of_int 2) pi) (of_int (y mod 10))) (of_int 10).
Proof.
  unfold animated_sea_level.angle_of.
  assert (Hk : 0 <= y mod 10 < 10) by (apply Z.mod_pos_bound; lia).
  assert (Hc : y mod 10 = 0 \/ y mod 10 = 1 \/ y mod 10 = 2 \/ y mod 10 = 3 \/
               y mod 10 = 4 \/ y mod 10 = 5 \/ y mod 10 = 6 \/ y mod 10 = 7 \/
               y mod 10 = 8 \/ y mod 10 = 9) by lia.
  cbv zeta.
  repeat (destruct Hc as [-> | Hc]; [vm_compute; reflexivity|]).
  rewrite Hc. vm_compute. reflexivity.
Qed.

Lemma radius_of_float (y : Z) (L : float) :
  animated_sea_level.radius_of (F:=float) y L
  = add (of_int (y / 10 - 195 + 1)) (mul (of_int 5) (sub L (dec 135 100))).
Proof.
  unfold animated_sea_level.radius_of. cbv zeta. cbn [add mul Binary64].
  rewrite float_mul_comm. reflexivity.
Qed.

(** C1. Every loaded row with year [y] and level [L] is mapped by the
    decade-offset animator to the angle 2π·(y mod 10)/10 and the radius
    (floor(y/10) − 195) + 1 + 5·(L − 1.35): as real numbers in exact
    arithmetic, and in binary64 as these formulas evaluated from left to
    right (the sum of the two integers being an integer sum). *)
Theorem policyA_angle_radius :
  (forall (fs : FileSystem xreal) out chart (i : nat) (y : Z) (L : R),
      animated_sea_level.create_animated_polar_chart fs = (out, Ok (Some chart)) ->
      nth_error (chart_years chart) i = Some y ->
      nth_error (chart_sea_levels chart) i = Some (Some L) ->
      nth_error (chart_angles chart) i
        = Some (Some (2 * PI * IZR (y mod 10) / 10)%R) /\
      nth_error (chart_radii chart) i
        = Some (Some (IZR (y / 10 - 195) + 1 + 5 * (L - 1.35))%R))
  /\
  (forall (fs : FileSystem float) out chart (i : nat) (y : Z) (L : float),
      animated_sea_level.create_animated_polar_chart fs = (out, Ok (Some chart)) ->
      nth_error (chart_years chart) i = Some y ->
      nth_error (chart_sea_levels chart) i = Some L ->
      nth_error (chart_angles chart) i
        = Some (div (mul (mul (of_int 2) pi) (of_int (y mod 10))) (of_int 10)) /\
      nth_error (chart_radii chart) i
        = Some (add (of_int (y / 10 - 195 + 1))
                    (mul (of_int 5) (sub L (dec 135 100))))).
Proof.
  split.
  - intros fs out chart i y L Hc Hy HL.
    destruct (create_chart_A_inv _ Hc) as (df & _ & _ & _ & Ha & Hr & _ & _).
    rewrite Ha, Hr. unfold animated_sea_level.angles_of, animated_sea_level.radii_of.
    rewrite !(nth_error_map_combine _ _ _ _ Hy HL). cbn [fst snd].
    rewrite angle_of_exact, radius_of_exact. split; reflexivity.
  - intros fs out chart i y L Hc Hy HL.
    destruct (create_chart_A_inv _ Hc) as (df & _ & _ & _ & Ha & Hr & _ & _).
    rewrite Ha, Hr. unfold animated_sea_level.angles_of, animated_sea_level.radii_of.
    rewrite !(nth_error_map_combine _ _ _ _ Hy HL). cbn [fst snd].
    rewrite angle_of_float, radius_of_float. split; reflexivity.
Qed.

Lemma policyA_angle_radius_witness :
  (exists out chart,
      animated_sea_level.create_animated_polar_chart sample_disk
        = (out, Ok (Some chart)) /\
      nth_error (chart_angles chart) 1
        = Some (Some (2 * PI * IZR (1956 mod 10) / 10)%R) /\
      nth_error (chart_radii chart) 1
        = Some (Some (IZR (1956 / 10 - 195) + 1 + 5 * (1.33 - 1.35))%R))
  /\
  (exists out chart,
      animated_sea_level.create_animated_polar_chart disk_1954
        = (out, Ok (Some chart)) /\
      nth_error (chart_angles chart) 2
        = Some (div (mul (mul (of_int 2) pi) (of_int (1956 mod 10))) (of_int 10)) /\
      nth_error (chart_radii chart) 2
        = Some (add (of_int (1956 / 10 - 195 + 1))
                    (mul (of_int 5) (sub (dec 129 100) (dec 135 100))))).
Proof.
  destruct policyA_angle_radius as [HE HF].
  split.
  - eexists. eexists. split; [reflexivity|].
    eapply (HE sample_disk); reflexivity.
  - eexists. eexists. split; [vm_compute; reflexivity|].
    exact (HF disk_1954 _ _ 2%nat 1956 (dec 129 100) eq_refl eq_refl eq_refl).
Defined.

(** ** Loops that may raise *)

Lemma mapM_nth {A B : Type} (f : A -> result B) :
  forall (l : list A) (l' : list B) (i : nat) (a : A),
    mapM f l = Ok l' -> nth_error l i = Some a ->
    exists b, f a = Ok b /\ nth_error l' i = Some b.
Proof.
  induction l as [|h t IH]; intros l' i a E Hi.
  - destruct i; discriminate.
  - simpl in E. inv_bind E. inv_bind E. inversion E; subst; clear E.
    destruct i as [|i]; simpl in Hi.
    + inversion Hi; subst. exists a0. split; [assumption | reflexivity].
    + destruct (IH _ _ _ E1 Hi) as (b & Hb & Hn). exists b. split; assumption.
Qed.

Lemma mapM_length {A B : Type} (f : A -> result B) :
  forall (l : list A) (l' : list B), mapM f l = Ok l' -> List.length l' = List.length l.
Proof.
  induction l as [|h t IH]; intros l' E; simpl in E.
  - inversion E. reflexivity.
  - inv_bind E. inv_bind E. inversion E; subst. simpl. f_equal. apply IH. assumption.
Qed.

Lemma mapM_pure {A B : Type} (f : A -> result B) (g : A -> B) :
  forall l : list A, (forall a, In a l -> f a = Ok (g a)) -> mapM f l = Ok (map g l).
Proof.
  induction l as [|h t IH]; intro Hf; simpl.
  - reflexivity.
  - rewrite (Hf h) by (left; reflexivity). simpl.
    rewrite IH by (intros a Ha; apply Hf; right; assumption). reflexivity.
Qed.


(** ** Minimum and maximum of an array *)

Lemma fold_fmin_same {F : Type} `{Arith F} (x : F) :
  forall t : list F, Forall (eq x) t -> fold_left fmin t x = x.
Proof.
  induction t as [|h t IH]; intro Ht; simpl.
  - reflexivity.
  - inversion Ht; subst.
    replace (fmin h h) with h by (unfold fmin; destruct (ltb h h || isnan h); reflexivity).
    apply IH. assumption.
Qed.

Lemma fold_fmax_same {F : Type} `{Arith F} (x : F) :
  forall t : list F, Forall (eq x) t -> fold_left fmax t x = x.
Proof.
  induction t as [|h t IH]; intro Ht; simpl.
  - reflexivity.
  - inversion Ht; subst.
    replace (fmax h h) with h by (unfold fmax; destruct (ltb h h || isnan h); reflexivity).
    apply IH. assumption.
Qed.






Lemma dropna_msl_present {F : Type} `{Arith F} (df : DataFrame F) :
  Forall (fun v => isnan v = false) (map (@Mean_Sea_Level_m F) (dropna_msl df)).
Proof.
  unfold dropna_msl. induction df as [|r df IH]; simpl.
  - constructor.
  - destruct (isnan (Mean_Sea_Level_m r)) eqn:E; simpl.
    + assumption.
    + constructor; assumption.
Qed.

(** ** Policy B: the min-max normalized mapping *)

Lemma create_chart_B_inv {F : Type} `{Arith F} (fs : FileSystem F) out chart :
  polarCoordVisualization.create_animated_polar_chart fs = (out, Ok (Some chart)) ->
  exists df,
    read_csv fs csv_path = Ok df /\
    chart_years chart = map (@Year F) (dropna_msl df) /\
    chart_sea_levels chart = map (@Mean_Sea_Level_m F) (dropna_msl df) /\
    chart_angles chart
      = polarCoordVisualization.angles_of (chart_years chart) (chart_sea_levels chart) /\
    polarCoordVisualization.radii_of (chart_years chart) (chart_sea_levels chart)
      = Ok (chart_radii chart) /\
    chart_frames chart = frames (chart_years chart) /\
    exists y0, getitem (chart_years chart) 0 = Ok y0.
Proof.
  unfold polarCoordVisualization.create_animated_polar_chart,
    polarCoordVisualization.load_sea_level_data.
  destruct (read_csv fs csv_path) as [df|e].
  - intro E. exists df. split; [reflexivity|].
    match type of E with
    | (match ?c with _ => _ end) = _ => destruct c as [[ch info]|e] eqn:Ec
    end; [|discriminate].
    inversion E; subst; clear E.
    inv_bind_as Ec radii Eradii. inv_bind Ec. inv_bind Ec.
    inv_bind_as Ec y0 Ey0. inv_bind Ec.
    inversion Ec; subst; clear Ec. simpl. repeat (split; [reflexivity|]).
    split; [assumption|]. split; [reflexivity|]. exists y0. assumption.
  - destruct e; intro E; discriminate.
Qed.





(** ** Bounded checks in binary64 *)

Lemma in_count_up (count : nat) :
  forall first k, In k (count_up count first) <-> first <= k < first + Z.of_nat count.
Proof.
  induction count as [|n IH]; intros first k; cbn [count_up].
  - split; [intros [] | lia].
  - cbn [In]. rewrite IH. lia.
Qed.













(** The same policy run in binary64 on the years 1954 to 1956: the highest
    level (index 1) gets radius 5 and the lowest (index 2) radius 1. *)
Example policyB_extremes_float :
  match snd (polarCoordVisualization.create_animated_polar_chart disk_1954) with
  | Ok (Some chart) =>
      (nth_error (chart_radii chart) 1, nth_error (chart_radii chart) 2)
  | _ => (None, None)
  end = (Some (of_int 5), Some (of_int 1)).
Proof. vm_compute. reflexivity. Qed.

(** In binary64 the converse can fail by rounding: a level 10^-17 above
    the minimum 0, with maximum 1, also gets the radius 1. *)
Example policyB_rounding_float :
  match snd (polarCoordVisualization.create_animated_polar_chart near_disk) with
  | Ok (Some chart) => map (fun r => PrimFloat.eqb r (of_int 1)) (chart_radii chart)
  | _ => []
  end = [true; true; false].
Proof. vm_compute. reflexivity. Qed.

(** The radius of Policy B when minimum, maximum and level coincide. *)
Lemma radius_of_degenerate_float (L : float) :
  Prim2SF (polarCoordVisualization.radius_of (F:=float) L L L) = S754_nan.
Proof.
  unfold polarCoordVisualization.radius_of. cbn [add mul div sub Binary64].
  apply add_nan_r, mul_nan_l, div_sub_diag_nan.
Qed.

Lemma radius_of_degenerate_exact (L : R) :
  polarCoordVisualization.radius_of (F:=xreal) (Some L) (Some L) (Some L) = None.
Proof.
  unfold polarCoordVisualization.radius_of. cbn.
  replace (L - L)%R with 0%R by lra. rewrite xdiv_zero. reflexivity.
Qed.

(** ** Policy B on a dataset of equal levels *)

Lemma getitem_first {A : Type} (a : A) (l : list A) : getitem (a :: l) 0 = Ok a.
Proof.
  unfold getitem. cbn [List.length]. rewrite Nat2Z.inj_succ.
  replace (0 <? 0) with false by reflexivity. cbn [orb].
  destruct (Z.leb_spec (Z.succ (Z.of_nat (List.length l))) 0); [lia | reflexivity].
Qed.

Lemma getitem_last {A : Type} (a : A) (l : list A) :
  exists b, getitem (a :: l) (-1) = Ok b.
Proof.
  unfold getitem. replace (-1 <? 0) with true by reflexivity.
  set (n := Z.of_nat (List.length (a :: l))).
  assert (Hn : 1 <= n) by (unfold n; cbn [List.length]; lia).
  destruct (Z.ltb_spec (-1 + n) 0); [lia|].
  destruct (Z.leb_spec n (-1 + n)); [lia|]. cbn [orb].
  destruct (nth_error (a :: l) (Z.to_nat (-1 + n))) as [b|] eqn:E3.
  - exists b. reflexivity.
  - apply nth_error_None in E3. unfold n in *. lia.
Qed.

Lemma create_chart_B_ok {F : Type} `{Arith F} (fs : FileSystem F) (df : DataFrame F)
      (radii : list F) :
  read_csv fs csv_path = Ok df ->
  dropna_msl df <> [] ->
  polarCoordVisualization.radii_of (map (@Year F) (dropna_msl df))
    (map (@Mean_Sea_Level_m F) (dropna_msl df)) = Ok radii ->
  exists out chart,
    polarCoordVisualization.create_animated_polar_chart fs = (out, Ok (Some chart)) /\
    chart_sea_levels chart = map (@Mean_Sea_Level_m F) (dropna_msl df) /\
    chart_radii chart = radii.
Proof.
  intros Hread Hne Hr.
  unfold polarCoordVisualization.create_animated_polar_chart,
    polarCoordVisualization.load_sea_level_data.
  rewrite Hread, Hr.
  destruct (dropna_msl df) as [|r rest] eqn:Ed; [contradiction Hne; reflexivity|].
  cbn [map np_min np_max bind].
  rewrite getitem_first.
  destruct (getitem_last (Year r) (map (@Year F) rest)) as (b & Hb).
  rewrite Hb. cbn [bind].
  eexists. eexists. split; [reflexivity|]. split; reflexivity.
Qed.

Lemma policyB_equal_levels_any {F : Type} `{Arith F} (fs : FileSystem F)
      (df : DataFrame F) (L : F) :
  read_csv fs csv_path = Ok df ->
  dropna_msl df <> [] ->
  (forall r, In r (dropna_msl df) -> Mean_Sea_Level_m r = L) ->
  exists out chart,
    polarCoordVisualization.create_animated_polar_chart fs = (out, Ok (Some chart)) /\
    np_min (chart_sea_levels chart) = Ok L /\
    np_max (chart_sea_levels chart) = Ok L /\
    List.length (chart_radii chart) = List.length (dropna_msl df) /\
    Forall (eq (polarCoordVisualization.radius_of L L L)) (chart_radii chart).
Proof.
  intros Hread Hne Hall.
  set (rows := dropna_msl df) in *.
  set (levels := map (@Mean_Sea_Level_m F) rows).
  assert (Hlev : Forall (eq L) levels).
  { apply Forall_forall. intros x Hx. unfold levels in Hx.
    apply in_map_iff in Hx. destruct Hx as (r & <- & Hr). symmetry. auto. }
  assert (Hmin : np_min levels = Ok L /\ np_max levels = Ok L).
  { destruct levels as [|x t] eqn:El.
    - unfold levels in El. destruct rows; [contradiction Hne; reflexivity | discriminate].
    - inversion Hlev; subst. simpl.
      rewrite fold_fmin_same, fold_fmax_same by assumption. split; reflexivity. }
  destruct Hmin as [Hmin Hmax].
  set (g := fun yl : Z * F => polarCoordVisualization.radius_of L L (snd yl)).
  assert (Hr : polarCoordVisualization.radii_of (map (@Year F) rows) levels
               = Ok (map g (combine (map (@Year F) rows) levels))).
  { unfold polarCoordVisualization.radii_of. apply mapM_pure.
    intros a _. rewrite Hmin, Hmax. reflexivity. }
  destruct (create_chart_B_ok fs Hread Hne Hr) as (out & chart & Hc & Hs & Hrad).
  exists out, chart. split; [assumption|].
  fold rows in Hs. fold levels in Hs. rewrite Hs, Hrad.
  split; [assumption|]. split; [assumption|]. split.
  - rewrite length_map, length_combine. unfold levels. rewrite !length_map. lia.
  - apply Forall_forall. intros x Hx. apply in_map_iff in Hx.
    destruct Hx as ([y l] & <- & Hin). unfold g. cbn [snd].
    apply in_combine_r in Hin. rewrite Forall_forall in Hlev.
    rewrite <- (Hlev l Hin). reflexivity.
Qed.

(** C9. Policy B divides by (max − min) unguarded. For every non-empty
    loaded dataset whose levels are all equal the chart is still built:
    in exact arithmetic the divisor is 0 and every radius is undefined; in
    binary64 the divisor of a finite level is 0 and every radius is NaN, so
    that neither 1 <= radius nor radius <= 5 holds. *)
Theorem policyB_equal_levels_undefined :
  (forall (fs : FileSystem xreal) (df : DataFrame xreal) (L : R),
      read_csv fs csv_path = Ok df ->
      dropna_msl df <> [] ->
      (forall r, In r (dropna_msl df) -> Mean_Sea_Level_m r = Some L) ->
      exists out chart,
        polarCoordVisualization.create_animated_polar_chart fs = (out, Ok (Some chart)) /\
        np_min (chart_sea_levels chart) = Ok (Some L) /\
        np_max (chart_sea_levels chart) = Ok (Some L) /\
        sub (F:=xreal) (Some L) (Some L) = Some 0%R /\
        List.length (chart_radii chart) = List.length (dropna_msl df) /\
        Forall (fun r => r = None) (chart_radii chart))
  /\
  (forall (fs : FileSystem float) (df : DataFrame float) (L : float),
      read_csv fs csv_path = Ok df ->
      dropna_msl df <> [] ->
      (forall r, In r (dropna_msl df) -> Mean_Sea_Level_m r = L) ->
      exists out chart,
        polarCoordVisualization.create_animated_polar_chart fs = (out, Ok (Some chart)) /\
        np_min (chart_sea_levels chart) = Ok L /\
        np_max (chart_sea_levels chart) = Ok L /\
        (PrimFloat.is_finite L = true -> sub L L = PrimFloat.zero) /\
        List.length (chart_radii chart) = List.length (dropna_msl df) /\
        Forall (fun r => PrimFloat.is_nan r = true /\
                         PrimFloat.leb (of_int 1) r = false /\
                         PrimFloat.leb r (of_int 5) = false) (chart_radii chart)).
Proof.
  split.
  - intros fs df L Hread Hne Hall.
    destruct (policyB_equal_levels_any fs Hread Hne Hall)
      as (out & chart & Hc & Hmin & Hmax & Hlen & Hrad).
    exists out, chart. repeat (split; [assumption|]).
    split; [cbn; f_equal; lra|]. split; [assumption|].
    eapply Forall_impl; [|exact Hrad].
    intros r <-. apply radius_of_degenerate_exact.
  - intros fs df L Hread Hne Hall.
    destruct (policyB_equal_levels_any fs Hread Hne Hall)
      as (out & chart & Hc & Hmin & Hmax & Hlen & Hrad).
    exists out, chart. repeat (split; [assumption|]).
    split; [apply sub_diag_finite|]. split; [assumption|].
    eapply Forall_impl; [|exact Hrad].
    intros r <-. pose proof (radius_of_degenerate_float L) as Hn.
    split; [apply is_nan_of_SF; assumption|].
    split; [apply leb_nan_r | apply leb_nan_l]; assumption.
Qed.

Lemma policyB_equal_levels_undefined_witness :
  (exists out chart,
      polarCoordVisualization.create_animated_polar_chart flat_disk_exact
        = (out, Ok (Some chart)) /\
      List.length (chart_radii chart) = 2%nat /\
      Forall (fun r => r = None) (chart_radii chart))
  /\
  (exists out chart,
      polarCoordVisualization.create_animated_polar_chart flat_disk_float
        = (out, Ok (Some chart)) /\
      List.length (chart_radii chart) = 2%nat /\
      Forall (fun r => PrimFloat.is_nan r = true) (chart_radii chart)).
Proof.
  destruct policyB_equal_levels_undefined as [HE HF].
  split.
  - assert (Hne : dropna_msl flat_rows_exact <> []) by discriminate.
    assert (Hall : forall r, In r (dropna_msl flat_rows_exact) ->
                             Mean_Sea_Level_m r = Some 1.4%R).
    { intros r [<-|[<-|[]]]; reflexivity. }
    destruct (HE flat_disk_exact flat_rows_exact 1.4%R eq_refl Hne Hall)
      as (out & chart & Hc & _ & _ & _ & Hlen & Hrad).
    exists out, chart. repeat split; assumption.
  - assert (Hne : dropna_msl flat_rows_float <> []) by (vm_compute; discriminate).
    assert (Hall : forall r, In r (dropna_msl flat_rows_float) ->
                             Mean_Sea_Level_m r = dec 14 10).
    { intros r Hr. vm_compute in Hr. destruct Hr as [<-|[<-|[]]]; reflexivity. }
    destruct (HF flat_disk_float flat_rows_float (dec 14 10) eq_refl Hne Hall)
      as (out & chart & Hc & _ & _ & _ & Hlen & Hrad).
    exists out, chart. split; [assumption|]. split; [exact Hlen|].
    eapply Forall_impl; [|exact Hrad]. intros r (Hn & _). exact Hn.
Defined.

(** The same dataset run in binary64. *)
Example policyB_flat_radii_float :
  match snd (polarCoordVisualization.create_animated_polar_chart flat_disk_float) with
  | Ok (Some chart) => map PrimFloat.is_nan (chart_radii chart)
  | _ => []
  end = [true; true].
Proof. vm_compute. reflexivity. Qed.

(** ** Indexing and ranges *)

Lemma getitem_nth {A : Type} (d : A) (l : list A) (i : Z) :
  0 <= i < Z.of_nat (List.length l) ->
  getitem l i = Ok (nth (Z.to_nat i) l d).
Proof.
  intros [H0 H1]. unfold getitem.
  destruct (Z.ltb_spec i 0); [lia|].
  destruct (Z.ltb_spec i 0); [lia|].
  destruct (Z.leb_spec (Z.of_nat (List.length l)) i); [lia|]. cbn [orb].
  destruct (nth_error l (Z.to_nat i)) as [a|] eqn:E.
  - rewrite (nth_error_nth _ _ d E). reflexivity.
  - apply nth_error_None in E. lia.
Qed.

Lemma getitem_Ok_nth_error {A : Type} (l : list A) (i : Z) (a : A) :
  0 <= i -> getitem l i = Ok a -> nth_error l (Z.to_nat i) = Some a.
Proof.
  intros H0. unfold getitem.
  destruct (Z.ltb_spec i 0); [lia|].
  destruct ((i <? 0) || (Z.of_nat (List.length l) <=? i)); [discriminate|].
  destruct (nth_error l (Z.to_nat i)); [|discriminate].
  intro E. inversion E. reflexivity.
Qed.

Lemma in_range (n i : Z) : In i (range n) <-> 0 <= i < n.
Proof.
  unfold range. rewrite in_map_iff. split.
  - intros (k & <- & Hk). apply in_seq in Hk. lia.
  - intros [H0 H1]. exists (Z.to_nat i). split; [lia|]. apply in_seq. lia.
Qed.

Lemma length_range (n : Z) : List.length (range n) = Z.to_nat n.
Proof. unfold range. rewrite length_map, length_seq. reflexivity. Qed.

Lemma slice_to_firstn {A : Type} (l : list A) (stop : Z) :
  0 <= stop -> slice_to l stop = firstn (Z.to_nat stop) l.
Proof.
  intro H0. unfold slice_to. destruct (Z.ltb_spec stop 0); [lia | reflexivity].
Qed.

Lemma mapM_total {A B : Type} (f : A -> result B) :
  forall l : list A,
    (forall a, In a l -> exists b, f a = Ok b) -> exists l', mapM f l = Ok l'.
Proof.
  induction l as [|h t IH]; intro Hf; simpl.
  - exists []. reflexivity.
  - destruct (Hf h (or_introl eq_refl)) as (b & Eb). rewrite Eb. simpl.
    destruct IH as (l' & El); [intros a Ha; apply Hf; right; assumption|].
    rewrite El. simpl. exists (b :: l'). reflexivity.
Qed.

(** ** The frame callback *)

Lemma labelled_eq (years : list Z) (c i : Z) :
  0 <= i < len_years years ->
  labelled years c i
  = Ok ((i =? 0) || (i =? c) || (nth (Z.to_nat i) years 0 mod 5 =? 0)).
Proof.
  intro Hi. unfold labelled.
  destruct ((i =? 0) || (i =? c)); [reflexivity|].
  rewrite (@getitem_nth _ 0 years i) by exact Hi.
  reflexivity.
Qed.

Section AnimateFacts.
Context {F : Type} `{Arith F}.
Variables (years : list Z) (sea_levels angles radii : list F).
Variable colour : Z -> result F.
Variable show_radius : bool.

Let N : Z := len_years years.

Hypothesis Hlevels : List.length sea_levels = List.length years.
Hypothesis Hangles : List.length angles = List.length years.
Hypothesis Hradii : List.length radii = List.length years.
Hypothesis Hnonempty : 1 <= N.
Hypothesis Hcolour : forall i, 0 <= i < N -> exists x, colour i = Ok x.

Let year_at (i : Z) : Z := nth (Z.to_nat i) years 0.
Let level_at (i : Z) : F := nth (Z.to_nat i) sea_levels nan.
Let angle_at (i : Z) : F := nth (Z.to_nat i) angles nan.
Let radius_at (i : Z) : F := nth (Z.to_nat i) radii nan.

Lemma label_at_eq (c i : Z) :
  0 <= i < N ->
  label_at years angles radii c i
  = Ok (if (i =? 0) || (i =? c) || (year_at i mod 5 =? 0)
        then Some (mkText (angle_at i) (add (radius_at i) (dec 15 100)) (year_at i))
        else None).
Proof.
  intro Hi. unfold label_at. unfold N in Hi. pose proof Hi as Hi'. unfold len_years in Hi'.
  rewrite (getitem_nth nan angles) by lia.
  rewrite (getitem_nth nan radii) by lia.
  cbn [bind]. rewrite labelled_eq by exact Hi. cbn [bind].
  fold (year_at i).
  destruct ((i =? 0) || (i =? c) || (year_at i mod 5 =? 0)); [|reflexivity].
  rewrite (getitem_nth 0 years) by lia. reflexivity.
Qed.

Let current (frame : Z) : Z := Z.min frame (N - 1).

(** The first frame. *)
Lemma animate_initial (prev : Artists F) :
  animate years sea_levels angles radii colour show_radius prev 0
  = Ok {| line := ([], []);
          points_offsets := [];
          points_array := points_array prev;
          start_point := ([angle_at 0], [radius_at 0]);
          current_point := ([], []);
          year_texts := [];
          info_text := InfoStart (year_at 0) (level_at 0) (year_at 0 / 10 * 10) N |}.
Proof.
  unfold animate. cbn [Z.eqb]. unfold N, len_years in Hnonempty.
  rewrite (getitem_nth nan angles) by lia.
  rewrite (getitem_nth nan radii) by lia.
  rewrite (getitem_nth 0 years) by lia.
  rewrite (getitem_nth nan sea_levels) by lia.
  reflexivity.
Qed.

(** Every later frame. *)
Lemma animate_revealing (prev : Artists F) (frame : Z) :
  1 <= frame ->
  let c := current frame in
  let k := Z.to_nat (c + 1) in
  exists colors,
    mapM colour (range (c + 1)) = Ok colors /\
    animate years sea_levels angles radii colour show_radius prev frame
    = Ok {| line := (firstn k angles, firstn k radii);
            points_offsets := combine (firstn k angles) (firstn k radii);
            points_array := colors;
            start_point := ([angle_at 0], [radius_at 0]);
            current_point := ([angle_at c], [radius_at c]);
            year_texts :=
              somes (map (fun i =>
                            if (i =? 0) || (i =? c) || (year_at i mod 5 =? 0)
                            then Some (mkText (angle_at i)
                                         (add (radius_at i) (dec 15 100)) (year_at i))
                            else None)
                         (range (c + 1)));
            info_text :=
              InfoCurrent (year_at c) (year_at c / 10 * 10) (year_at c mod 10)
                (level_at c) (if show_radius then Some (radius_at c) else None)
                (c + 1) N
                (mul (div (of_int (c + 1)) (of_int N)) (of_int 100)) |}.
Proof.
  intros Hf c k.
  assert (Hc : 0 <= c < N) by (unfold c, current; lia).
  destruct (@mapM_total _ _ colour (range (c + 1))) as (colors & Ecol).
  { intros i Hi. apply in_range in Hi. apply Hcolour. lia. }
  exists colors. split; [assumption|].
  unfold animate. destruct (Z.eqb_spec frame 0); [lia|].
  fold N. fold (current frame). fold c.
  destruct (Z.leb_spec 0 c); [|lia].
  rewrite Ecol. cbn [bind].
  rewrite !slice_to_firstn by lia. fold k.
  unfold column_stack. rewrite !length_firstn, Hangles, Hradii, Nat.eqb_refl.
  cbn [bind fst snd].
  rewrite (@mapM_pure _ _ (label_at years angles radii c)
             (fun i => if (i =? 0) || (i =? c) || (year_at i mod 5 =? 0)
                       then Some (mkText (angle_at i)
                                    (add (radius_at i) (dec 15 100)) (year_at i))
                       else None)).
  2:{ intros i Hi. apply in_range in Hi. apply label_at_eq. lia. }
  cbn [bind]. unfold N, len_years in Hc.
  rewrite (@getitem_nth _ nan angles c) by lia.
  rewrite (@getitem_nth _ nan radii c) by lia.
  rewrite (@getitem_nth _ nan angles 0) by lia.
  rewrite (@getitem_nth _ nan radii 0) by lia.
  rewrite (@getitem_nth _ 0 years c) by lia.
  rewrite (@getitem_nth _ nan sea_levels c) by lia.
  reflexivity.
Qed.

End AnimateFacts.

Section FrameSequence.
Context {F : Type} `{Arith F}.
Variables (years : list Z) (sea_levels angles radii : list F).
Variable colour : Z -> result F.
Variable show_radius : bool.

Let N : Z := len_years years.
Let data : list (F * F) := combine angles radii.
Let run := animate years sea_levels angles radii colour show_radius.

Hypothesis Hlevels : List.length sea_levels = List.length years.
Hypothesis Hangles : List.length angles = List.length years.
Hypothesis Hradii : List.length radii = List.length years.
Hypothesis Hnonempty : 1 <= N.
Hypothesis Hcolour : forall i, 0 <= i < N -> exists x, colour i = Ok x.

Lemma data_first :
  [(nth 0 angles nan, nth 0 radii nan)] = firstn 1 data.
Proof.
  unfold data. unfold N, len_years in Hnonempty.
  destruct angles as [|a ta]; [simpl in Hangles; lia|].
  destruct radii as [|r tr]; [simpl in Hradii; lia|].
  reflexivity.
Qed.

Lemma frame_sequence (prev : Artists F) (f : Z) :
  0 <= f ->
  exists st,
    run prev f = Ok st /\
    (f = 0 ->
     line st = ([], []) /\ points_offsets st = [] /\
     current_point st = ([], []) /\ year_texts st = [] /\
     plotted st = firstn 1 data) /\
    (1 <= f ->
     let k := Z.to_nat (Z.min f (N - 1) + 1) in
     line st = (firstn k angles, firstn k radii) /\
     points_offsets st = firstn k data) /\
    (N - 1 <= f -> forall pt, In pt data -> In pt (plotted st)) /\
    (1 <= f -> N - 1 <= f ->
     line st = (angles, radii) /\ points_offsets st = data /\
     forall prev', run prev' (N + 59) = Ok st) /\
    (forall prev' st', run prev' f = Ok st' -> rendered st' = rendered st).
Proof.
  intro Hf0.
  assert (Hf : f = 0 \/ 1 <= f) by lia.
  destruct Hf as [-> | Hf1].
  - (* the first frame *)
    eexists. split; [apply animate_initial; assumption|].
    split; [intros _|split; [intro; lia|split; [|split; [intro; lia|]]]].
    + cbn [line points_offsets current_point year_texts].
      repeat (split; [reflexivity|]).
      unfold plotted. cbn. apply data_first.
    + intros HN pt Hpt. unfold plotted. cbn.
      left. assert (Hlen : List.length data = 1%nat).
      { unfold data. rewrite length_combine, Hangles, Hradii.
        unfold N, len_years in *. lia. }
      pose proof data_first as Hd.
      destruct data as [|d [|d' t]]; try discriminate.
      simpl in Hd. inversion Hd; subst. destruct Hpt as [<-|[]]. cbn. congruence.
    + intros prev' st' E. unfold run in E.
      rewrite animate_initial in E by assumption.
      inversion E. reflexivity.
  - (* the later frames *)
    destruct (@animate_revealing F _ years sea_levels angles radii colour show_radius
                Hlevels Hangles Hradii Hnonempty Hcolour prev f Hf1)
      as (colors & Ecol & Erun).
    eexists. split; [exact Erun|].
    split; [intro; lia|].
    split; [intros _ k|split; [|split]].
    + cbn [line points_offsets]. split; [reflexivity|].
      unfold data. rewrite combine_firstn. reflexivity.
    + intros HN pt Hpt. unfold plotted. cbn [line start_point fst snd].
      apply in_or_app. right. apply in_or_app. left.
      fold N. replace (Z.min f (N - 1)) with (N - 1) by lia.
      rewrite !firstn_all2; [exact Hpt| |]; unfold N, len_years; lia.
    + intros _ HN. cbn [line points_offsets]. fold N.
      replace (Z.min f (N - 1)) with (N - 1) by lia.
      rewrite !firstn_all2 by (unfold N, len_years; lia).
      split; [reflexivity|]. split; [reflexivity|].
      intro prev'.
      destruct (@animate_revealing F _ years sea_levels angles radii colour
                  show_radius Hlevels Hangles Hradii Hnonempty Hcolour prev'
                  (N + 59)) as (colors' & Ecol' & Erun'); [lia|].
      fold N in Ecol', Erun', Ecol.
      replace (Z.min (N + 59) (N - 1)) with (N - 1) in Ecol', Erun' by lia.
      replace (Z.min f (N - 1)) with (N - 1) in Ecol by lia.
      rewrite Ecol in Ecol'. inversion Ecol'; subst colors'.
      unfold run. rewrite Erun'.
      rewrite !firstn_all2 by (unfold N, len_years; lia). reflexivity.
    + intros prev' st' E.
      destruct (@animate_revealing F _ years sea_levels angles radii colour
                  show_radius Hlevels Hangles Hradii Hnonempty Hcolour prev'
                  f Hf1) as (colors' & Ecol' & Erun').
      rewrite Ecol in Ecol'. inversion Ecol'; subst colors'.
      unfold run in E. rewrite Erun' in E. inversion E. reflexivity.
Qed.

End FrameSequence.

(** ** Charts are well formed *)

Lemma getitem_Ok_nonempty {A : Type} (l : list A) (a : A) :
  getitem l 0 = Ok a -> 1 <= Z.of_nat (List.length l).
Proof.
  intro E. apply getitem_Ok_nth_error in E; [|lia].
  destruct l; [discriminate | cbn [List.length]; lia].
Qed.

Lemma chart_wellformed {F : Type} `{Arith F} (p : Policy) (fs : FileSystem F) out chart :
  create_chart p fs = (out, Ok (Some chart)) ->
  List.length (chart_sea_levels chart) = List.length (chart_years chart) /\
  List.length (chart_angles chart) = List.length (chart_years chart) /\
  List.length (chart_radii chart) = List.length (chart_years chart) /\
  1 <= len_years (chart_years chart) /\
  chart_frames chart = frames (chart_years chart).
Proof.
  destruct p; cbn [create_chart]; intro Hc.
  - destruct (create_chart_A_inv _ Hc) as (df & _ & Hy & Hs & Ha & Hr & Hf & y0 & Hy0).
    assert (Hl : List.length (chart_sea_levels chart) = List.length (chart_years chart))
      by (rewrite Hy, Hs, !length_map; reflexivity).
    split; [assumption|].
    split; [rewrite Ha; unfold animated_sea_level.angles_of;
            rewrite length_map, length_combine; lia|].
    split; [rewrite Hr; unfold animated_sea_level.radii_of;
            rewrite length_map, length_combine; lia|].
    split; [apply (getitem_Ok_nonempty _ Hy0) | assumption].
  - destruct (create_chart_B_inv _ Hc) as (df & _ & Hy & Hs & Ha & Hr & Hf & y0 & Hy0).
    assert (Hl : List.length (chart_sea_levels chart) = List.length (chart_years chart))
      by (rewrite Hy, Hs, !length_map; reflexivity).
    split; [assumption|].
    split; [rewrite Ha; unfold polarCoordVisualization.angles_of;
            rewrite length_map, length_combine; lia|].
    split; [apply mapM_length in Hr; rewrite Hr, length_combine; lia|].
    split; [apply (getitem_Ok_nonempty _ Hy0) | assumption].
Qed.

Lemma colour_A_total {F : Type} `{Arith F} (years : list Z) (i : Z) :
  0 <= i < len_years years -> exists x : F, animated_sea_level.colour years i = Ok x.
Proof.
  intro Hi. unfold animated_sea_level.colour.
  rewrite (@getitem_nth _ 0 years i) by exact Hi. eexists. reflexivity.
Qed.

Lemma colour_B_total {F : Type} `{Arith F} (years : list Z) (i : Z) :
  0 <= i < len_years years -> exists x : F, polarCoordVisualization.colour years i = Ok x.
Proof.
  intro Hi. unfold polarCoordVisualization.colour. unfold len_years in Hi.
  rewrite (@getitem_nth _ 0 years i) by exact Hi.
  rewrite (@getitem_nth _ 0 years 0) by lia.
  destruct years as [|y t]; [simpl in Hi; lia|].
  destruct (getitem_last y t) as (b & ->). eexists. reflexivity.
Qed.

Lemma animate_chart_eq {F : Type} `{Arith F} (p : Policy) (chart : Chart F) :
  animate_chart p chart
  = animate (chart_years chart) (chart_sea_levels chart) (chart_angles chart)
      (chart_radii chart)
      (match p with
       | DecadeOffset => animated_sea_level.colour (chart_years chart)
       | MinMax => polarCoordVisualization.colour (chart_years chart)
       end)
      (match p with DecadeOffset => false | MinMax => true end).
Proof. destruct p; reflexivity. Qed.

Lemma colour_total {F : Type} `{Arith F} (p : Policy) (years : list Z) (i : Z) :
  0 <= i < len_years years ->
  exists x : F,
    match p with
    | DecadeOffset => animated_sea_level.colour years
    | MinMax => polarCoordVisualization.colour years
    end i = Ok x.
Proof. destruct p; [apply colour_A_total | apply colour_B_total]. Qed.

(** ** The animation *)

(** C3. For a chart over N >= 1 loaded rows, under either policy: the
    animation runs over the N + 60 frame indices 0 .. N + 59; every frame
    returns; frame 0 shows the first point only, line and scatter empty;
    a frame f >= 1 shows the points 0 .. min(f, N − 1) as line and scatter;
    from frame N − 1 on every point of the dataset is on the canvas, and a
    frame f >= 1 with f >= N − 1 leaves exactly the state of the final frame;
    what a frame renders does not depend on the artists' earlier state. *)
Theorem animation_frames :
  forall (F : Type) (A : Arith F) (p : Policy) (fs : FileSystem F) out chart,
    create_chart p fs = (out, Ok (Some chart)) ->
    let N := len_years (chart_years chart) in
    let data := combine (chart_angles chart) (chart_radii chart) in
    1 <= N /\
    chart_frames chart = range (N + 60) /\
    Z.of_nat (List.length (chart_frames chart)) = N + 60 /\
    forall (prev : Artists F) (f : Z),
      In f (chart_frames chart) ->
      exists st,
        animate_chart p chart prev f = Ok st /\
        (f = 0 ->
         line st = ([], []) /\ points_offsets st = [] /\
         current_point st = ([], []) /\ year_texts st = [] /\
         plotted st = firstn 1 data) /\
        (1 <= f ->
         let k := Z.to_nat (Z.min f (N - 1) + 1) in
         line st = (firstn k (chart_angles chart), firstn k (chart_radii chart)) /\
         points_offsets st = firstn k data) /\
        (N - 1 <= f -> forall pt, In pt data -> In pt (plotted st)) /\
        (1 <= f -> N - 1 <= f ->
         line st = (chart_angles chart, chart_radii chart) /\
         points_offsets st = data /\
         forall prev', animate_chart p chart prev' (N + 59) = Ok st) /\
        (forall prev' st', animate_chart p chart prev' f = Ok st' ->
                           rendered st' = rendered st).
Proof.
  intros F A p fs out chart Hc N data.
  destruct (chart_wellformed p fs Hc) as (Hl & Ha & Hr & HN & Hf).
  split; [exact HN|].
  split; [rewrite Hf; reflexivity|].
  split; [rewrite Hf; unfold frames, total_frames; rewrite length_range; fold N; lia|].
  intros prev f Hin. rewrite Hf in Hin. apply in_range in Hin.
  rewrite animate_chart_eq.
  apply (@frame_sequence F A (chart_years chart) (chart_sea_levels chart)
           (chart_angles chart) (chart_radii chart) _ _ Hl Ha Hr HN
           (colour_total p (chart_years chart)) prev f).
  lia.
Qed.

Lemma animation_frames_witness :
  exists out chart,
    create_chart MinMax disk_1954 = (out, Ok (Some chart)) /\
    1 <= len_years (chart_years chart) /\
    chart_frames chart = range (len_years (chart_years chart) + 60).
Proof.
  eexists. eexists. split; [vm_compute; reflexivity|].
  destruct (@animation_frames float Binary64 MinMax disk_1954 _ _ eq_refl)
    as (H1 & H2 & _).
  split; [exact H1 | exact H2].
Defined.

Lemma somes_map_if {A B : Type} (b : A -> bool) (g : A -> B) (l : list A) :
  somes (map (fun a => if b a then Some (g a) else None) l) = map g (filter b l).
Proof.
  induction l as [|h t IH]; simpl; [reflexivity|].
  destruct (b h); simpl; rewrite IH; reflexivity.
Qed.

(** C4, as the code has it. On a frame with current index c >= 1 the labels
    are those of the labelled indices, in order, and an index i <= c is
    labelled exactly when it is 0, or c, or its year is divisible by 5. *)
Theorem year_labels_by_year :
  forall (F : Type) (A : Arith F) (p : Policy) (fs : FileSystem F) out chart
         (prev : Artists F) (f : Z) (st : Artists F),
    create_chart p fs = (out, Ok (Some chart)) ->
    let years := chart_years chart in
    let c := Z.min f (len_years years - 1) in
    1 <= c ->
    animate_chart p chart prev f = Ok st ->
    year_texts st
    = map (fun i => mkText (nth (Z.to_nat i) (chart_angles chart) nan)
                      (add (nth (Z.to_nat i) (chart_radii chart) nan) (dec 15 100))
                      (nth (Z.to_nat i) years 0))
          (labelled_indices years c) /\
    forall i, In i (labelled_indices years c) <->
              0 <= i <= c /\
              (i = 0 \/ i = c \/ nth (Z.to_nat i) years 0 mod 5 = 0).
Proof.
  intros F A p fs out chart prev f st Hc years c Hc1 Hrun.
  destruct (chart_wellformed p fs Hc) as (Hl & Ha & Hr & HN & Hf).
  fold years in Hl, Ha, Hr, HN.
  assert (Hf1 : 1 <= f) by (unfold c in Hc1; lia).
  assert (HcN : c < len_years years) by (unfold c; lia).
  assert (Hlab : forall i, In i (range (c + 1)) ->
            match labelled years c i with Ok b => b | Raise _ => false end
            = (i =? 0) || (i =? c) || (nth (Z.to_nat i) years 0 mod 5 =? 0)).
  { intros i Hi. apply in_range in Hi.
    rewrite (@labelled_eq years c i) by lia. reflexivity. }
  split.
  - rewrite animate_chart_eq in Hrun.
    destruct (@animate_revealing F A years (chart_sea_levels chart)
                (chart_angles chart) (chart_radii chart) _
                (match p with DecadeOffset => false | MinMax => true end)
                Hl Ha Hr HN (colour_total p years) prev f Hf1)
      as (colors & _ & Erun).
    fold years in Hrun. rewrite Erun in Hrun. inversion Hrun; subst st; clear Hrun.
    cbn [year_texts]. fold c.
    rewrite (somes_map_if
               (fun i => (i =? 0) || (i =? c) || (nth (Z.to_nat i) years 0 mod 5 =? 0))
               (fun i => mkText (nth (Z.to_nat i) (chart_angles chart) nan)
                           (add (nth (Z.to_nat i) (chart_radii chart) nan) (dec 15 100))
                           (nth (Z.to_nat i) years 0))).
    unfold labelled_indices. f_equal. symmetry. apply filter_ext_in. exact Hlab.
  - intro i. unfold labelled_indices. rewrite filter_In, in_range. split.
    + intros [Hi Hb]. rewrite Hlab in Hb by (apply in_range; exact Hi).
      split; [lia|].
      apply orb_prop in Hb. destruct Hb as [Hb|Hb].
      * apply orb_prop in Hb. destruct Hb as [Hb|Hb]; apply Z.eqb_eq in Hb; auto.
      * apply Z.eqb_eq in Hb. auto.
    + intros [Hi Hor]. split; [lia|].
      rewrite Hlab by (apply in_range; lia).
      destruct Hor as [-> | [-> | Hy]].
      * reflexivity.
      * rewrite Z.eqb_refl. apply orb_true_iff. left. apply orb_true_r.
      * apply orb_true_iff. right. apply Z.eqb_eq. exact Hy.
Qed.

Lemma year_labels_by_year_witness :
  exists out chart st,
    create_chart DecadeOffset disk_1954 = (out, Ok (Some chart)) /\
    animate_chart DecadeOffset chart initial_artists 2 = Ok st /\
    map (@text_year float) (year_texts st) = [1954; 1955; 1956] /\
    forall i, In i (labelled_indices (chart_years chart) 2) <->
              0 <= i <= 2 /\
              (i = 0 \/ i = 2 \/ nth (Z.to_nat i) (chart_years chart) 0 mod 5 = 0).
Proof.
  eexists. eexists. eexists.
  split; [vm_compute; reflexivity|].
  split; [vm_compute; reflexivity|].
  split; [vm_compute; reflexivity|].
  assert (Hc1 : 1 <= Z.min 2 (len_years [1954; 1955; 1956] - 1)) by (vm_compute; discriminate).
  exact (proj2 (@year_labels_by_year float Binary64 DecadeOffset disk_1954 _ _
                  initial_artists 2 _ eq_refl Hc1 eq_refl)).
Defined.

(** C4 as the documentation words it fails: on the third frame of three
    consecutive years from 1954 the point of index 1 (the year 1955) is
    labelled, though 1 is neither a multiple of 5, nor 0, nor the current
    index 2. *)
Lemma year_labels_every_fifth_index_counterexample :
  exists out chart st,
    create_chart DecadeOffset disk_1954 = (out, Ok (Some chart)) /\
    animate_chart DecadeOffset chart initial_artists 2 = Ok st /\
    labelled (chart_years chart) 2 1 = Ok true /\
    map (@text_year float) (year_texts st) = [1954; 1955; 1956] /\
    labelled_indices (chart_years chart) 2 = [0; 1; 2] /\
    every_fifth_index 2 = [0; 2] /\
    ~ (1 mod 5 = 0 \/ 1 = 0 \/ 1 = 2).
Proof.
  eexists. eexists. eexists.
  split; [vm_compute; reflexivity|].
  split; [vm_compute; reflexivity|].
  repeat (split; [vm_compute; reflexivity|]).
  intros [E | [E | E]]; discriminate.
Qed.

#[export] Instance NanLaw_Exact : NanLaw (F:=xreal).
Proof. reflexivity. Qed.

#[export] Instance NanLaw_Binary64 : NanLaw (F:=float).
Proof. reflexivity. Qed.

(** ** Crawler *)

Lemma mapM_In {A B : Type} (f : A -> result B) (l : list A) (l' : list B) (a : A) :
  mapM f l = Ok l' -> In a l -> exists b, f a = Ok b /\ In b l'.
Proof.
  intros E Ha. apply In_nth_error in Ha. destruct Ha as (i & Hi).
  destruct (mapM_nth _ _ _ E Hi) as (b & Hb & Hn).
  exists b. split; [assumption|]. apply nth_error_In with (n := i). assumption.
Qed.

Lemma in_insert_by_year {F : Type} (r x : SeaLevelRecord F) (l : DataFrame F) :
  In x (insert_by_year r l) <-> x = r \/ In x l.
Proof.
  induction l as [|h t IH]; simpl.
  - intuition congruence.
  - destruct (Year r <? Year h); simpl; [intuition congruence|].
    rewrite IH. intuition congruence.
Qed.

Lemma in_sort_values_Year {F : Type} (x : SeaLevelRecord F) (df : DataFrame F) :
  In x (sort_values_Year df) <-> In x df.
Proof.
  unfold sort_values_Year.
  assert (G : forall acc, In x (fold_left (fun a r => insert_by_year r a) df acc)
                          <-> In x acc \/ In x df).
  { induction df as [|r t IH]; intro acc; simpl.
    - intuition.
    - rewrite IH, in_insert_by_year. intuition congruence. }
  rewrite G. simpl. intuition.
Qed.

Section CrawlerFacts.
Context {F : Type} `{Arith F}.
Variable py_int : pyval F -> result Z.
Variable py_float : pyval F -> result F.

Lemma sentinel_field : float_or_None py_float (strip_sentinel (PStr "***")) = Ok None.
Proof. reflexivity. Qed.

Lemma falsy_field (v : pyval F) :
  truthy v = false -> float_or_None py_float v = Ok None.
Proof. intro E. unfold float_or_None. rewrite E. reflexivity. Qed.

Lemma falsy_not_sentinel (v : pyval F) : truthy v = false -> strip_sentinel v = v.
Proof.
  unfold strip_sentinel. destruct v as [| | | |s]; try reflexivity.
  simpl. intro E. destruct (String.eqb_spec s "***") as [->|]; [discriminate|reflexivity].
Qed.

(** The level the loop stores for position 1 of a record. *)
Lemma process_record_msl (year_record : list (pyval F)) (d : YearDict F) (v : pyval F) :
  process_record py_int py_float year_record = Ok d ->
  getitem year_record 1 = Ok v ->
  float_or_None py_float (strip_sentinel v) = Ok (d_Mean_Sea_Level_m d).
Proof.
  unfold process_record. intros E Hv.
  inv_bind_as E year Eyear. rewrite Hv in E. cbn [bind] in E.
  inv_bind E. inv_bind E. inv_bind E. inv_bind E.
  inv_bind_as E y Ey. inv_bind_as E msl Emsl.
  inv_bind E. inv_bind E. inv_bind E. inv_bind E.
  inversion E; subst. exact Emsl.
Qed.

Lemma crawl_inv (resp : Response F) (df : DataFrame F) (files : CrawlFiles F) :
  crawl_hko_sea_level_data py_int py_float resp = (Some df, Some files) ->
  csv_file files = df /\
  simple_csv_file files = simple_df df /\
  exists stations qub processed_data,
    resp = Payload stations /\
    find_qub stations = Some qub /\
    mapM (process_record py_int py_float) (yearData qub) = Ok processed_data /\
    df = sort_values_Year (map frame_row processed_data).
Proof.
  unfold crawl_hko_sea_level_data.
  destruct (crawl_body py_int py_float resp) as [[[df' files']|]|e] eqn:E;
    try discriminate.
  intro E'. inversion E'; subst; clear E'.
  unfold crawl_body in E.
  destruct resp as [| | |stations]; try discriminate.
  destruct (find_qub stations) as [qub|] eqn:Eq; [|discriminate].
  inv_bind_as E processed Eproc. inv_bind_as E df' Edf.
  inversion E; subst; clear E. cbn [csv_file simple_csv_file].
  split; [reflexivity|]. split; [reflexivity|].
  exists stations, qub, processed. repeat (split; [reflexivity || assumption|]).
  unfold sorted_frame in Edf. destruct processed; [discriminate|].
  inversion Edf. reflexivity.
Qed.

Lemma simple_df_notna (df : DataFrame F) (row : Z * F) :
  In row (simple_df df) -> isnan (snd row) = false.
Proof.
  unfold simple_df. rewrite filter_In. intros [_ E].
  apply negb_true_iff in E. exact E.
Qed.

End CrawlerFacts.

(** A complete record, as the station's payload spells it, parsed in
    binary64. *)
Example process_record_2024 :
  process_record (int_builtin float_trunc) float_builtin
    [PStr "2024"; PStr "1.410"; PStr "1.750"; PStr "1.520"; PStr "0.880"; PStr "0.650"]
  = Ok (mkYearDict 2024 (Some (dec 141 100)) (Some (dec 175 100)) (Some (dec 152 100))
          (Some (dec 88 100)) (Some (dec 65 100))).
Proof. vm_compute. reflexivity. Qed.

(** C6. A mean-sea-level field equal to "***" is parsed into [None]: the
    conversion of that field neither raises nor calls [float]; and in a
    successful run the row of such a record is in the full CSV with a
    missing level and is not in the simplified file, which holds only
    (year, level) pairs with a level present. *)
Theorem sentinel_level_missing_and_dropped :
  forall (F : Type) (A : Arith F) (L : NanLaw (F:=F))
         (py_int : pyval F -> result Z) (py_float : pyval F -> result F),
    float_or_None py_float (strip_sentinel (PStr "***")) = Ok None /\
    (forall year_record d,
        getitem year_record 1 = Ok (PStr "***") ->
        process_record py_int py_float year_record = Ok d ->
        d_Mean_Sea_Level_m d = None) /\
    (forall resp df files,
        crawl_hko_sea_level_data py_int py_float resp = (Some df, Some files) ->
        (forall row, In row (simple_csv_file files) -> isnan (snd row) = false) /\
        (forall r, In r (csv_file files) -> isnan (Mean_Sea_Level_m r) = true ->
                   ~ In (Year r, Mean_Sea_Level_m r) (simple_csv_file files)) /\
        (forall stations qub year_record,
            resp = Payload stations ->
            find_qub stations = Some qub ->
            In year_record (yearData qub) ->
            getitem year_record 1 = Ok (PStr "***") ->
            exists d,
              process_record py_int py_float year_record = Ok d /\
              In (frame_row d) (csv_file files) /\
              isnan (Mean_Sea_Level_m (frame_row d)) = true /\
              ~ In (Year (frame_row d), Mean_Sea_Level_m (frame_row d))
                   (simple_csv_file files))).
Proof.
  intros F A L py_int py_float.
  split; [reflexivity|]. split.
  - intros rec d Hv Hd.
    pose proof (process_record_msl _ _ _ Hd Hv) as E.
    cbn in E. inversion E. reflexivity.
  - intros resp df files Hrun.
    destruct (crawl_inv _ _ _ Hrun)
      as (Hcsv & Hsimple & stations & qub & processed & -> & Hq & Hproc & Hdf).
    assert (Hnotna : forall row, In row (simple_csv_file files) -> isnan (snd row) = false).
    { intros row Hrow. rewrite Hsimple in Hrow. exact (simple_df_notna _ _ Hrow). }
    assert (Hdrop : forall r, isnan (Mean_Sea_Level_m r) = true ->
                              ~ In (Year r, Mean_Sea_Level_m r) (simple_csv_file files)).
    { intros r Hr Hin. apply Hnotna in Hin. cbn [snd] in Hin. congruence. }
    split; [exact Hnotna|]. split; [intros r _; apply Hdrop|].
    intros stations' qub' rec Hresp Hq' Hin Hv.
    inversion Hresp; subst stations'. rewrite Hq in Hq'. inversion Hq'; subst qub'.
    destruct (mapM_In _ _ _ Hproc Hin) as (d & Hd & Hdin).
    exists d. split; [exact Hd|].
    assert (Hmsl : d_Mean_Sea_Level_m d = None).
    { pose proof (process_record_msl _ _ _ Hd Hv) as E. cbn in E.
      inversion E. reflexivity. }
    assert (Hnan : isnan (Mean_Sea_Level_m (frame_row d)) = true).
    { cbn [frame_row Mean_Sea_Level_m]. rewrite Hmsl. cbn [cell]. apply isnan_nan. }
    split.
    + rewrite Hcsv, Hdf. apply in_sort_values_Year. apply in_map. exact Hdin.
    + split; [exact Hnan | apply Hdrop; exact Hnan].
Qed.

Lemma sentinel_level_missing_and_dropped_witness :
  exists df files d,
    crawl_hko_sea_level_data (int_builtin float_trunc) float_builtin sample_payload
      = (Some df, Some files) /\
    process_record (int_builtin float_trunc) float_builtin record_1957 = Ok d /\
    d_Mean_Sea_Level_m d = None /\
    In (frame_row d) (csv_file files) /\
    ~ In (Year (frame_row d), Mean_Sea_Level_m (frame_row d)) (simple_csv_file files) /\
    map fst (simple_csv_file files) = [1990; 2024].
Proof.
  destruct (@sentinel_level_missing_and_dropped float Binary64 NanLaw_Binary64
              (int_builtin float_trunc) float_builtin) as (_ & Hrec & Hrun).
  eexists. eexists.
  destruct (Hrun sample_payload _ _ eq_refl) as (_ & _ & Hrow).
  destruct (Hrow sample_stations sample_qub record_1957
              eq_refl eq_refl (or_intror (or_introl eq_refl)) eq_refl)
    as (d & Hd & Hin & _ & Hout).
  exists d. split; [reflexivity|]. split; [exact Hd|].
  split; [exact (Hrec record_1957 d eq_refl Hd)|].
  split; [exact Hin|]. split; [exact Hout|]. vm_compute. reflexivity.
Defined.

Lemma process_record_inv {F : Type} `{Arith F}
      (py_int : pyval F -> result Z) (py_float : pyval F -> result F)
      (year_record : list (pyval F)) (d : YearDict F) :
  process_record py_int py_float year_record = Ok d ->
  exists v1 v2 v3 v4 v5,
    getitem year_record 1 = Ok v1 /\
    getitem year_record 2 = Ok v2 /\
    getitem year_record 3 = Ok v3 /\
    getitem year_record 4 = Ok v4 /\
    getitem year_record 5 = Ok v5 /\
    float_or_None py_float (strip_sentinel v1) = Ok (d_Mean_Sea_Level_m d) /\
    float_or_None py_float (strip_sentinel v2) = Ok (d_Mean_Higher_High_Water_m d) /\
    float_or_None py_float (strip_sentinel v3) = Ok (d_Mean_Lower_High_Water_m d) /\
    float_or_None py_float (strip_sentinel v4) = Ok (d_Mean_Higher_Low_Water_m d) /\
    float_or_None py_float (strip_sentinel v5) = Ok (d_Mean_Lower_Low_Water_m d).
Proof.
  unfold process_record. intro E.
  inv_bind_as E year Eyear.
  inv_bind_as E v1 E1. inv_bind_as E v2 E2. inv_bind_as E v3 E3.
  inv_bind_as E v4 E4. inv_bind_as E v5 E5.
  inv_bind_as E y Ey.
  inv_bind_as E f1 F1. inv_bind_as E f2 F2. inv_bind_as E f3 F3.
  inv_bind_as E f4 F4. inv_bind_as E f5 F5.
  inversion E; subst; clear E.
  exists v1, v2, v3, v4, v5. cbn. repeat split; assumption.
Qed.

(** C10. A water-level field whose value is falsy is recorded as missing,
    whatever [float] would make of it: so the empty string and the number
    0, for which [float] returns 0.0.  A truthy value other than the
    sentinel goes through [float].  At the level of a record this holds at
    each of the five level positions. *)
Theorem falsy_level_recorded_missing :
  (forall (F : Type) (A : Arith F)
          (py_int : pyval F -> result Z) (py_float : pyval F -> result F),
      (forall v, truthy v = false ->
                 float_or_None py_float (strip_sentinel v) = Ok None) /\
      float_or_None py_float (strip_sentinel (PStr "")) = Ok None /\
      float_or_None py_float (strip_sentinel (PInt 0)) = Ok None /\
      (forall v, truthy v = true -> not_sentinel v = true ->
                 float_or_None py_float (strip_sentinel v)
                 = (f <- py_float v ;; Ok (Some f))) /\
      (forall year_record d v,
          process_record py_int py_float year_record = Ok d ->
          truthy v = false ->
          (getitem year_record 1 = Ok v -> d_Mean_Sea_Level_m d = None) /\
          (getitem year_record 2 = Ok v -> d_Mean_Higher_High_Water_m d = None) /\
          (getitem year_record 3 = Ok v -> d_Mean_Lower_High_Water_m d = None) /\
          (getitem year_record 4 = Ok v -> d_Mean_Higher_Low_Water_m d = None) /\
          (getitem year_record 5 = Ok v -> d_Mean_Lower_Low_Water_m d = None)))
  /\
  (float_builtin (F:=float) (PInt 0) = Ok PrimFloat.zero /\
   float_or_None (F:=float) float_builtin (strip_sentinel (PInt 0)) = Ok None /\
   float_or_None (F:=float) float_builtin (strip_sentinel (PFloat PrimFloat.zero))
   = Ok None /\
   float_or_None (F:=float) float_builtin (strip_sentinel (PStr "0"))
   = Ok (Some PrimFloat.zero)).
Proof.
  split; [|repeat split; reflexivity].
  intros F A py_int py_float.
  assert (Hfalsy : forall v, truthy v = false ->
                     float_or_None py_float (strip_sentinel v) = Ok None).
  { intros v Hv. rewrite (falsy_not_sentinel v Hv). apply falsy_field. exact Hv. }
  split; [exact Hfalsy|].
  split; [reflexivity|]. split; [reflexivity|]. split.
  - intros v Ht Hs. unfold strip_sentinel. rewrite Hs.
    unfold float_or_None. rewrite Ht. reflexivity.
  - intros rec d v Hd Hv.
    destruct (process_record_inv _ _ _ Hd)
      as (v1 & v2 & v3 & v4 & v5 & G1 & G2 & G3 & G4 & G5 & R1 & R2 & R3 & R4 & R5).
    pose proof (Hfalsy v Hv) as Hnone.
    repeat split; intro G.
    + rewrite G1 in G. inversion G; subst. congruence.
    + rewrite G2 in G. inversion G; subst. congruence.
    + rewrite G3 in G. inversion G; subst. congruence.
    + rewrite G4 in G. inversion G; subst. congruence.
    + rewrite G5 in G. inversion G; subst. congruence.
Qed.

Lemma falsy_level_recorded_missing_witness :
  exists d,
    process_record (int_builtin float_trunc) float_builtin record_1990 = Ok d /\
    d_Mean_Sea_Level_m d = None /\
    d_Mean_Higher_High_Water_m d = None /\
    d_Mean_Lower_High_Water_m d = None /\
    d_Mean_Lower_Low_Water_m d = Some PrimFloat.zero.
Proof.
  destruct falsy_level_recorded_missing as (Hgen & _).
  destruct (Hgen float Binary64 (int_builtin float_trunc) float_builtin)
    as (_ & _ & _ & _ & Hrec).
  eexists. split; [vm_compute; reflexivity|].
  split; [exact (proj1 (Hrec record_1990 _ (PInt 0) eq_refl eq_refl) eq_refl)|].
  split; [exact (proj1 (proj2 (Hrec record_1990 _ (PStr "") eq_refl eq_refl)) eq_refl)|].
  split; [exact (proj1 (proj2 (proj2
                   (Hrec record_1990 _ (PFloat PrimFloat.zero) eq_refl eq_refl))) eq_refl)|].
  reflexivity.
Defined.

(** ** Group keys *)





(** ** Decadal aggregation *)

Section AnalyzerFacts.
Context {F : Type} `{Arith F}.





End AnalyzerFacts.


(** ** Mean and standard deviation in exact arithmetic *)









Lemma polyfit1_recent_five_exact :
  polyfit1 (map (@Year xreal) recent_five) (map (@Mean_Sea_Level_m xreal) recent_five)
  = Ok (Some 0.017%R, Some (-33.038)%R).
Proof.
  unfold polyfit1, recent_five, recent_row, fsum, dec. cbn.
  rewrite !xdiv_some by lra. cbn.
  rewrite xdiv_some by lra. cbn.
  rewrite xdiv_some by lra.
  f_equal. f_equal; f_equal; lra.
Qed.

Lemma recent_five_levels_exact :
  map (@Mean_Sea_Level_m xreal) recent_five
  = [Some (130 / 100)%R; Some (132 / 100)%R; Some (135 / 100)%R;
     Some (133 / 100)%R; Some (138 / 100)%R].
Proof.
  unfold recent_five, recent_row, dec. cbn. rewrite !xdiv_some by lra. reflexivity.
Qed.

Lemma displayed_recent_five_exact :
  map (@Decade xreal) (displayed_decades recent_five) = [2020] /\
  map (@stat_count xreal) (displayed_decades recent_five) = [5].
Proof.
  unfold displayed_decades, decade_stats, group_levels, recent_five, recent_row, dec.
  cbn. rewrite !xdiv_some by lra. cbn. split; reflexivity.
Qed.

(** C5, as the code has it. For the years 2020 to 2024 with the levels
    1.30, 1.32, 1.35, 1.33, 1.38 the least-squares slope is positive
    (0.017 m per year in exact arithmetic), and the decadal filter keeps the
    2020s group, which counts 5 years. *)
Theorem recent_five_trend_and_decade :
  (exists an,
      create_comprehensive_analysis (F:=xreal) recent_five = Ok an /\
      fst (trend an) = Some 0.017%R /\ (0 < 0.017)%R /\
      map (@Decade xreal) (decadal_bars an) = [2020] /\
      map (@stat_count xreal) (decadal_bars an) = [5])
  /\
  (exists an,
      create_comprehensive_analysis (F:=float) recent_five = Ok an /\
      ltb (of_int 0) (fst (trend an)) = true /\
      map (@Decade float) (decadal_bars an) = [2020] /\
      map (@stat_count float) (decadal_bars an) = [5] /\
      map (@Decade float) (generate_summary_report recent_five) = [2020]).
Proof.
  split.
  - exists (mkAnalysis (Some 0.017%R, Some (-33.038)%R)
                       (Some (Some 0.017%R, Some (-33.038)%R))
                       (displayed_decades (F:=xreal) recent_five)).
    split.
    + unfold create_comprehensive_analysis.
      replace (filter (fun r : SeaLevelRecord xreal => 1995 <=? Year r) recent_five)
        with (recent_five (F:=xreal)) by reflexivity.
      rewrite polyfit1_recent_five_exact. reflexivity.
    + cbn [trend fst decadal_bars].
      split; [reflexivity|]. split; [lra|]. apply displayed_recent_five_exact.
  - eexists. split; [vm_compute; reflexivity|].
    repeat split; vm_compute; reflexivity.
Qed.

(** C5 as the documentation words it fails: the filter keeps a decade with
    five counted years, so the 2020s group of this dataset is displayed. *)
Lemma decadal_filter_excludes_2020s_counterexample :
  exists an,
    create_comprehensive_analysis (F:=float) recent_five = Ok an /\
    In 2020 (map (@Decade float) (decadal_bars an)) /\
    map (@stat_count float) (decadal_bars an) = [5].
Proof.
  eexists. split; [vm_compute; reflexivity|].
  split; [vm_compute; left; reflexivity | vm_compute; reflexivity].
Qed.

(** * Part III: further properties of the code *)

(** ** Further properties of the animators *)

(** X1. Under both policies the angle of a year depends on the year modulo
    10 only: it is the same ten years later, and the two scripts compute the
    same angle; in exact arithmetic it lies in [0, 2π) and is 0 exactly for
    the first year of a decade. *)
Theorem angle_period_ten :
  (forall (F : Type) (A : Arith F) (y : Z),
      animated_sea_level.angle_of (F:=F) (y + 10) = animated_sea_level.angle_of y /\
      polarCoordVisualization.angle_of (F:=F) (y + 10)
        = polarCoordVisualization.angle_of y /\
      polarCoordVisualization.angle_of (F:=F) y = animated_sea_level.angle_of y /\
      animated_sea_level.angle_of (F:=F) y = animated_sea_level.angle_of (y mod 10))
  /\
  (forall y : Z,
      exists a : R,
        animated_sea_level.angle_of (F:=xreal) y = Some a /\
        (0 <= a < 2 * PI)%R /\
        (a = 0%R <-> y mod 10 = 0)).
Proof.
  split.
  - intros F A y.
    assert (E : (y + 10) mod 10 = y mod 10).
    { replace (y + 10) with (y + 1 * 10) by lia. apply Z.mod_add. lia. }
    unfold animated_sea_level.angle_of, polarCoordVisualization.angle_of.
    cbv zeta. rewrite E, Z.mod_mod by lia. repeat split; reflexivity.
  - intro y. rewrite angle_of_exact.
    exists (2 * PI * IZR (y mod 10) / 10)%R. split; [reflexivity|].
    pose proof PI_RGT_0 as Hpi.
    assert (Hk : 0 <= y mod 10 < 10) by (apply Z.mod_pos_bound; lia).
    assert (Hk0 : (0 <= IZR (y mod 10))%R) by (apply IZR_le; lia).
    assert (Hk9 : (IZR (y mod 10) <= 9)%R) by (apply IZR_le; lia).
    split; [split; nra|].
    split; intro E.
    + assert (E0 : IZR (y mod 10) = 0%R) by nra.
      apply eq_IZR in E0. exact E0.
    + rewrite E. lra.
Qed.

(** The order of binary64 is transitive. *)
Lemma SFcompare_lt_trans (x y z : spec_float) :
  SFcompare x y = Some Lt -> SFcompare y z = Some Lt -> SFcompare x z = Some Lt.
Proof.
  destruct x as [sx|sx| |sx mx ex], y as [sy|sy| |sy my ey], z as [sz|sz| |sz mz ez];
    try destruct sx; try destruct sy; try destruct sz;
    cbn [SFcompare]; try discriminate; try reflexivity.
  - change (Pos.compare_cont Eq mx my) with (mx ?= my)%positive.
    change (Pos.compare_cont Eq my mz) with (my ?= mz)%positive.
    change (Pos.compare_cont Eq mx mz) with (mx ?= mz)%positive.
    destruct (Z.compare_spec ex ey), (Z.compare_spec ey ez), (Z.compare_spec ex ez);
      try discriminate; try reflexivity; try lia; subst.
    destruct (Pos.compare_spec mx my), (Pos.compare_spec my mz),
      (Pos.compare_spec mx mz); cbn [CompOpp]; try discriminate; try reflexivity;
      intros; try lia; subst; lia.
  - change (Pos.compare_cont Eq mx my) with (mx ?= my)%positive.
    change (Pos.compare_cont Eq my mz) with (my ?= mz)%positive.
    change (Pos.compare_cont Eq mx mz) with (mx ?= mz)%positive.
    destruct (Z.compare_spec ex ey), (Z.compare_spec ey ez), (Z.compare_spec ex ez);
      try discriminate; try reflexivity; try lia; subst.
    destruct (Pos.compare_spec mx my), (Pos.compare_spec my mz),
      (Pos.compare_spec mx mz); cbn [CompOpp]; try discriminate; try reflexivity;
      intros; try lia; subst; lia.
Qed.

Lemma float_ltb_trans (x y z : float) :
  PrimFloat.ltb x y = true -> PrimFloat.ltb y z = true -> PrimFloat.ltb x z = true.
Proof.
  rewrite !FloatAxioms.ltb_spec. unfold SFltb.
  destruct (SFcompare (Prim2SF x) (Prim2SF y)) as [[| |]|] eqn:Exy; try discriminate.
  destruct (SFcompare (Prim2SF y) (Prim2SF z)) as [[| |]|] eqn:Eyz; try discriminate.
  intros _ _. rewrite (SFcompare_lt_trans _ _ _ Exy Eyz). reflexivity.
Qed.

Lemma radius_of_decade (y : Z) (level : float) :
  animated_sea_level.radius_of y level
  = animated_sea_level.radius_of (1950 + 10 * (y / 10 - 195)) level.
Proof.
  unfold animated_sea_level.radius_of. cbv zeta.
  replace ((1950 + 10 * (y / 10 - 195)) / 10) with (y / 10); [reflexivity|].
  replace (1950 + 10 * (y / 10 - 195)) with (y / 10 * 10) by lia.
  rewrite Z.div_mul by lia. reflexivity.
Qed.

Lemma decade_index_bounds (y : Z) :
  1950 <= y <= 2029 -> 0 <= y / 10 - 195 < 8.
Proof.
  intro Hy.
  assert (195 <= y / 10) by (apply Z.div_le_lower_bound; lia).
  assert (y / 10 < 203) by (apply Z.div_lt_upper_bound; lia).
  lia.
Qed.

Lemma radius_steps_check_spec (levels decades : list Z) :
  radius_steps_check levels decades = true ->
  forall k d, In k levels -> In d decades ->
    PrimFloat.ltb (animated_sea_level.radius_of (1950 + 10 * d) (millimetres k))
                  (animated_sea_level.radius_of (1950 + 10 * d) (millimetres (k + 1)))
    = true.
Proof.
  unfold radius_steps_check. intros Hchk k d Hk Hd.
  rewrite forallb_forall in Hchk. specialize (Hchk k Hk). cbv zeta in Hchk.
  rewrite forallb_forall in Hchk. exact (Hchk d Hd).
Qed.

Lemma radius_decades_check_spec (levels decades : list Z) :
  radius_decades_check levels decades = true ->
  forall k d, In k levels -> In d decades ->
    PrimFloat.ltb (animated_sea_level.radius_of (1950 + 10 * d) (millimetres k))
                  (animated_sea_level.radius_of (1960 + 10 * d) (millimetres k))
    = true.
Proof.
  unfold radius_decades_check. intros Hchk k d Hk Hd.
  rewrite forallb_forall in Hchk. specialize (Hchk k Hk). cbv zeta in Hchk.
  rewrite forallb_forall in Hchk. exact (Hchk d Hd).
Qed.

Lemma in_count_up_from_0 (n k : Z) : 0 <= k < n -> In k (count_up (Z.to_nat n) 0).
Proof. intro Hk. apply in_count_up. lia. Qed.

Lemma radius_steps_published :
  radius_steps_check (count_up (Z.to_nat 3000) 0) (range 8) = true.
Proof. vm_compute. reflexivity. Qed.

Lemma radius_decades_published :
  radius_decades_check (count_up (Z.to_nat 3001) 0) (range 7) = true.
Proof. vm_compute. reflexivity. Qed.

Lemma radius_step (y k : Z) :
  1950 <= y <= 2029 -> 0 <= k < 3000 ->
  PrimFloat.ltb (animated_sea_level.radius_of y (millimetres k))
                (animated_sea_level.radius_of y (millimetres (k + 1))) = true.
Proof.
  intros Hy Hk.
  rewrite (radius_of_decade y (millimetres k)),
    (radius_of_decade y (millimetres (k + 1))).
  apply (radius_steps_check_spec _ _ radius_steps_published).
  - apply in_count_up_from_0. exact Hk.
  - apply in_range. apply decade_index_bounds. exact Hy.
Qed.

(** X2. In binary64, for the years 1950 to 2029 and levels of whole
    millimetres from 0 to 3 m, the radius of the decade-offset policy is
    strictly increasing in the level within a year, and the same level
    lies strictly further out ten years later. *)
Theorem policyA_radius_monotone :
  forall (y k1 k2 : Z),
    1950 <= y <= 2029 -> 0 <= k1 -> k1 < k2 -> k2 <= 3000 ->
    PrimFloat.ltb (animated_sea_level.radius_of y (millimetres k1))
                  (animated_sea_level.radius_of y (millimetres k2)) = true /\
    (y <= 2019 ->
     PrimFloat.ltb (animated_sea_level.radius_of y (millimetres k1))
                   (animated_sea_level.radius_of (y + 10) (millimetres k1)) = true).
Proof.
  intros y k1 k2 Hy Hk1 Hlt Hk2. split.
  - assert (Hchain : forall n : nat,
               k1 + 1 + Z.of_nat n <= 3000 ->
               PrimFloat.ltb (animated_sea_level.radius_of y (millimetres k1))
                 (animated_sea_level.radius_of y (millimetres (k1 + 1 + Z.of_nat n)))
               = true).
    { induction n as [|n IH]; intro Hn.
      - replace (k1 + 1 + Z.of_nat 0) with (k1 + 1) by lia.
        apply radius_step; [exact Hy | lia].
      - apply float_ltb_trans
          with (y := animated_sea_level.radius_of y (millimetres (k1 + 1 + Z.of_nat n))).
        + apply IH. lia.
        + replace (k1 + 1 + Z.of_nat (S n)) with (k1 + 1 + Z.of_nat n + 1) by lia.
          apply radius_step; [exact Hy | lia]. }
    replace k2 with (k1 + 1 + Z.of_nat (Z.to_nat (k2 - k1 - 1))) by lia.
    apply Hchain. lia.
  - intro Hy'.
    assert (Hd : 0 <= y / 10 - 195 < 7).
    { assert (195 <= y / 10) by (apply Z.div_le_lower_bound; lia).
      assert (y / 10 < 202) by (apply Z.div_lt_upper_bound; lia). lia. }
    rewrite (radius_of_decade y (millimetres k1)),
      (radius_of_decade (y + 10) (millimetres k1)).
    replace ((y + 10) / 10) with (y / 10 + 1)
      by (replace (y + 10) with (y + 1 * 10) by lia; rewrite Z.div_add by lia;
          reflexivity).
    replace (1950 + 10 * (y / 10 + 1 - 195)) with (1960 + 10 * (y / 10 - 195)) by lia.
    apply (radius_decades_check_spec _ _ radius_decades_published).
    + apply in_count_up_from_0. lia.
    + apply in_range. exact Hd.
Qed.

(** 1.410 m and 1.411 m in 2024, and 1.410 m in 2014 and 2024. *)
Lemma policyA_radius_monotone_witness :
  PrimFloat.ltb (animated_sea_level.radius_of 2024 (millimetres 1410))
                (animated_sea_level.radius_of 2024 (millimetres 1411)) = true /\
  PrimFloat.ltb (animated_sea_level.radius_of 2014 (millimetres 1410))
                (animated_sea_level.radius_of 2024 (millimetres 1410)) = true.
Proof.
  assert (H24 : 1950 <= 2024 <= 2029) by lia.
  assert (H14 : 1950 <= 2014 <= 2029) by lia.
  assert (H0 : 0 <= 1410) by lia.
  assert (Hlt : 1410 < 1411) by lia.
  assert (H3 : 1411 <= 3000) by lia.
  split.
  - exact (proj1 (policyA_radius_monotone H24 H0 Hlt H3)).
  - assert (H19 : 2014 <= 2019) by lia.
    exact (proj2 (policyA_radius_monotone H14 H0 Hlt H3) H19).
Defined.

(** In binary64 a decade does not add exactly 1 to the radius: the level
    1.51 m in 2024 lies below its radius of 2014 plus 1. *)
Example radius_decade_rounding_float :
  PrimFloat.ltb (animated_sea_level.radius_of 2024 (millimetres 1510))
                (add (animated_sea_level.radius_of 2014 (millimetres 1510)) (of_int 1))
  = true.
Proof. vm_compute. reflexivity. Qed.

(** The chart of the decade-offset script, spelled out. *)
Lemma create_chart_A_shape {F : Type} `{Arith F} (fs : FileSystem F) out chart :
  animated_sea_level.create_animated_polar_chart fs = (out, Ok (Some chart)) ->
  exists df last_year first_year lo hi,
    read_csv fs csv_path = Ok df /\
    let years := map (@Year F) (dropna_msl df) in
    let sea_levels := map (@Mean_Sea_Level_m F) (dropna_msl df) in
    getitem years (-1) = Ok last_year /\
    getitem years 0 = Ok first_year /\
    np_min sea_levels = Ok lo /\
    np_max sea_levels = Ok hi /\
    chart = mkChart years sea_levels
              (animated_sea_level.angles_of years sea_levels)
              (animated_sea_level.radii_of years sea_levels)
              (last_year / 10 - 195 + 3)
              (animated_sea_level.decade_grid (last_year / 10 - 195 + 3))
              first_year (frames years) /\
    out = [PrintedAnimationInfo first_year last_year (len_years years) lo hi
             (total_frames years)].
Proof.
  unfold animated_sea_level.create_animated_polar_chart,
    animated_sea_level.load_sea_level_data.
  destruct (read_csv fs csv_path) as [df|e].
  - intro E. exists df.
    match type of E with
    | (match ?c with _ => _ end) = _ => destruct c as [[ch info]|e] eqn:Ec
    end; [|discriminate].
    inversion E; subst; clear E.
    inv_bind_as Ec yl Eyl. inv_bind_as Ec y0 Ey0.
    inv_bind_as Ec lo Elo. inv_bind_as Ec hi Ehi.
    inversion Ec; subst; clear Ec.
    exists yl, y0, lo, hi. cbv zeta. repeat (split; [reflexivity || assumption|]).
    reflexivity.
  - destruct e; intro E; discriminate.
Qed.


Lemma dropna_msl_filter {F : Type} `{Arith F} (df : DataFrame F) :
  combine (map (@Year F) (dropna_msl df)) (map (@Mean_Sea_Level_m F) (dropna_msl df))
  = map (fun r => (Year r, Mean_Sea_Level_m r))
        (filter (fun r => negb (isnan (Mean_Sea_Level_m r))) df).
Proof.
  unfold dropna_msl.
  induction (filter (fun r => negb (isnan (Mean_Sea_Level_m r))) df) as [|r t IH];
    simpl; [reflexivity | rewrite IH; reflexivity].
Qed.

(** X3. Under either policy the chart holds, in file order, exactly the
    rows of the file that have a mean sea level: no plotted level is
    missing, the four arrays have one entry per such row, and the animation
    has that many frames plus 60. *)
Theorem chart_holds_rows_with_level :
  forall (F : Type) (A : Arith F) (p : Policy) (fs : FileSystem F) out chart,
    create_chart p fs = (out, Ok (Some chart)) ->
    exists df,
      read_csv fs csv_path = Ok df /\
      let rows := filter (fun r => negb (isnan (Mean_Sea_Level_m r))) df in
      combine (chart_years chart) (chart_sea_levels chart)
        = map (fun r => (Year r, Mean_Sea_Level_m r)) rows /\
      Forall (fun level => isnan level = false) (chart_sea_levels chart) /\
      List.length (chart_years chart) = List.length rows /\
      List.length (chart_sea_levels chart) = List.length rows /\
      List.length (chart_angles chart) = List.length rows /\
      List.length (chart_radii chart) = List.length rows /\
      (1 <= List.length rows)%nat /\
      List.length (chart_frames chart) = (List.length rows + 60)%nat.
Proof.
  intros F A p fs out chart Hc.
  destruct (chart_wellformed p fs Hc) as (Hl & Ha & Hr & HN & Hf).
  assert (Hdf : exists df, read_csv fs csv_path = Ok df /\
                  chart_years chart = map (@Year F) (dropna_msl df) /\
                  chart_sea_levels chart = map (@Mean_Sea_Level_m F) (dropna_msl df)).
  { destruct p; cbn [create_chart] in Hc.
    - destruct (create_chart_A_inv _ Hc) as (df & Hread & Hy & Hs & _).
      exists df. auto.
    - destruct (create_chart_B_inv _ Hc) as (df & Hread & Hy & Hs & _).
      exists df. auto. }
  destruct Hdf as (df & Hread & Hy & Hs).
  exists df. split; [exact Hread|]. cbv zeta.
  assert (Hn : List.length (chart_years chart)
               = List.length (filter (fun r => negb (isnan (Mean_Sea_Level_m r))) df)).
  { rewrite Hy, length_map. reflexivity. }
  split; [rewrite Hy, Hs; apply dropna_msl_filter|].
  split; [rewrite Hs; apply dropna_msl_present|].
  split; [exact Hn|]. split; [congruence|]. split; [congruence|].
  split; [congruence|].
  unfold len_years in HN. split; [lia|].
  rewrite Hf. unfold frames, total_frames, len_years. rewrite length_range. lia.
Qed.

Lemma chart_holds_rows_with_level_witness :
  exists out chart,
    create_chart MinMax disk_1954 = (out, Ok (Some chart)) /\
    List.length (chart_radii chart) = 3%nat /\
    List.length (chart_frames chart) = 63%nat.
Proof.
  eexists. eexists. split; [vm_compute; reflexivity|].
  destruct (@chart_holds_rows_with_level float Binary64 MinMax disk_1954 _ _ eq_refl)
    as (df & Hread & _ & _ & _ & _ & _ & Hr & _ & Hf).
  inversion Hread; subst df. split; [exact Hr | exact Hf].
Defined.

(** X4. When the file exists but no row has a mean sea level (or it has no
    row at all), neither script draws or prints anything: the decade-offset
    script raises [IndexError] at [years[-1]], the min-max script
    [ValueError] at [sea_levels.min()]. *)
Theorem chart_of_no_rows_raises :
  forall (F : Type) (A : Arith F) (fs : FileSystem F) (df : DataFrame F),
    read_csv fs csv_path = Ok df ->
    dropna_msl df = [] ->
    animated_sea_level.create_animated_polar_chart fs = ([], Raise IndexError) /\
    polarCoordVisualization.create_animated_polar_chart fs = ([], Raise ValueError) /\
    snd (animated_sea_level.main fs) = Raise IndexError /\
    snd (polarCoordVisualization.main fs) = Raise ValueError.
Proof.
  intros F A fs df Hread Hempty.
  assert (HA : animated_sea_level.create_animated_polar_chart fs = ([], Raise IndexError)).
  { unfold animated_sea_level.create_animated_polar_chart,
      animated_sea_level.load_sea_level_data.
    rewrite Hread, Hempty. reflexivity. }
  assert (HB : polarCoordVisualization.create_animated_polar_chart fs
               = ([], Raise ValueError)).
  { unfold polarCoordVisualization.create_animated_polar_chart,
      polarCoordVisualization.load_sea_level_data.
    rewrite Hread, Hempty. reflexivity. }
  repeat split; try assumption.
  - unfold animated_sea_level.main. rewrite HA. reflexivity.
  - unfold polarCoordVisualization.main. rewrite HB. reflexivity.
Qed.

Lemma chart_of_no_rows_raises_witness :
  animated_sea_level.create_animated_polar_chart blank_disk = ([], Raise IndexError) /\
  polarCoordVisualization.create_animated_polar_chart blank_disk = ([], Raise ValueError).
Proof.
  destruct (@chart_of_no_rows_raises float Binary64 blank_disk blank_rows eq_refl eq_refl)
    as (HA & HB & _).
  split; assumption.
Defined.

Lemma in_somes_map {A B : Type} (f : A -> option B) (l : list A) (b : B) :
  In b (somes (map f l)) <-> exists a, In a l /\ f a = Some b.
Proof.
  induction l as [|h t IH]; simpl.
  - split; [intros [] | intros (a & [] & _)].
  - destruct (f h) as [b'|] eqn:E; simpl; rewrite IH; split.
    + intros [<- | (a & Ha & Hf)]; [exists h; auto | exists a; auto].
    + intros (a & [<- | Ha] & Hf); [left; congruence | right; exists a; auto].
    + intros (a & Ha & Hf). exists a; auto.
    + intros (a & [<- | Ha] & Hf); [congruence | exists a; auto].
Qed.

Lemma in_decade_grid {F : Type} (max_radius r : Z) (lbl : grid_label F) :
  In (r, lbl) (animated_sea_level.decade_grid max_radius) <->
  1 <= r <= 8 /\ r <= max_radius /\ lbl = DecadeLabel (1940 + 10 * r).
Proof.
  unfold animated_sea_level.decade_grid. rewrite in_somes_map. split.
  - intros (d & Hd & E). apply in_range in Hd. cbv zeta in E.
    destruct (Z.leb_spec (d + 1) max_radius); [|discriminate].
    assert (Er : d + 1 = r) by congruence.
    assert (El : @DecadeLabel F (1950 + d * 10) = lbl) by congruence.
    subst r lbl. repeat split; try lia. f_equal. lia.
  - intros (H1 & H2 & ->). exists (r - 1). split; [apply in_range; lia|].
    cbv zeta. replace (r - 1 + 1) with r by lia.
    destruct (Z.leb_spec r max_radius); [|lia].
    do 3 f_equal. lia.
Qed.

Lemma within_limit_check_spec (levels decades : list Z) :
  within_limit_check levels decades = true ->
  forall k d dl, In k levels -> In d decades -> In dl decades -> d <= dl ->
    PrimFloat.leb (animated_sea_level.radius_of (1950 + 10 * d) (millimetres k))
                  (of_int (dl + 3)) = true.
Proof.
  unfold within_limit_check. intros Hchk k d dl Hk Hd Hdl Hle.
  rewrite forallb_forall in Hchk. specialize (Hchk k Hk). cbv zeta in Hchk.
  rewrite forallb_forall in Hchk. specialize (Hchk d Hd).
  rewrite forallb_forall in Hchk. specialize (Hchk dl Hdl).
  destruct (Z.ltb_spec dl d); [lia|]. exact Hchk.
Qed.

Lemma within_limit_published :
  within_limit_check (count_up (Z.to_nat 1751) 0) (range 8) = true.
Proof. vm_compute. reflexivity. Qed.

(** X5. In the decade-offset chart the radial limit is the decade index of
    the last row plus 3, and the dashed circles drawn are those of radius
    1 to 8 (1950s to 2020s) that do not exceed it, the circle of radius r
    labelled with the decade 1940 + 10·r: the 2020s circle is drawn exactly
    when the last row's year is at least 2000.  A point whose decade is not
    after the last row's and whose level is at most 1.75 m lies within the
    radial limit: in exact arithmetic for every such level, and in binary64
    for the years 1950 to 2029 and every level of whole millimetres from 0
    to 1.75 m. *)
Theorem decade_circles_and_limit :
  (forall (F : Type) (A : Arith F) (fs : FileSystem F) out chart,
      animated_sea_level.create_animated_polar_chart fs = (out, Ok (Some chart)) ->
      exists last_year,
        getitem (chart_years chart) (-1) = Ok last_year /\
        chart_ylim chart = last_year / 10 - 192 /\
        (forall r lbl,
            In (r, lbl) (chart_rgrids chart) <->
            1 <= r <= 8 /\ r <= chart_ylim chart /\ lbl = DecadeLabel (1940 + 10 * r)) /\
        (In (8, DecadeLabel 2020) (chart_rgrids chart) <-> 2000 <= last_year))
  /\
  (forall (fs : FileSystem xreal) out chart last_year (i : nat) (y : Z) (L : R),
      animated_sea_level.create_animated_polar_chart fs = (out, Ok (Some chart)) ->
      getitem (chart_years chart) (-1) = Ok last_year ->
      nth_error (chart_years chart) i = Some y ->
      nth_error (chart_sea_levels chart) i = Some (Some L) ->
      y / 10 <= last_year / 10 ->
      (L <= 1.75)%R ->
      exists r : R,
        nth_error (chart_radii chart) i = Some (Some r) /\
        (r <= IZR (chart_ylim chart))%R)
  /\
  (forall (fs : FileSystem float) out chart last_year (i : nat) (y k : Z),
      animated_sea_level.create_animated_polar_chart fs = (out, Ok (Some chart)) ->
      getitem (chart_years chart) (-1) = Ok last_year ->
      nth_error (chart_years chart) i = Some y ->
      nth_error (chart_sea_levels chart) i = Some (millimetres k) ->
      1950 <= y <= 2029 -> 1950 <= last_year <= 2029 ->
      y / 10 <= last_year / 10 ->
      0 <= k <= 1750 ->
      exists r : float,
        nth_error (chart_radii chart) i = Some r /\
        PrimFloat.leb r (of_int (chart_ylim chart)) = true).
Proof.
  split; [|split].
  - intros F A fs out chart Hc.
    destruct (create_chart_A_shape _ Hc)
      as (df & yl & y0 & lo & hi & _ & Hyl & _ & _ & _ & -> & _).
    exists yl. cbn [chart_years chart_ylim chart_rgrids].
    split; [exact Hyl|]. split; [lia|]. split.
    + intros r lbl. apply in_decade_grid.
    + rewrite in_decade_grid. split.
      * intros (_ & H8 & _).
        assert (H200 : 200 <= yl / 10) by lia.
        destruct (Z.lt_ge_cases yl 2000) as [Hlt|]; [|assumption].
        assert (yl / 10 < 200) by (apply Z.div_lt_upper_bound; lia). lia.
      * intro H. assert (200 <= yl / 10) by (apply Z.div_le_lower_bound; lia).
        repeat split; try lia.
  - intros fs out chart yl i y L Hc Hyl Hy HL Hdec HL175.
    destruct (create_chart_A_shape _ Hc)
      as (df & yl' & y0 & lo & hi & _ & Hyl' & _ & _ & _ & -> & _).
    cbn [chart_years chart_sea_levels chart_radii chart_ylim] in *.
    rewrite Hyl in Hyl'. inversion Hyl'; subst yl'.
    unfold animated_sea_level.radii_of.
    rewrite (nth_error_map_combine _ _ _ _ Hy HL). cbn [fst snd].
    rewrite radius_of_exact.
    eexists. split; [reflexivity|].
    rewrite !plus_IZR, !minus_IZR.
    assert (Hle : (IZR (y / 10) <= IZR (yl / 10))%R) by (apply IZR_le; exact Hdec).
    lra.
  - intros fs out chart yl i y k Hc Hyl Hy HL Hyr Hylr Hdec Hk.
    destruct (create_chart_A_shape _ Hc)
      as (df & yl' & y0 & lo & hi & _ & Hyl' & _ & _ & _ & -> & _).
    cbn [chart_years chart_sea_levels chart_radii chart_ylim] in *.
    rewrite Hyl in Hyl'. inversion Hyl'; subst yl'.
    unfold animated_sea_level.radii_of.
    rewrite (nth_error_map_combine _ _ _ _ Hy HL). cbn [fst snd].
    eexists. split; [reflexivity|].
    rewrite (radius_of_decade y (millimetres k)).
    replace (yl / 10 - 195 + 3) with (yl / 10 - 195 + 3) by lia.
    apply (within_limit_check_spec _ _ within_limit_published).
    + apply in_count_up_from_0. lia.
    + apply in_range. apply decade_index_bounds. exact Hyr.
    + apply in_range. apply decade_index_bounds. exact Hylr.
    + lia.
Qed.

Lemma decade_circles_and_limit_witness :
  exists out chart,
    animated_sea_level.create_animated_polar_chart disk_1954 = (out, Ok (Some chart)) /\
    chart_ylim chart = 3 /\
    map fst (chart_rgrids chart) = [1; 2; 3] /\
    ~ In (8, DecadeLabel 2020) (chart_rgrids chart) /\
    exists r, nth_error (chart_radii chart) 1 = Some r /\
              PrimFloat.leb r (of_int 3) = true.
Proof.
  eexists. eexists. split; [vm_compute; reflexivity|].
  destruct decade_circles_and_limit as (Hgrid & _ & Hfloat).
  destruct (Hgrid float Binary64 disk_1954 _ _ eq_refl) as (yl & Hyl & Hlim & _ & H8).
  vm_compute in Hyl. inversion Hyl; subst yl.
  split; [exact Hlim|]. split; [vm_compute; reflexivity|].
  split; [intro Hin; apply H8 in Hin; lia|].
  assert (Hy : 1950 <= 1955 <= 2029) by lia.
  assert (Hl : 1950 <= 1956 <= 2029) by lia.
  assert (Hd : 1955 / 10 <= 1956 / 10) by (vm_compute; discriminate).
  assert (Hk : 0 <= 1330 <= 1750) by lia.
  exact (Hfloat disk_1954 _ _ 1956 1%nat 1955 1330 eq_refl eq_refl eq_refl eq_refl
           Hy Hl Hd Hk).
Defined.

(** ** The level ticks of the min-max chart *)





(** In binary64 the radius of a tick's level need not be the tick itself:
    with the minimum 1.28 m and the maximum 1.51 m the level of tick 2 has a
    radius just below 2. *)
Example level_tick_rounding_float :
  PrimFloat.ltb
    (polarCoordVisualization.radius_of (millimetres 1280) (millimetres 1510)
       (add (millimetres 1280)
            (mul (div (of_int (2 - 1)) (of_int 4))
                 (sub (millimetres 1510) (millimetres 1280)))))
    (of_int 2)
  = true.
Proof. vm_compute. reflexivity. Qed.

Lemma length_somes {A : Type} (l : list (option A)) :
  (List.length (somes l) <= List.length l)%nat.
Proof.
  induction l as [|[a|] t IH]; simpl; lia.
Qed.

Lemma nth_error_range (n : Z) (i : nat) :
  (i < Z.to_nat n)%nat -> nth_error (range n) i = Some (Z.of_nat i).
Proof.
  intro Hi. unfold range. rewrite nth_error_map.
  rewrite nth_error_seq. destruct (Nat.ltb_spec i (Z.to_nat n)); [reflexivity | lia].
Qed.

(** The state a frame f >= 1 leaves on a chart. *)
Lemma animate_chart_revealing {F : Type} `{Arith F} (p : Policy) (fs : FileSystem F)
      out chart (prev : Artists F) (f : Z) (st : Artists F) :
  create_chart p fs = (out, Ok (Some chart)) ->
  1 <= f ->
  animate_chart p chart prev f = Ok st ->
  let years := chart_years chart in
  let N := len_years years in
  let c := Z.min f (N - 1) in
  let k := Z.to_nat (c + 1) in
  0 <= c < N /\
  exists colors,
    mapM (match p with
          | DecadeOffset => animated_sea_level.colour years
          | MinMax => polarCoordVisualization.colour years
          end) (range (c + 1)) = Ok colors /\
    st = {| line := (firstn k (chart_angles chart), firstn k (chart_radii chart));
            points_offsets := combine (firstn k (chart_angles chart))
                                      (firstn k (chart_radii chart));
            points_array := colors;
            start_point := ([nth 0 (chart_angles chart) nan],
                            [nth 0 (chart_radii chart) nan]);
            current_point := ([nth (Z.to_nat c) (chart_angles chart) nan],
                              [nth (Z.to_nat c) (chart_radii chart) nan]);
            year_texts :=
              somes (map (fun i =>
                            if (i =? 0) || (i =? c)
                               || (nth (Z.to_nat i) years 0 mod 5 =? 0)
                            then Some (mkText (nth (Z.to_nat i) (chart_angles chart) nan)
                                         (add (nth (Z.to_nat i) (chart_radii chart) nan)
                                              (dec 15 100))
                                         (nth (Z.to_nat i) years 0))
                            else None)
                         (range (c + 1)));
            info_text :=
              InfoCurrent (nth (Z.to_nat c) years 0)
                (nth (Z.to_nat c) years 0 / 10 * 10)
                (nth (Z.to_nat c) years 0 mod 10)
                (nth (Z.to_nat c) (chart_sea_levels chart) nan)
                (if match p with DecadeOffset => false | MinMax => true end
                 then Some (nth (Z.to_nat c) (chart_radii chart) nan) else None)
                (c + 1) N
                (mul (div (of_int (c + 1)) (of_int N)) (of_int 100)) |}.
Proof.
  intros Hc Hf Hrun years N c k.
  destruct (chart_wellformed p fs Hc) as (Hl & Ha & Hr & HN & _).
  fold years in Hl, Ha, Hr, HN. fold N in HN.
  split; [unfold c; lia|].
  rewrite animate_chart_eq in Hrun. fold years in Hrun.
  destruct (@animate_revealing F _ years (chart_sea_levels chart)
              (chart_angles chart) (chart_radii chart) _
              (match p with DecadeOffset => false | MinMax => true end)
              Hl Ha Hr HN (colour_total p years) prev f Hf)
    as (colors & Ecol & Erun).
  exists colors. split; [exact Ecol|].
  rewrite Erun in Hrun. inversion Hrun. reflexivity.
Qed.

(** X7. On every frame f >= 1 of either animation, with c = min(f, N − 1):
    the line, the scatter offsets and the scatter's colour array all hold
    c + 1 entries (so colours and markers always match in number); the
    start marker is the first data point and the current marker the last
    point of the line; and each of the at most c + 1 labels carries the year
    and the angle of a revealed point, at that point's radius plus 0.15. *)
Theorem frame_shapes :
  forall (F : Type) (A : Arith F) (p : Policy) (fs : FileSystem F) out chart
         (prev : Artists F) (f : Z) (st : Artists F),
    create_chart p fs = (out, Ok (Some chart)) ->
    1 <= f ->
    animate_chart p chart prev f = Ok st ->
    let N := len_years (chart_years chart) in
    let k := Z.to_nat (Z.min f (N - 1) + 1) in
    (1 <= k <= Z.to_nat N)%nat /\
    List.length (fst (line st)) = k /\
    List.length (snd (line st)) = k /\
    List.length (points_offsets st) = k /\
    List.length (points_array st) = k /\
    (exists a0 r0, nth_error (chart_angles chart) 0 = Some a0 /\
                   nth_error (chart_radii chart) 0 = Some r0 /\
                   start_point st = ([a0], [r0])) /\
    (exists ac rc, nth_error (fst (line st)) (k - 1) = Some ac /\
                   nth_error (snd (line st)) (k - 1) = Some rc /\
                   current_point st = ([ac], [rc])) /\
    (List.length (year_texts st) <= k)%nat /\
    (forall t, In t (year_texts st) ->
               exists (i : nat) (r : F),
                 (i < k)%nat /\
                 nth_error (chart_years chart) i = Some (text_year t) /\
                 nth_error (chart_angles chart) i = Some (text_angle t) /\
                 nth_error (chart_radii chart) i = Some r /\
                 text_radius t = add r (dec 15 100)).
Proof.
  intros F A p fs out chart prev f st Hc Hf Hrun N k.
  destruct (chart_wellformed p fs Hc) as (Hl & Ha & Hr & HN & _).
  destruct (animate_chart_revealing p fs prev Hc Hf Hrun)
    as (Hcb & colors & Ecol & ->).
  fold N in Hcb, Ecol, HN |- *. fold k.
  set (c := Z.min f (N - 1)) in *.
  assert (Hk : (1 <= k <= Z.to_nat N)%nat) by (unfold k; lia).
  assert (HlenN : Z.to_nat N = List.length (chart_years chart))
    by (unfold N, len_years; lia).
  cbn [line points_offsets points_array start_point current_point year_texts fst snd].
  split; [exact Hk|].
  split; [rewrite length_firstn; lia|].
  split; [rewrite length_firstn; lia|].
  split; [rewrite length_combine, !length_firstn; lia|].
  split; [apply mapM_length in Ecol; rewrite Ecol, length_range; reflexivity|].
  split.
  { exists (nth 0 (chart_angles chart) nan), (nth 0 (chart_radii chart) nan).
    split; [apply nth_error_nth'; lia|]. split; [apply nth_error_nth'; lia|].
    reflexivity. }
  split.
  { exists (nth (Z.to_nat c) (chart_angles chart) nan),
           (nth (Z.to_nat c) (chart_radii chart) nan).
    replace (k - 1)%nat with (Z.to_nat c) by (unfold k; lia).
    split; [rewrite nth_error_firstn;
            destruct (Nat.ltb_spec (Z.to_nat c) k); [apply nth_error_nth'|]; lia|].
    split; [rewrite nth_error_firstn;
            destruct (Nat.ltb_spec (Z.to_nat c) k); [apply nth_error_nth'|]; lia|].
    reflexivity. }
  split.
  { eapply Nat.le_trans; [apply length_somes|].
    rewrite length_map, length_range. reflexivity. }
  intros t Ht. apply in_somes_map in Ht. destruct Ht as (i & Hi & Et).
  apply in_range in Hi.
  destruct ((i =? 0) || (i =? c) || (nth (Z.to_nat i) (chart_years chart) 0 mod 5 =? 0));
    [|discriminate].
  injection Et as <-. cbn [text_year text_angle text_radius].
  exists (Z.to_nat i), (nth (Z.to_nat i) (chart_radii chart) nan).
  split; [unfold k; lia|].
  repeat split; try reflexivity; apply nth_error_nth'; lia.
Qed.

Lemma frame_shapes_witness :
  exists out chart st,
    create_chart DecadeOffset disk_1954 = (out, Ok (Some chart)) /\
    animate_chart DecadeOffset chart initial_artists 1 = Ok st /\
    List.length (points_offsets st) = 2%nat /\
    List.length (points_array st) = 2%nat.
Proof.
  eexists. eexists. eexists.
  split; [vm_compute; reflexivity|]. split; [vm_compute; reflexivity|].
  assert (H1 : 1 <= 1) by lia.
  destruct (@frame_shapes float Binary64 DecadeOffset disk_1954 _ _ initial_artists 1 _
              eq_refl H1 eq_refl) as (_ & _ & _ & Ho & Ha & _).
  split; [exact Ho | exact Ha].
Defined.

(** X8. The information box of a frame f >= 1, in exact arithmetic: it names
    the year of the current point c = min(f, N − 1), that year's decade and
    position in the decade (0 to 9), and c + 1 of N data points; the progress
    is 100·(c + 1)/N, positive, at most 100, and exactly 100 from frame
    N − 1 on; the radius is shown by the min-max script only. *)
Theorem info_box_progress :
  forall (p : Policy) (fs : FileSystem xreal) out chart
         (prev : Artists xreal) (f : Z) (st : Artists xreal),
    create_chart p fs = (out, Ok (Some chart)) ->
    1 <= f ->
    animate_chart p chart prev f = Ok st ->
    let N := len_years (chart_years chart) in
    let c := Z.min f (N - 1) in
    exists year level radius progress,
      info_text st
      = InfoCurrent year (year / 10 * 10) (year mod 10) level radius (c + 1) N
          (Some progress) /\
      nth_error (chart_years chart) (Z.to_nat c) = Some year /\
      nth_error (chart_sea_levels chart) (Z.to_nat c) = Some level /\
      year / 10 * 10 <= year < year / 10 * 10 + 10 /\
      0 <= year mod 10 <= 9 /\
      1 <= c + 1 <= N /\
      progress = (100 * IZR (c + 1) / IZR N)%R /\
      (0 < progress <= 100)%R /\
      (N - 1 <= f -> progress = 100%R) /\
      (radius = None <-> p = DecadeOffset).
Proof.
  intros p fs out chart prev f st Hc Hf Hrun N c.
  destruct (chart_wellformed p fs Hc) as (Hl & Ha & Hr & HN & _).
  destruct (animate_chart_revealing p fs prev Hc Hf Hrun)
    as (Hcb & colors & Ecol & ->).
  fold N in Hcb, HN |- *. fold c in Hcb |- *.
  cbn [info_text].
  assert (HNpos : (0 < IZR N)%R) by (apply IZR_lt; lia).
  assert (Hc1 : (0 < IZR (c + 1))%R) by (apply IZR_lt; lia).
  assert (HcN : (IZR (c + 1) <= IZR N)%R) by (apply IZR_le; lia).
  set (year := nth (Z.to_nat c) (chart_years chart) 0).
  exists year, (nth (Z.to_nat c) (chart_sea_levels chart) nan),
    (if match p with DecadeOffset => false | MinMax => true end
     then Some (nth (Z.to_nat c) (chart_radii chart) nan) else None),
    (100 * IZR (c + 1) / IZR N)%R.
  split.
  { f_equal. cbn. rewrite xdiv_some by lra. cbn. f_equal. field. lra. }
  unfold N, len_years in Hcb.
  split; [apply nth_error_nth'; lia|].
  split; [apply nth_error_nth'; lia|].
  pose proof (Z.mod_pos_bound year 10 ltac:(lia)) as Hm.
  pose proof (Z.div_mod year 10 ltac:(lia)) as Hd.
  split; [lia|]. split; [lia|]. split; [unfold N, len_years; lia|].
  split; [reflexivity|].
  assert (Hq : (IZR (c + 1) / IZR N <= 1)%R).
  { apply (Rmult_le_reg_r (IZR N)); [exact HNpos|].
    replace (IZR (c + 1) / IZR N * IZR N)%R with (IZR (c + 1)) by (field; lra). lra. }
  assert (Hq0 : (0 < IZR (c + 1) / IZR N)%R).
  { apply Rmult_lt_0_compat; [exact Hc1 | apply Rinv_0_lt_compat; exact HNpos]. }
  split.
  { replace (100 * IZR (c + 1) / IZR N)%R with (100 * (IZR (c + 1) / IZR N))%R
      by (field; lra). split; lra. }
  split.
  { intro Hhold. replace (c + 1) with N by (unfold c; fold N; lia). field. lra. }
  destruct p; split; intro E; try reflexivity; discriminate.
Qed.

Lemma info_box_progress_witness :
  exists out chart st year level radius,
    create_chart DecadeOffset sample_disk = (out, Ok (Some chart)) /\
    animate_chart DecadeOffset chart initial_artists 5 = Ok st /\
    info_text st
    = InfoCurrent year (year / 10 * 10) (year mod 10) level radius 2 2 (Some 100%R).
Proof.
  eexists. eexists. eexists.
  assert (H5 : 1 <= 5) by lia.
  destruct (@info_box_progress DecadeOffset sample_disk _ _ initial_artists 5 _
              eq_refl H5 eq_refl)
    as (year & level & radius & progress & Hinfo & _ & _ & _ & _ & _ & _ & _ & Hhold & _).
  exists year, level, radius.
  split; [reflexivity|]. split; [reflexivity|].
  refine (eq_trans Hinfo _). rewrite (Hhold ltac:(cbn; lia)). reflexivity.
Defined.

Lemma getitem_of_nth_error {A : Type} (l : list A) (i : nat) (a : A) :
  nth_error l i = Some a -> getitem l (Z.of_nat i) = Ok a.
Proof.
  intro E.
  assert (Hi : (i < List.length l)%nat) by (apply nth_error_Some; congruence).
  rewrite (@getitem_nth _ a l (Z.of_nat i)) by lia.
  rewrite Nat2Z.id. f_equal. apply nth_error_nth. exact E.
Qed.

(** The colour the frame stores for the point of index [i]. *)
Lemma frame_colour {F : Type} `{Arith F} (p : Policy) (fs : FileSystem F)
      out chart (prev : Artists F) (f : Z) (st : Artists F) (i : nat) :
  create_chart p fs = (out, Ok (Some chart)) ->
  1 <= f ->
  animate_chart p chart prev f = Ok st ->
  Z.of_nat i <= Z.min f (len_years (chart_years chart) - 1) ->
  exists col,
    match p with
    | DecadeOffset => animated_sea_level.colour (chart_years chart)
    | MinMax => polarCoordVisualization.colour (chart_years chart)
    end (Z.of_nat i) = Ok col /\
    nth_error (points_array st) i = Some col.
Proof.
  intros Hc Hf Hrun Hi.
  destruct (animate_chart_revealing p fs prev Hc Hf Hrun)
    as (Hcb & colors & Ecol & ->).
  cbn [points_array].
  assert (Hr : nth_error (range (Z.min f (len_years (chart_years chart) - 1) + 1)) i
               = Some (Z.of_nat i)) by (apply nth_error_range; lia).
  destruct (mapM_nth _ _ _ Ecol Hr) as (col & Hcol & Hn).
  exists col. split; assumption.
Qed.

(** X9. The colour value of each revealed point on a frame f >= 1.  Under
    the decade-offset policy it is the point's decade index over 7, which in
    exact arithmetic lies in [0, 1] exactly for the years 1950 to 2029.
    Under the min-max policy it is (year − first year)/(last year − first
    year), "first" and "last" by position in the file: in exact arithmetic 0
    for the first year, 1 for the last and within [0, 1] for the years
    between them; when first and last year coincide (as with a single row)
    it is undefined, and in binary64 it is NaN for the points of that year. *)
Theorem point_colours :
  (forall (fs : FileSystem xreal) out chart prev (f : Z) st (i : nat) (y : Z),
      create_chart DecadeOffset fs = (out, Ok (Some chart)) ->
      1 <= f ->
      animate_chart DecadeOffset chart prev f = Ok st ->
      Z.of_nat i <= Z.min f (len_years (chart_years chart) - 1) ->
      nth_error (chart_years chart) i = Some y ->
      exists col : R,
        nth_error (points_array st) i = Some (Some col) /\
        col = (IZR (y / 10 - 195) / 7)%R /\
        ((0 <= col <= 1)%R <-> 1950 <= y <= 2029))
  /\
  (forall (fs : FileSystem xreal) out chart prev (f : Z) st (i : nat) (y y0 yl : Z),
      create_chart MinMax fs = (out, Ok (Some chart)) ->
      1 <= f ->
      animate_chart MinMax chart prev f = Ok st ->
      Z.of_nat i <= Z.min f (len_years (chart_years chart) - 1) ->
      nth_error (chart_years chart) i = Some y ->
      getitem (chart_years chart) 0 = Ok y0 ->
      getitem (chart_years chart) (-1) = Ok yl ->
      (y0 = yl -> nth_error (points_array st) i = Some None) /\
      (y0 <> yl ->
       exists col : R,
         nth_error (points_array st) i = Some (Some col) /\
         col = (IZR (y - y0) / IZR (yl - y0))%R /\
         (y = y0 -> col = 0%R) /\
         (y = yl -> col = 1%R) /\
         (y0 <= y <= yl -> (0 <= col <= 1)%R)))
  /\
  (forall (fs : FileSystem float) out chart prev (f : Z) st (i : nat) (y0 : Z),
      create_chart MinMax fs = (out, Ok (Some chart)) ->
      1 <= f ->
      animate_chart MinMax chart prev f = Ok st ->
      Z.of_nat i <= Z.min f (len_years (chart_years chart) - 1) ->
      nth_error (chart_years chart) i = Some y0 ->
      getitem (chart_years chart) 0 = Ok y0 ->
      getitem (chart_years chart) (-1) = Ok y0 ->
      exists col : float,
        nth_error (points_array st) i = Some col /\ PrimFloat.is_nan col = true).
Proof.
  split; [|split].
  - intros fs out chart prev f st i y Hc Hf Hrun Hi Hy.
    destruct (frame_colour DecadeOffset fs prev i Hc Hf Hrun Hi) as (col & Hcol & Hn).
    unfold animated_sea_level.colour in Hcol.
    rewrite (getitem_of_nth_error _ _ Hy) in Hcol. cbn [bind] in Hcol.
    cbn [div of_int Exact] in Hcol. rewrite xdiv_some in Hcol by lra.
    injection Hcol as <-.
    eexists. split; [exact Hn|]. split; [reflexivity|].
    split.
    + intros [H0 H1].
      assert (H0' : (0 <= IZR (y / 10 - 195))%R) by lra.
      assert (H1' : (IZR (y / 10 - 195) <= 7)%R) by lra.
      apply le_IZR in H0'. apply le_IZR in H1'.
      pose proof (Z.div_mod y 10 ltac:(lia)) as Hd.
      pose proof (Z.mod_pos_bound y 10 ltac:(lia)) as Hm. lia.
    + intros [H0 H1].
      assert (195 <= y / 10) by (apply Z.div_le_lower_bound; lia).
      assert (y / 10 < 203) by (apply Z.div_lt_upper_bound; lia).
      assert (H0' : (0 <= IZR (y / 10 - 195))%R) by (apply IZR_le; lia).
      assert (H1' : (IZR (y / 10 - 195) <= 7)%R) by (apply IZR_le; lia).
      lra.
  - intros fs out chart prev f st i y y0 yl Hc Hf Hrun Hi Hy Hy0 Hyl.
    destruct (frame_colour MinMax fs prev i Hc Hf Hrun Hi) as (col & Hcol & Hn).
    unfold polarCoordVisualization.colour in Hcol.
    rewrite (getitem_of_nth_error _ _ Hy), Hy0, Hyl in Hcol. cbn [bind] in Hcol.
    cbn [div of_int Exact] in Hcol.
    split.
    + intros ->. replace (yl - yl) with 0 in Hcol by lia.
      rewrite xdiv_zero in Hcol. injection Hcol as <-. exact Hn.
    + intro Hne.
      assert (Hd : IZR (yl - y0) <> 0%R).
      { intro E. apply eq_IZR in E. lia. }
      rewrite xdiv_some in Hcol by exact Hd. injection Hcol as <-.
      eexists. split; [exact Hn|]. split; [reflexivity|].
      split; [intros ->; replace (y0 - y0) with 0 by lia; field; exact Hd|].
      split; [intros ->; field; exact Hd|].
      intros [Hlo Hhi].
      assert (Hpos : (0 < IZR (yl - y0))%R) by (apply IZR_lt; lia).
      assert (Hn0 : (0 <= IZR (y - y0))%R) by (apply IZR_le; lia).
      assert (Hn1 : (IZR (y - y0) <= IZR (yl - y0))%R) by (apply IZR_le; lia).
      split.
      * apply Rmult_le_pos; [exact Hn0 | left; apply Rinv_0_lt_compat; exact Hpos].
      * apply (Rmult_le_reg_r (IZR (yl - y0))); [exact Hpos|].
        replace (IZR (y - y0) / IZR (yl - y0) * IZR (yl - y0))%R
          with (IZR (y - y0)) by (field; lra).
        lra.
  - intros fs out chart prev f st i y0 Hc Hf Hrun Hi Hy Hy0 Hyl.
    destruct (frame_colour MinMax fs prev i Hc Hf Hrun Hi) as (col & Hcol & Hn).
    unfold polarCoordVisualization.colour in Hcol.
    rewrite (getitem_of_nth_error _ _ Hy), Hy0, Hyl in Hcol. cbn [bind] in Hcol.
    replace (y0 - y0) with 0 in Hcol by lia.
    injection Hcol as <-.
    eexists. split; [exact Hn|]. vm_compute. reflexivity.
Qed.

(** A single year on disk, in binary64. *)
Lemma point_colours_witness :
  exists out chart st col,
    create_chart MinMax one_row_disk = (out, Ok (Some chart)) /\
    animate_chart MinMax chart initial_artists 3 = Ok st /\
    nth_error (points_array st) 0 = Some col /\
    PrimFloat.is_nan col = true.
Proof.
  destruct point_colours as (_ & _ & HF).
  eexists. eexists. eexists.
  assert (H3 : 1 <= 3) by lia.
  assert (Hi : Z.of_nat 0 <= Z.min 3 (len_years [1999] - 1)) by (vm_compute; discriminate).
  destruct (HF one_row_disk _ _ initial_artists 3 _ 0%nat 1999
              eq_refl H3 eq_refl Hi eq_refl eq_refl eq_refl) as (col & Hn & Hnan).
  exists col. split; [reflexivity|]. split; [reflexivity|]. split; assumption.
Defined.

(** ** The crawler's files *)

Lemma insert_by_year_sorted {F : Type} (r : SeaLevelRecord F) (l : DataFrame F) :
  StronglySorted (fun a b => Year a <= Year b) l ->
  StronglySorted (fun a b => Year a <= Year b) (insert_by_year r l).
Proof.
  induction 1 as [|h t Hs IH Hh]; simpl.
  - constructor; constructor.
  - destruct (Z.ltb_spec (Year r) (Year h)).
    + constructor; [constructor; assumption|]. constructor; [lia|].
      eapply Forall_impl; [|exact Hh]. simpl; intros; lia.
    + constructor; [exact IH|]. apply Forall_forall. intros x Hx.
      apply in_insert_by_year in Hx. destruct Hx as [->|Hx]; [lia|].
      rewrite Forall_forall in Hh. apply Hh; exact Hx.
Qed.

Lemma insert_by_year_perm {F : Type} (r : SeaLevelRecord F) (l : DataFrame F) :
  Permutation (insert_by_year r l) (r :: l).
Proof.
  induction l as [|h t IH]; simpl; [reflexivity|].
  destruct (Year r <? Year h); [reflexivity|].
  rewrite IH. apply perm_swap.
Qed.

Lemma sort_values_Year_sorted {F : Type} (df : DataFrame F) :
  StronglySorted (fun a b => Year a <= Year b) (sort_values_Year df).
Proof.
  unfold sort_values_Year.
  assert (G : forall acc,
             StronglySorted (fun a b : SeaLevelRecord F => Year a <= Year b) acc ->
             StronglySorted (fun a b => Year a <= Year b)
               (fold_left (fun a r => insert_by_year r a) df acc)).
  { induction df as [|r t IH]; intros acc Hacc; simpl; [exact Hacc|].
    apply IH. apply insert_by_year_sorted. exact Hacc. }
  apply G. constructor.
Qed.

Lemma sort_values_Year_perm {F : Type} (df : DataFrame F) :
  Permutation (sort_values_Year df) df.
Proof.
  unfold sort_values_Year.
  assert (G : forall acc,
             Permutation (fold_left (fun a r => insert_by_year r a) df acc) (df ++ acc)).
  { induction df as [|r t IH]; intro acc; simpl; [reflexivity|].
    rewrite IH. rewrite insert_by_year_perm. symmetry. apply Permutation_middle. }
  rewrite G, app_nil_r. reflexivity.
Qed.

Lemma fold_min_spec (l : list Z) (d : Z) :
  fold_left Z.min l d <= d /\
  (forall x, In x l -> fold_left Z.min l d <= x) /\
  (fold_left Z.min l d = d \/ In (fold_left Z.min l d) l).
Proof.
  revert d. induction l as [|h t IH]; intro d; simpl.
  - split; [lia|]. split; [intros x []|left; reflexivity].
  - destruct (IH (Z.min d h)) as (H1 & H2 & H3).
    split; [lia|]. split.
    + intros x [<-|Hx]; [lia | apply H2; exact Hx].
    + destruct H3 as [H3|H3]; [|right; right; exact H3].
      destruct (Z.min_spec d h) as [[_ E]|[_ E]].
      * left; congruence.
      * right; left; congruence.
Qed.

Lemma fold_max_spec (l : list Z) (d : Z) :
  d <= fold_left Z.max l d /\
  (forall x, In x l -> x <= fold_left Z.max l d) /\
  (fold_left Z.max l d = d \/ In (fold_left Z.max l d) l).
Proof.
  revert d. induction l as [|h t IH]; intro d; simpl.
  - split; [lia|]. split; [intros x []|left; reflexivity].
  - destruct (IH (Z.max d h)) as (H1 & H2 & H3).
    split; [lia|]. split.
    + intros x [<-|Hx]; [lia | apply H2; exact Hx].
    + destruct H3 as [H3|H3]; [|right; right; exact H3].
      destruct (Z.max_spec d h) as [[_ E]|[_ E]].
      * right; left; congruence.
      * left; congruence.
Qed.

Lemma getitem_minus_one {A : Type} (d : A) (l : list A) :
  l <> [] -> getitem l (-1) = Ok (List.last l d).
Proof.
  intro Hne. unfold getitem. replace (-1 <? 0) with true by reflexivity.
  assert (Hn : (1 <= List.length l)%nat) by (destruct l; [congruence | simpl; lia]).
  destruct (Z.ltb_spec (-1 + Z.of_nat (List.length l)) 0); [lia|].
  destruct (Z.leb_spec (Z.of_nat (List.length l)) (-1 + Z.of_nat (List.length l))); [lia|].
  cbn [orb].
  replace (Z.to_nat (-1 + Z.of_nat (List.length l))) with (List.length l - 1)%nat by lia.
  destruct (exists_last Hne) as (l' & a & ->).
  rewrite last_last, length_app. simpl.
  rewrite nth_error_app2 by lia.
  replace (List.length l' + 1 - 1 - List.length l')%nat with 0%nat by lia.
  reflexivity.
Qed.

Lemma sorted_last {F : Type} (l : DataFrame F) (a : SeaLevelRecord F) :
  StronglySorted (fun a b => Year a <= Year b) (l ++ [a]) ->
  forall r, In r (l ++ [a]) -> Year r <= Year a.
Proof.
  induction l as [|h t IH]; simpl; intros Hs r Hr.
  - destruct Hr as [<-|[]]. lia.
  - inversion Hs as [|? ? Hs' Hall]; subst.
    destruct Hr as [<-|Hr].
    + rewrite Forall_forall in Hall. apply Hall.
      apply in_or_app. right. left. reflexivity.
    + apply IH; assumption.
Qed.

Lemma sorted_bounds {F : Type} (df : DataFrame F) (first last : SeaLevelRecord F) :
  StronglySorted (fun a b => Year a <= Year b) df ->
  getitem df 0 = Ok first -> getitem df (-1) = Ok last ->
  forall r, In r df -> Year first <= Year r <= Year last.
Proof.
  intros Hs H0 Hl r Hr.
  assert (Hne : df <> []) by (intros ->; destruct Hr).
  rewrite (@getitem_minus_one _ first df Hne) in Hl. injection Hl as <-.
  split.
  - destruct df as [|h t]; [destruct Hr|].
    rewrite getitem_first in H0. injection H0 as ->.
    inversion Hs as [|? ? _ Hall]; subst. destruct Hr as [<-|Hr]; [lia|].
    rewrite Forall_forall in Hall. apply Hall; exact Hr.
  - destruct (exists_last Hne) as (l' & a & ->).
    rewrite last_last. apply (sorted_last _ _ Hs). exact Hr.
Qed.

(** X10. A successful crawl writes the full CSV sorted by year: its rows
    are the parsed records of the station, each exactly once, in ascending
    year order, whatever the order of the payload.  The metadata's
    total_records is the number of year records of the station (at least
    one), and its year_range is the year of the first and of the last row
    of the file, which bound every year in it. *)
Theorem crawl_full_csv_sorted :
  forall (F : Type) (A : Arith F)
         (py_int : pyval F -> result Z) (py_float : pyval F -> result F)
         (resp : Response F) (df : DataFrame F) (files : CrawlFiles F),
    crawl_hko_sea_level_data py_int py_float resp = (Some df, Some files) ->
    exists stations qub processed_data first last,
      resp = Payload stations /\
      find_qub stations = Some qub /\
      mapM (process_record py_int py_float) (yearData qub) = Ok processed_data /\
      csv_file files = df /\
      Permutation df (map frame_row processed_data) /\
      StronglySorted (fun a b => Year a <= Year b) df /\
      metadata_total_records files = Z.of_nat (List.length (yearData qub)) /\
      1 <= metadata_total_records files /\
      getitem df 0 = Ok first /\
      getitem df (-1) = Ok last /\
      metadata_year_range files = (Year first, Year last) /\
      forall r, In r df -> Year first <= Year r <= Year last.
Proof.
  intros F A py_int py_float resp df files Hrun.
  unfold crawl_hko_sea_level_data in Hrun.
  destruct (crawl_body py_int py_float resp) as [[[df' files']|]|e] eqn:E;
    try discriminate.
  assert (df' = df) by congruence. assert (files' = files) by congruence.
  subst df' files'. clear Hrun.
  unfold crawl_body in E.
  destruct resp as [| | |stations]; try discriminate.
  destruct (find_qub stations) as [qub|] eqn:Eq; [|discriminate].
  inv_bind_as E processed Eproc. inv_bind_as E df' Edf.
  unfold sorted_frame in Edf.
  destruct processed as [|d0 ds] eqn:Ep; [discriminate|].
  rewrite <- Ep in *.
  assert (Hdf : df' = sort_values_Year (map frame_row processed)) by congruence.
  assert (Hd : df = df') by congruence.
  assert (Hfiles : files = mkCrawlFiles df' (simple_df df')
                     (Z.of_nat (List.length df'))
                     (year_min df' match df' with r :: _ => Year r | [] => 0 end,
                      year_max df' match df' with r :: _ => Year r | [] => 0 end))
    by congruence.
  clear E Edf. subst df'.
  pose proof (sort_values_Year_perm (map frame_row processed)) as Hperm.
  pose proof (sort_values_Year_sorted (map frame_row processed)) as Hsort.
  rewrite <- Hd in *.
  assert (Hlen : List.length df = List.length (yearData qub)).
  { rewrite (Permutation_length Hperm), length_map. apply (mapM_length _ _ Eproc). }
  assert (Hne : df <> []).
  { intros ->. apply Permutation_nil in Hperm. rewrite Ep in Hperm. discriminate. }
  destruct df as [|first t] eqn:Edf; [congruence|]. rewrite <- Edf in *.
  exists stations, qub, processed, first, (List.last df first).
  assert (H0 : getitem df 0 = Ok first) by (rewrite Edf; apply getitem_first).
  assert (Hl : getitem df (-1) = Ok (List.last df first))
    by (apply getitem_minus_one; exact Hne).
  pose proof (sorted_bounds Hsort H0 Hl) as Hb.
  split; [reflexivity|]. split; [exact Eq|]. split; [exact Eproc|].
  rewrite Hfiles. cbn [csv_file metadata_total_records metadata_year_range].
  split; [reflexivity|]. split; [exact Hperm|]. split; [exact Hsort|].
  split; [rewrite Hlen; reflexivity|].
  split; [rewrite Edf; cbn [List.length]; lia|].
  split; [exact H0|]. split; [exact Hl|].
  split; [|exact Hb].
  unfold year_min, year_max.
  destruct (fold_min_spec (map (@Year F) df) (Year first)) as (Hm1 & Hm2 & Hm3).
  destruct (fold_max_spec (map (@Year F) df) (Year first)) as (HM1 & HM2 & HM3).
  assert (Hlast_in : In (List.last df first) df).
  { destruct (exists_last Hne) as (l' & a & E). rewrite E, last_last.
    apply in_or_app. right. left. reflexivity. }
  f_equal.
  - destruct Hm3 as [Hm3|Hm3]; [exact Hm3|].
    apply in_map_iff in Hm3. destruct Hm3 as (r & Er & Hr).
    specialize (Hb r Hr). lia.
  - assert (Hle : Year (List.last df first) <= fold_left Z.max (map (@Year F) df) (Year first)).
    { apply HM2. apply in_map. exact Hlast_in. }
    destruct HM3 as [HM3|HM3].
    + specialize (Hb _ Hlast_in). lia.
    + apply in_map_iff in HM3. destruct HM3 as (r & Er & Hr).
      specialize (Hb r Hr). lia.
Qed.

(** The payload lists 2024, 1957, 1990; the file lists 1957, 1990, 2024. *)
Lemma crawl_full_csv_sorted_witness :
  exists df files,
    crawl_hko_sea_level_data (int_builtin float_trunc) float_builtin sample_payload
    = (Some df, Some files) /\
    map (@Year float) (csv_file files) = [1957; 1990; 2024] /\
    metadata_total_records files = 3 /\
    metadata_year_range files = (1957, 2024).
Proof.
  eexists. eexists. split; [vm_compute; reflexivity|].
  destruct (@crawl_full_csv_sorted float Binary64 (int_builtin float_trunc) float_builtin
              sample_payload _ _ eq_refl)
    as (stations & qub & processed & first & last & _ & _ & _ & _ & _ & _ & _ & _
        & H0 & Hl & Hrange & _).
  split; [reflexivity|]. split; [reflexivity|].
  refine (eq_trans Hrange _).
  vm_compute in H0. vm_compute in Hl.
  injection H0 as <-. injection Hl as <-. reflexivity.
Defined.

Lemma create_chart_total {F : Type} `{Arith F} (p : Policy) (fs : FileSystem F)
      (df : DataFrame F) :
  read_csv fs csv_path = Ok df ->
  dropna_msl df <> [] ->
  exists out chart,
    create_chart p fs = (out, Ok (Some chart)) /\
    chart_years chart = map (@Year F) (dropna_msl df) /\
    chart_sea_levels chart = map (@Mean_Sea_Level_m F) (dropna_msl df).
Proof.
  intros Hread Hne.
  destruct (dropna_msl df) as [|r t] eqn:Ed; [congruence|].
  destruct (getitem_last (Year r) (map (@Year F) t)) as (yl & Hyl).
  destruct p; cbn [create_chart].
  - unfold animated_sea_level.create_animated_polar_chart,
      animated_sea_level.load_sea_level_data.
    rewrite Hread, Ed. cbn [map]. rewrite Hyl, getitem_first. cbn [bind np_min np_max].
    eexists. eexists. split; [reflexivity|]. split; reflexivity.
  - destruct (@mapM_total _ _
                (fun yl : Z * F =>
                   min_level <- np_min (map (@Mean_Sea_Level_m F) (r :: t)) ;;
                   max_level <- np_max (map (@Mean_Sea_Level_m F) (r :: t)) ;;
                   Ok (polarCoordVisualization.radius_of min_level max_level (snd yl)))
                (combine (map (@Year F) (r :: t)) (map (@Mean_Sea_Level_m F) (r :: t))))
      as (radii & Hr).
    { intros a _. cbn [map np_min np_max bind]. eexists. reflexivity. }
    unfold polarCoordVisualization.create_animated_polar_chart,
      polarCoordVisualization.load_sea_level_data.
    rewrite Hread, Ed. unfold polarCoordVisualization.radii_of. rewrite Hr.
    cbn [map]. rewrite Hyl, getitem_first. cbn [bind np_min np_max].
    eexists. eexists. split; [reflexivity|]. split; reflexivity.
Qed.

Lemma simple_df_dropna {F : Type} `{Arith F} (df : DataFrame F) :
  simple_df df = map (fun r => (Year r, Mean_Sea_Level_m r)) (dropna_msl df).
Proof.
  unfold simple_df, dropna_msl.
  induction df as [|r t IH]; simpl; [reflexivity|].
  destruct (isnan (Mean_Sea_Level_m r)); simpl; rewrite IH; reflexivity.
Qed.

Lemma combine_maps {A B C : Type} (f : A -> B) (g : A -> C) (l : list A) :
  combine (map f l) (map g l) = map (fun a => (f a, g a)) l.
Proof. induction l as [|a t IH]; simpl; [reflexivity | rewrite IH; reflexivity]. Qed.

Lemma sorted_filter_years {F : Type} (f : SeaLevelRecord F -> bool) (df : DataFrame F) :
  StronglySorted (fun a b => Year a <= Year b) df ->
  StronglySorted Z.le (map (@Year F) (filter f df)).
Proof.
  induction 1 as [|h t Hs IH Hh]; simpl; [constructor|].
  destruct (f h); [|exact IH]. simpl. constructor; [exact IH|].
  apply Forall_forall. intros y Hy. apply in_map_iff in Hy.
  destruct Hy as (r & <- & Hr). apply filter_In in Hr.
  rewrite Forall_forall in Hh. apply Hh. tauto.
Qed.

(** X11. The crawler feeds the animators.  When the data file the
    animators read holds the frame a successful crawl wrote, either
    animator plots exactly the rows of the crawler's simplified file (year
    and mean sea level, in that order), in ascending year order; and it
    raises without drawing exactly when the simplified file is empty. *)
Theorem crawler_csv_feeds_animators :
  forall (F : Type) (A : Arith F) (p : Policy)
         (py_int : pyval F -> result Z) (py_float : pyval F -> result F)
         (resp : Response F) (df : DataFrame F) (files : CrawlFiles F)
         (fs : FileSystem F),
    crawl_hko_sea_level_data py_int py_float resp = (Some df, Some files) ->
    fs csv_path = Some (Ok (csv_file files)) ->
    (simple_csv_file files = [] ->
     create_chart p fs
     = ([], Raise match p with DecadeOffset => IndexError | MinMax => ValueError end)) /\
    (simple_csv_file files <> [] ->
     exists out chart,
       create_chart p fs = (out, Ok (Some chart)) /\
       combine (chart_years chart) (chart_sea_levels chart) = simple_csv_file files /\
       StronglySorted Z.le (chart_years chart)).
Proof.
  intros F A p py_int py_float resp df files fs Hrun Hfs.
  destruct (crawl_inv _ _ _ Hrun) as (Hcsv & Hsimple & stations & qub & processed
                                      & _ & _ & _ & Hdf).
  assert (Hread : read_csv fs csv_path = Ok df).
  { unfold read_csv. rewrite Hfs, Hcsv. reflexivity. }
  rewrite Hsimple, simple_df_dropna.
  split.
  - intro Hempty. apply map_eq_nil in Hempty.
    destruct p; cbn [create_chart].
    + unfold animated_sea_level.create_animated_polar_chart,
        animated_sea_level.load_sea_level_data.
      rewrite Hread, Hempty. reflexivity.
    + unfold polarCoordVisualization.create_animated_polar_chart,
        polarCoordVisualization.load_sea_level_data.
      rewrite Hread, Hempty. reflexivity.
  - intro Hne.
    assert (Hne' : dropna_msl df <> []) by (intro E; rewrite E in Hne; apply Hne; reflexivity).
    destruct (create_chart_total p fs Hread Hne') as (out & chart & Hc & Hy & Hs).
    exists out, chart. split; [exact Hc|]. rewrite Hy, Hs. split.
    + apply combine_maps.
    + unfold dropna_msl. apply sorted_filter_years.
      rewrite Hdf. apply sort_values_Year_sorted.
Qed.

(** The crawl of [sample_payload], read back by the min-max animator: the
    year 1957 has no level and is not plotted. *)
Lemma crawler_csv_feeds_animators_witness :
  exists out chart,
    create_chart MinMax crawled_disk = (out, Ok (Some chart)) /\
    chart_years chart = [1990; 2024].
Proof.
  destruct (@crawler_csv_feeds_animators float Binary64 MinMax
              (int_builtin float_trunc) float_builtin sample_payload _ _ crawled_disk
              eq_refl eq_refl) as (_ & Hplot).
  eexists. eexists. split; [vm_compute; reflexivity|]. reflexivity.
Defined.

(** ** Year records of the wrong length *)

Lemma mapM_raise {A B : Type} (f : A -> result B) (l : list A) (a : A) (e : exn) :
  In a l -> f a = Raise e -> exists e', mapM f l = Raise e'.
Proof.
  intros Ha Hf.
  destruct (mapM f l) as [l'|e'] eqn:E; [|exists e'; reflexivity].
  destruct (mapM_In _ _ a E Ha) as (b & Hb & _). congruence.
Qed.

Lemma crawl_raise {F : Type} `{Arith F}
      (py_int : pyval F -> result Z) (py_float : pyval F -> result F)
      (resp : Response F) (e : exn) :
  crawl_body py_int py_float resp = Raise e ->
  crawl_hko_sea_level_data py_int py_float resp = (None, None).
Proof. intro E. unfold crawl_hko_sea_level_data. rewrite E. reflexivity. Qed.

(** X12. A year record is read by position: with fewer than six entries
    the loop raises [IndexError] before any conversion is attempted,
    whatever the entries are, and entries after the sixth are ignored.  One
    short record anywhere in the station's list fails the whole crawl: no
    frame is returned and no file is written. *)
Theorem short_record_fails_crawl :
  forall (F : Type) (A : Arith F)
         (py_int : pyval F -> result Z) (py_float : pyval F -> result F),
    (forall year_record : list (pyval F),
        (List.length year_record < 6)%nat ->
        process_record py_int py_float year_record = Raise IndexError) /\
    (forall (a b c d e f : pyval F) (rest : list (pyval F)),
        process_record py_int py_float (a :: b :: c :: d :: e :: f :: rest)
        = process_record py_int py_float [a; b; c; d; e; f]) /\
    (forall (stations : list (Station F)) (qub : Station F)
            (year_record : list (pyval F)),
        find_qub stations = Some qub ->
        In year_record (yearData qub) ->
        (List.length year_record < 6)%nat ->
        crawl_hko_sea_level_data py_int py_float (Payload stations) = (None, None)).
Proof.
  intros F A py_int py_float.
  assert (Hshort : forall year_record : list (pyval F),
             (List.length year_record < 6)%nat ->
             process_record py_int py_float year_record = Raise IndexError).
  { intros rec Hlen.
    destruct rec as [|a [|b [|c [|d [|e [|f rest]]]]]];
      try reflexivity.
    cbn [List.length] in Hlen. lia. }
  split; [exact Hshort|]. split.
  - intros a b c d e f rest. unfold process_record.
    repeat match goal with
           | |- context [getitem ?l ?i] =>
               rewrite (@getitem_nth _ (@PNone F) l i) by (cbn [List.length]; lia)
           end.
    reflexivity.
  - intros stations qub rec Hq Hin Hlen.
    destruct (mapM_raise (process_record py_int py_float) _ _ Hin (Hshort rec Hlen))
      as (e' & He').
    apply crawl_raise with (e := e').
    unfold crawl_body. rewrite Hq, He'. reflexivity.
Qed.

Lemma short_record_fails_crawl_witness :
  crawl_hko_sea_level_data (int_builtin float_trunc) float_builtin
    (Payload [short_qub]) = (None, None).
Proof.
  destruct (@short_record_fails_crawl float Binary64 (int_builtin float_trunc)
              float_builtin) as (_ & _ & Hcrawl).
  apply (Hcrawl [short_qub] short_qub
           [PStr "2023"; PStr "1.400"; PStr "1.740"; PStr "1.510"; PStr "0.870"]).
  - reflexivity.
  - right. left. reflexivity.
  - cbn [List.length]. lia.
Defined.

(** ** When the crawl succeeds *)

Lemma find_first {A : Type} (f : A -> bool) (l : list A) (a : A) :
  find f l = Some a <->
  exists pre post, l = pre ++ a :: post /\ f a = true /\
                   forall x, In x pre -> f x = false.
Proof.
  induction l as [|h t IH]; simpl.
  - split; [discriminate|]. intros (pre & post & E & _). destruct pre; discriminate.
  - destruct (f h) eqn:Eh.
    + split.
      * intro E. assert (h = a) by congruence. subst h.
        exists [], t. split; [reflexivity|]. split; [exact Eh|]. intros x [].
      * intros (pre & post & E & Ha & Hpre). destruct pre as [|x pre].
        -- simpl in E. congruence.
        -- simpl in E. assert (x = h) by congruence. subst x.
           rewrite (Hpre h (or_introl eq_refl)) in Eh. discriminate.
    + rewrite IH. split.
      * intros (pre & post & E & Ha & Hpre). exists (h :: pre), post.
        split; [simpl; congruence|]. split; [exact Ha|].
        intros x [<-|Hx]; [exact Eh | apply Hpre; exact Hx].
      * intros (pre & post & E & Ha & Hpre). destruct pre as [|x pre].
        -- simpl in E. assert (h = a) by congruence. subst h. congruence.
        -- exists pre, post. simpl in E. split; [congruence|]. split; [exact Ha|].
           intros y Hy. apply Hpre. right. exact Hy.
Qed.

(** X13. The crawl returns a frame and writes its files exactly when the
    response is a payload that lists a station with code QUB whose first
    such entry has at least one year record and every year record of it
    can be parsed; the station used is the first with that code.  In every
    other case (network failure, malformed JSON, unexpected shape, no QUB
    station, no year record, a record that fails) nothing is returned and
    nothing is written: the exception never leaves the function. *)
Theorem crawl_succeeds_iff :
  forall (F : Type) (A : Arith F)
         (py_int : pyval F -> result Z) (py_float : pyval F -> result F)
         (resp : Response F),
    ((exists df files,
         crawl_hko_sea_level_data py_int py_float resp = (Some df, Some files))
     <->
     (exists pre qub post,
         resp = Payload (pre ++ qub :: post) /\
         code qub = Some "QUB"%string /\
         (forall st, In st pre -> code st <> Some "QUB"%string) /\
         yearData qub <> [] /\
         forall year_record, In year_record (yearData qub) ->
                             exists d, process_record py_int py_float year_record = Ok d))
    /\
    ((forall df files,
         crawl_hko_sea_level_data py_int py_float resp <> (Some df, Some files)) ->
     crawl_hko_sea_level_data py_int py_float resp = (None, None)).
Proof.
  intros F A py_int py_float resp.
  assert (Hcode : forall st : Station F,
             match code st with Some c => String.eqb c "QUB" | None => false end = true
             <-> code st = Some "QUB"%string).
  { intro st. destruct (code st) as [c|]; [|split; discriminate].
    destruct (String.eqb_spec c "QUB") as [->|Hn]; split; try reflexivity;
      try discriminate; congruence. }
  split.
  - split.
    + intros (df & files & Hrun).
      destruct (crawl_inv _ _ _ Hrun) as (_ & _ & stations & qub & processed
                                          & -> & Hq & Hproc & Hdf).
      unfold find_qub in Hq. apply find_first in Hq.
      destruct Hq as (pre & post & -> & Hqub & Hpre).
      exists pre, qub, post. split; [reflexivity|].
      split; [apply Hcode; exact Hqub|]. split.
      { intros st Hst Hc. apply Hcode in Hc. rewrite (Hpre st Hst) in Hc. discriminate. }
      split.
      { intro Hnil. rewrite Hnil in Hproc. simpl in Hproc.
        assert (processed = []) by congruence. subst processed.
        unfold crawl_hko_sea_level_data, crawl_body in Hrun.
        replace (find_qub (pre ++ qub :: post)) with (Some qub) in Hrun.
        - rewrite Hnil in Hrun. simpl in Hrun. discriminate.
        - symmetry. unfold find_qub. apply find_first.
          exists pre, post. auto. }
      intros rec Hrec. destruct (mapM_In _ _ rec Hproc Hrec) as (d & Hd & _).
      exists d. exact Hd.
    + intros (pre & qub & post & -> & Hqub & Hpre & Hne & Hall).
      assert (Hq : find_qub (pre ++ qub :: post) = Some qub).
      { unfold find_qub. apply find_first. exists pre, post.
        split; [reflexivity|]. split; [apply Hcode; exact Hqub|].
        intros st Hst. specialize (Hpre st Hst).
        destruct (match code st with Some c => String.eqb c "QUB" | None => false end)
          eqn:E; [|reflexivity].
        apply Hcode in E. contradiction. }
      destruct (mapM_total (process_record py_int py_float) _ Hall) as (processed & Hproc).
      assert (Hp : processed <> []).
      { intros ->. apply mapM_length in Hproc. destruct (yearData qub); [congruence|].
        discriminate. }
      unfold crawl_hko_sea_level_data, crawl_body. rewrite Hq, Hproc. cbn [bind].
      destruct processed as [|d0 ds]; [congruence|]. cbn [sorted_frame bind].
      eexists. eexists. reflexivity.
  - intro Hnot. unfold crawl_hko_sea_level_data in *.
    destruct (crawl_body py_int py_float resp) as [[[df files]|]|e]; try reflexivity.
    exfalso. apply (Hnot df files). reflexivity.
Qed.

Lemma crawl_succeeds_iff_witness :
  (exists df files,
      crawl_hko_sea_level_data (int_builtin float_trunc) float_builtin sample_payload
      = (Some df, Some files)) /\
  crawl_hko_sea_level_data (int_builtin float_trunc) float_builtin
    (Payload [mkStation (Some "TBT"%string) []]) = (None, None).
Proof.
  split.
  - apply (proj1 (@crawl_succeeds_iff float Binary64 (int_builtin float_trunc)
                    float_builtin sample_payload)).
    exists [mkStation (Some "TBT"%string) []], sample_qub, [].
    split; [reflexivity|]. split; [reflexivity|]. split.
    + intros st [<-|[]]. discriminate.
    + split; [discriminate|].
      intros rec [<-|[<-|[<-|[]]]]; eexists; vm_compute; reflexivity.
  - apply (proj2 (@crawl_succeeds_iff float Binary64 (int_builtin float_trunc)
                    float_builtin (Payload [mkStation (Some "TBT"%string) []]))).
    intros df files. discriminate.
Defined.

(** ** The analyzer: which file is loaded *)

Lemma strip_prefix_spec (p s rest : string) :
  strip_prefix p s = Some rest <-> s = (p ++ rest)%string.
Proof.
  revert s. induction p as [|a p IH]; intro s; simpl.
  - split; congruence.
  - destruct s as [|b s]; [split; discriminate|].
    destruct (Ascii.eqb_spec a b) as [->|Hn].
    + rewrite IH. split; congruence.
    + split; [discriminate | congruence].
Qed.

Lemma ends_with_spec (suffix s : string) :
  ends_with suffix s = true <-> exists mid, s = (mid ++ suffix)%string.
Proof.
  induction s as [|c s IH]; cbn [ends_with].
  - rewrite orb_false_r. split.
    + intro E. apply String.eqb_eq in E. exists EmptyString. exact E.
    + intros (mid & E). apply String.eqb_eq.
      destruct mid; simpl in E; [exact E | discriminate].
  - rewrite orb_true_iff, IH. split.
    + intros [E|(mid & ->)].
      * apply String.eqb_eq in E. exists EmptyString. exact E.
      * exists (String c mid). reflexivity.
    + intros (mid & E). destruct mid as [|c' mid]; simpl in E.
      * left. apply String.eqb_eq. exact E.
      * right. exists mid. congruence.
Qed.

Lemma glob_data_csv_spec (name : string) :
  glob_data_csv name = true <->
  exists mid, name = ("HKO_QUB_SeaLevel_Data_" ++ mid ++ ".csv")%string.
Proof.
  unfold glob_data_csv.
  destruct (strip_prefix "HKO_QUB_SeaLevel_Data_" name) as [rest|] eqn:E.
  - apply strip_prefix_spec in E. rewrite ends_with_spec. split.
    + intros (mid & ->). exists mid. exact E.
    + intros (mid & E'). exists mid. rewrite E in E'.
      simpl in E'. congruence.
  - split; [discriminate|]. intros (mid & E').
    assert (strip_prefix "HKO_QUB_SeaLevel_Data_" name = Some (mid ++ ".csv")%string)
      by (apply strip_prefix_spec; exact E').
    congruence.
Qed.

Lemma max_by_key_spec {A : Type} (key : A -> Z) (t : list A) (h : A) :
  In (max_by_key key h t) (h :: t) /\
  forall a, In a (h :: t) -> key a <= key (max_by_key key h t).
Proof.
  unfold max_by_key. revert h. induction t as [|x t IH]; intro h; simpl.
  - split; [left; reflexivity|]. intros a [<-|[]]. lia.
  - destruct (Z.ltb_spec (key h) (key x)) as [Hlt|Hge].
    + destruct (IH x) as (Hin & Hmax). split.
      * right. exact Hin.
      * intros a [<-|Ha]; [|apply Hmax; exact Ha].
        specialize (Hmax x (or_introl eq_refl)). lia.
    + destruct (IH h) as (Hin & Hmax). split.
      * destruct Hin as [Hin|Hin]; [left; exact Hin | right; right; exact Hin].
      * intros a [<-|[<-|Ha]].
        -- apply Hmax. left. reflexivity.
        -- specialize (Hmax h (or_introl eq_refl)). lia.
        -- apply Hmax. right. exact Ha.
Qed.

(** X14. The analyzer loads, among the files named
    HKO_QUB_SeaLevel_Data_*.csv, one of greatest [os.path.getctime], and
    returns its frame as read (rows without a level included).  It prints
    the "no data files" message and returns None exactly when no file has
    such a name.  Of the three files a crawl writes, whatever the
    timestamp, only the full CSV has such a name: the simplified CSV and
    the metadata file are never loaded. *)
Theorem load_latest_picks_newest :
  forall (F : Type) (A : Arith F) (dir : list (DirEntry F)),
    (seaLevelAnalysis.load_latest_data dir
     = ([Printed "No data files found. Please run crawl_hko_sea_level.py first"], Ok None)
     <->
     forall e mid, In e dir ->
       entry_name e <> ("HKO_QUB_SeaLevel_Data_" ++ mid ++ ".csv")%string) /\
    (snd (seaLevelAnalysis.load_latest_data dir) = Ok None ->
     forall e, In e dir -> glob_data_csv (entry_name e) = false) /\
    (forall df, snd (seaLevelAnalysis.load_latest_data dir) = Ok (Some df) ->
       exists e mid,
         In e dir /\
         entry_name e = ("HKO_QUB_SeaLevel_Data_" ++ mid ++ ".csv")%string /\
         entry_frame e = Ok df /\
         fst (seaLevelAnalysis.load_latest_data dir)
         = [Printed ("Loading data file: " ++ entry_name e)] /\
         forall e' mid', In e' dir ->
           entry_name e' = ("HKO_QUB_SeaLevel_Data_" ++ mid' ++ ".csv")%string ->
           entry_ctime e' <= entry_ctime e) /\
    (forall timestamp : string,
        glob_data_csv ("HKO_QUB_SeaLevel_Data_" ++ timestamp ++ ".csv") = true /\
        glob_data_csv ("HKO_QUB_MeanSeaLevel_Simple_" ++ timestamp ++ ".csv") = false /\
        glob_data_csv ("HKO_QUB_SeaLevel_Metadata_" ++ timestamp ++ ".json") = false).
Proof.
  intros F A dir.
  assert (Hfilter : forall e, In e (filter (fun e => glob_data_csv (entry_name e)) dir)
                              <-> In e dir /\ glob_data_csv (entry_name e) = true).
  { intro e. apply filter_In. }
  unfold seaLevelAnalysis.load_latest_data.
  destruct (filter (fun e => glob_data_csv (entry_name e)) dir) as [|h t] eqn:Ef.
  - assert (Hnone : forall e, In e dir -> glob_data_csv (entry_name e) = false).
    { intros e He. destruct (glob_data_csv (entry_name e)) eqn:Eg; [|reflexivity].
      destruct (proj2 (Hfilter e) (conj He Eg)). }
    split; [|split; [|split]].
    + split; [|reflexivity]. intros _ e mid He Hname.
      assert (Hg : glob_data_csv (entry_name e) = true)
        by (apply glob_data_csv_spec; exists mid; exact Hname).
      rewrite (Hnone e He) in Hg. discriminate.
    + intros _. exact Hnone.
    + intros df Hdf. discriminate.
    + intro ts. split; [apply glob_data_csv_spec; exists ts; reflexivity|].
      split; reflexivity.
  - destruct (max_by_key_spec (@entry_ctime F) t h) as (Hin & Hmax).
    set (latest := max_by_key (@entry_ctime F) h t) in *.
    assert (Hl : In latest dir /\ glob_data_csv (entry_name latest) = true)
      by (apply Hfilter; exact Hin).
    destruct Hl as (Hldir & Hlglob).
    split; [|split; [|split]].
    + split.
      * intro E. inversion E.
      * intro Hno. exfalso. apply glob_data_csv_spec in Hlglob.
        destruct Hlglob as (mid & Hname). exact (Hno latest mid Hldir Hname).
    + cbn [snd]. destruct (entry_frame latest); discriminate.
    + intros df Hdf. cbn [snd fst] in *.
      apply glob_data_csv_spec in Hlglob. destruct Hlglob as (mid & Hname).
      exists latest, mid. split; [exact Hldir|]. split; [exact Hname|].
      split; [destruct (entry_frame latest); congruence|].
      split; [reflexivity|].
      intros e' mid' He' Hname'. apply Hmax. apply Hfilter.
      split; [exact He'|]. apply glob_data_csv_spec. exists mid'. exact Hname'.
    + intro ts. split; [apply glob_data_csv_spec; exists ts; reflexivity|].
      split; reflexivity.
Qed.

(** A directory with two data files: the newer one is loaded. *)
Lemma load_latest_picks_newest_witness :
  seaLevelAnalysis.load_latest_data sample_dir
  = ([Printed "Loading data file: HKO_QUB_SeaLevel_Data_20250918_163225.csv"],
     Ok (Some flat_rows_float)).
Proof.
  destruct (@load_latest_picks_newest float Binary64 sample_dir) as (_ & _ & Hload & _).
  destruct (Hload flat_rows_float eq_refl) as (e & mid & _ & _ & _ & _ & _).
  reflexivity.
Defined.

(** ** The analyzer: the year-to-year bars *)

Lemma nth_error_zip {A B : Type} (l1 : list A) (l2 : list B) (k : nat) (a : A) (b : B) :
  nth_error l1 k = Some a -> nth_error l2 k = Some b ->
  nth_error (combine l1 l2) k = Some (a, b).
Proof.
  revert l2 k. induction l1 as [|x l1 IH]; intros l2 k H1 H2.
  - destruct k; discriminate.
  - destruct l2 as [|y l2]; [destruct k; discriminate|].
    destruct k as [|k]; simpl in *.
    + congruence.
    + apply IH; assumption.
Qed.

Lemma nth_error_changes {F : Type} `{Arith F} (s : list F) (k : nat) (a b : F) :
  nth_error s k = Some a -> nth_error s (S k) = Some b ->
  nth_error (map (fun ab : F * F => sub (snd ab) (fst ab)) (combine s (tl s))) k
  = Some (sub b a).
Proof.
  intros Ha Hb.
  assert (Hb' : nth_error (tl s) k = Some b) by (destruct s; [discriminate | exact Hb]).
  rewrite nth_error_map, (nth_error_zip _ _ _ Ha Hb'). reflexivity.
Qed.

Lemma year_to_year_changes_nth {F : Type} `{Arith F} (df : DataFrame F) (k : nat)
      (r0 r1 : SeaLevelRecord F) :
  nth_error df k = Some r0 -> nth_error df (S k) = Some r1 ->
  exists c,
    nth_error (seaLevelAnalysis.year_to_year_changes df) k
    = Some (Year r1, sub (Mean_Sea_Level_m r1) (Mean_Sea_Level_m r0), c) /\
    match k with
    | O => c = if ltb nan (of_int 0) then red else blue
    | S k' =>
        forall rp, nth_error df k' = Some rp ->
                   c = if ltb (sub (Mean_Sea_Level_m r0) (Mean_Sea_Level_m rp)) (of_int 0)
                       then red else blue
    end.
Proof.
  intros H0 H1.
  unfold seaLevelAnalysis.year_to_year_changes, seaLevelAnalysis.bar,
    seaLevelAnalysis.change_colours, seaLevelAnalysis.diff.
  destruct df as [|r rest]; [destruct k; discriminate|].
  cbn [map tl].
  set (levels := Mean_Sea_Level_m r :: map (@Mean_Sea_Level_m F) rest).
  assert (Hl0 : nth_error levels k = Some (Mean_Sea_Level_m r0)).
  { change levels with (map (@Mean_Sea_Level_m F) (r :: rest)).
    rewrite nth_error_map, H0. reflexivity. }
  assert (Hl1 : nth_error levels (S k) = Some (Mean_Sea_Level_m r1)).
  { change levels with (map (@Mean_Sea_Level_m F) (r :: rest)).
    rewrite nth_error_map, H1. reflexivity. }
  assert (Hy : nth_error (map (@Year F) rest) k = Some (Year r1)).
  { rewrite nth_error_map. simpl in H1. rewrite H1. reflexivity. }
  pose proof (nth_error_changes levels k Hl0 Hl1) as Hd.
  change (tl levels) with (map (@Mean_Sea_Level_m F) rest) in Hd.
  destruct k as [|k'].
  - eexists. split; [|reflexivity].
    apply nth_error_zip; [apply nth_error_zip; assumption | reflexivity].
  - destruct (nth_error (r :: rest) k') as [rp|] eqn:Hp0.
    2:{ apply nth_error_None in Hp0.
        assert (Hn : nth_error (r :: rest) (S k') <> None) by congruence.
        apply nth_error_Some in Hn. lia. }
    assert (Ep : nth_error levels k' = Some (Mean_Sea_Level_m rp)).
    { change levels with (map (@Mean_Sea_Level_m F) (r :: rest)).
      rewrite nth_error_map, Hp0. reflexivity. }
    assert (Hp := nth_error_changes levels k' Ep Hl0).
    change (tl levels) with (map (@Mean_Sea_Level_m F) rest) in Hp.
    exists (if ltb (sub (Mean_Sea_Level_m r0) (Mean_Sea_Level_m rp)) (of_int 0)
            then red else blue).
    split.
    + apply nth_error_zip; [apply nth_error_zip; eassumption|].
      cbn [nth_error]. rewrite nth_error_map, Hp. reflexivity.
    + intros rp' Hp'. assert (rp' = rp) by congruence. subst rp'. reflexivity.
Qed.

(** X15. The third panel draws one bar per year after the first, at that
    year and as high as the change from the year before; but the colour
    list has one entry more than there are bars and matplotlib pairs them
    from the start, so each bar carries the colour of the change one year
    earlier: the first bar is always blue, and in exact arithmetic the bar
    of a later year is red exactly when the level fell in the preceding
    year, whatever its own height. *)
Theorem change_bars_colour_lag :
  (forall (F : Type) (A : Arith F) (df : DataFrame F),
      List.length (seaLevelAnalysis.year_to_year_changes df)
      = (List.length df - 1)%nat /\
      forall (k : nat) (r0 r1 : SeaLevelRecord F),
        nth_error df k = Some r0 -> nth_error df (S k) = Some r1 ->
        exists c,
          nth_error (seaLevelAnalysis.year_to_year_changes df) k
          = Some (Year r1, sub (Mean_Sea_Level_m r1) (Mean_Sea_Level_m r0), c))
  /\
  (forall (df : DataFrame xreal) (bar : Z * xreal * bar_colour),
      nth_error (seaLevelAnalysis.year_to_year_changes df) 0 = Some bar ->
      snd bar = blue)
  /\
  (forall (df : DataFrame float) (bar : Z * float * bar_colour),
      nth_error (seaLevelAnalysis.year_to_year_changes df) 0 = Some bar ->
      snd bar = blue)
  /\
  (forall (df : DataFrame xreal) (k : nat) (rp r0 : SeaLevelRecord xreal)
          (lp l0 : R) (bar : Z * xreal * bar_colour),
      nth_error df k = Some rp ->
      nth_error df (S k) = Some r0 ->
      Mean_Sea_Level_m rp = Some lp ->
      Mean_Sea_Level_m r0 = Some l0 ->
      nth_error (seaLevelAnalysis.year_to_year_changes df) (S k) = Some bar ->
      (snd bar = red <-> (l0 < lp)%R)).
Proof.
  assert (Hlen : forall (F : Type) (A : Arith F) (df : DataFrame F),
             List.length (seaLevelAnalysis.year_to_year_changes df)
             = (List.length df - 1)%nat).
  { intros F A df.
    unfold seaLevelAnalysis.year_to_year_changes, seaLevelAnalysis.bar,
      seaLevelAnalysis.change_colours, seaLevelAnalysis.diff.
    destruct df as [|r rest]; [reflexivity|]. cbn [map tl].
    rewrite !length_combine, !length_map. cbn [List.length].
    rewrite !length_map, length_combine. cbn [List.length]. rewrite !length_map. lia. }
  assert (Hfirst : forall (F : Type) (A : Arith F) (df : DataFrame F)
                          (bar : Z * F * bar_colour),
             ltb nan (of_int 0) = false ->
             nth_error (seaLevelAnalysis.year_to_year_changes df) 0 = Some bar ->
             snd bar = blue).
  { intros F A df bar Hnan Hbar.
    destruct df as [|r0 [|r1 rest]]; try discriminate.
    destruct (@year_to_year_changes_nth F A (r0 :: r1 :: rest) 0 r0 r1 eq_refl eq_refl)
      as (c & Hc & Hcol).
    rewrite Hnan in Hcol. rewrite Hc in Hbar. inversion Hbar; subst. reflexivity. }
  split; [|split; [|split]].
  - intros F A df. split; [apply Hlen|].
    intros k r0 r1 H0 H1.
    destruct (year_to_year_changes_nth df k H0 H1) as (c & Hc & _).
    exists c. exact Hc.
  - intros df bar. apply Hfirst. reflexivity.
  - intros df bar. apply Hfirst. reflexivity.
  - intros df k rp r0 lp l0 bar Hp H0 Elp El0 Hbar.
    assert (Hlt : (S (S k) < List.length df)%nat).
    { assert (Hn : nth_error (seaLevelAnalysis.year_to_year_changes df) (S k) <> None)
        by congruence.
      apply nth_error_Some in Hn. rewrite Hlen in Hn. lia. }
    destruct (nth_error df (S (S k))) as [r1|] eqn:H1;
      [|apply nth_error_None in H1; lia].
    destruct (year_to_year_changes_nth df (S k) H0 H1) as (c & Hc & Hcol).
    specialize (Hcol rp Hp). rewrite Hc in Hbar. inversion Hbar; subst bar.
    cbn [snd]. rewrite Hcol, El0, Elp. cbn [sub ltb of_int Exact xlift2 xltb].
    destruct (Rlt_dec (l0 - lp) 0) as [Hd|Hd]; split; intro Hx;
      try reflexivity; try discriminate; try lra.
Qed.

(** 1.0, 1.2, 1.1: the drop of 2003 is drawn blue. *)
Lemma change_bars_colour_lag_witness :
  exists height,
    nth_error (seaLevelAnalysis.year_to_year_changes rise_then_drop) 1
    = Some (2003, height, blue).
Proof.
  destruct change_bars_colour_lag as (Hshape & _ & _ & Hlag).
  destruct (Hshape xreal Exact rise_then_drop) as (_ & Hbar).
  destruct (Hbar 1%nat _ _ eq_refl eq_refl) as (c & Hc).
  pose proof (Hlag rise_then_drop 0%nat _ _ 1.0%R 1.2%R _ eq_refl eq_refl eq_refl eq_refl Hc)
    as Hiff.
  cbn [snd] in Hiff.
  destruct c.
  - exfalso. assert (Hlt : (1.2 < 1.0)%R) by (apply Hiff; reflexivity). lra.
  - eexists. exact Hc.
Defined.

(** ** The analyzer: what the first figure needs *)

Lemma filter_head {A : Type} (f : A -> bool) (l : list A) (a : A) (t : list A) :
  filter f l = a :: t ->
  exists pre post, l = pre ++ a :: post /\ f a = true /\
                   forall x, In x pre -> f x = false.
Proof.
  induction l as [|h l IH]; simpl; [discriminate|].
  destruct (f h) eqn:Eh.
  - intro E. assert (h = a) by congruence. subst h.
    exists [], l. split; [reflexivity|]. split; [exact Eh|]. intros x [].
  - intro E. destruct (IH E) as (pre & post & -> & Ha & Hpre).
    exists (h :: pre), post. split; [reflexivity|]. split; [exact Ha|].
    intros x [<-|Hx]; [exact Eh | apply Hpre; exact Hx].
Qed.

Lemma level_in_Ok {F : Type} `{Arith F} (df : DataFrame F) (year : Z) (v : F) :
  seaLevelAnalysis.level_in df year = Ok v ->
  exists pre r post,
    df = pre ++ r :: post /\ Year r = year /\
    (forall x, In x pre -> Year x <> year) /\ v = Mean_Sea_Level_m r.
Proof.
  unfold seaLevelAnalysis.level_in. intro E.
  destruct (filter (fun r => Year r =? year) df) as [|r t] eqn:Ef; [discriminate|].
  cbn [map] in E. rewrite getitem_first in E.
  destruct (filter_head _ _ Ef) as (pre & post & Hdf & Hr & Hpre).
  exists pre, r, post. split; [exact Hdf|]. split; [apply Z.eqb_eq; exact Hr|].
  split; [|congruence].
  intros x Hx. specialize (Hpre x Hx). apply Z.eqb_neq. exact Hpre.
Qed.

Lemma level_in_present {F : Type} `{Arith F} (df : DataFrame F) (year : Z) :
  (exists r, In r df /\ Year r = year) ->
  exists v, seaLevelAnalysis.level_in df year = Ok v.
Proof.
  intros (r & Hr & Hy). unfold seaLevelAnalysis.level_in.
  destruct (filter (fun r => Year r =? year) df) as [|r' t] eqn:Ef.
  - assert (Hin : In r (filter (fun r => Year r =? year) df)).
    { apply filter_In. split; [exact Hr | apply Z.eqb_eq; exact Hy]. }
    rewrite Ef in Hin. destruct Hin.
  - cbn [map]. rewrite getitem_first. eexists. reflexivity.
Qed.

Lemma level_in_absent {F : Type} `{Arith F} (df : DataFrame F) (year : Z) :
  (forall r, In r df -> Year r <> year) ->
  seaLevelAnalysis.level_in df year = Raise IndexError.
Proof.
  intro Hno. unfold seaLevelAnalysis.level_in.
  destruct (filter (fun r => Year r =? year) df) as [|r' t] eqn:Ef; [reflexivity|].
  assert (Hin : In r' (filter (fun r => Year r =? year) df))
    by (rewrite Ef; left; reflexivity).
  apply filter_In in Hin. destruct Hin as (Hin & Hy). apply Z.eqb_eq in Hy.
  destruct (Hno r' Hin Hy).
Qed.

Lemma idx_extreme_spec {F : Type} `{Arith F} (better : F -> F -> bool) (s : list F) :
  forall (i : Z) (best : option (Z * F)),
    match seaLevelAnalysis.idx_extreme better s i best with
    | Some (j, v) =>
        best = Some (j, v) \/
        (i <= j < i + Z.of_nat (List.length s) /\
         nth_error s (Z.to_nat (j - i)) = Some v /\ isnan v = false)
    | None => best = None /\ Forall (fun x => isnan x = true) s
    end.
Proof.
  induction s as [|x t IH]; intros i best; cbn [seaLevelAnalysis.idx_extreme].
  - destruct best as [[j v]|]; [left; reflexivity | split; [reflexivity | constructor]].
  - specialize (IH (i + 1)).
    destruct (isnan x) eqn:Ex.
    + specialize (IH best).
      destruct (seaLevelAnalysis.idx_extreme better t (i + 1) best) as [[j v]|].
      * destruct IH as [IH|(Hj & Hn & Hv)]; [left; exact IH|]. right.
        cbn [List.length]. split; [lia|]. split; [|exact Hv].
        replace (Z.to_nat (j - i)) with (S (Z.to_nat (j - (i + 1)))) by lia.
        exact Hn.
      * destruct IH as (Hb & Hall). split; [exact Hb|]. constructor; assumption.
    + assert (Hhere : forall b,
                 match seaLevelAnalysis.idx_extreme better t (i + 1) (Some b) with
                 | Some (j, v) =>
                     Some b = Some (j, v) \/
                     (i + 1 <= j < i + 1 + Z.of_nat (List.length t) /\
                      nth_error t (Z.to_nat (j - (i + 1))) = Some v /\ isnan v = false)
                 | None => Some b = None /\ Forall (fun x => isnan x = true) t
                 end) by (intro b; apply IH).
      assert (Hstep : forall j v,
                 (i + 1 <= j < i + 1 + Z.of_nat (List.length t) /\
                  nth_error t (Z.to_nat (j - (i + 1))) = Some v /\ isnan v = false) ->
                 (i <= j < i + Z.of_nat (List.length (x :: t)) /\
                  nth_error (x :: t) (Z.to_nat (j - i)) = Some v /\ isnan v = false)).
      { intros j v (Hj & Hn & Hv). cbn [List.length]. split; [lia|]. split; [|exact Hv].
        replace (Z.to_nat (j - i)) with (S (Z.to_nat (j - (i + 1)))) by lia. exact Hn. }
      assert (Hnew : forall j v, Some (i, x) = Some (j, v) ->
                 (i <= j < i + Z.of_nat (List.length (x :: t)) /\
                  nth_error (x :: t) (Z.to_nat (j - i)) = Some v /\ isnan v = false)).
      { intros j v E. assert (j = i) by congruence. assert (v = x) by congruence.
        subst j v. cbn [List.length]. split; [lia|].
        replace (Z.to_nat (i - i)) with 0%nat by lia. split; [reflexivity | exact Ex]. }
      destruct best as [[jb b]|].
      * destruct (better x b).
        -- specialize (Hhere (i, x)).
           destruct (seaLevelAnalysis.idx_extreme better t (i + 1) (Some (i, x)))
             as [[j v]|]; [|destruct Hhere; discriminate].
           destruct Hhere as [E|Hr]; right; [apply Hnew; exact E | apply Hstep; exact Hr].
        -- specialize (Hhere (jb, b)).
           destruct (seaLevelAnalysis.idx_extreme better t (i + 1) (Some (jb, b)))
             as [[j v]|]; [|destruct Hhere; discriminate].
           destruct Hhere as [E|Hr]; [left; exact E | right; apply Hstep; exact Hr].
      * specialize (Hhere (i, x)).
        destruct (seaLevelAnalysis.idx_extreme better t (i + 1) (Some (i, x)))
          as [[j v]|]; [|destruct Hhere; discriminate].
        destruct Hhere as [E|Hr]; right; [apply Hnew; exact E | apply Hstep; exact Hr].
Qed.

(** The extreme lookups succeed exactly when some level is present. *)
Lemma year_of_extreme {F : Type} `{Arith F} (better : F -> F -> bool)
      (df : DataFrame F) :
  match seaLevelAnalysis.idx_extreme better (map (@Mean_Sea_Level_m F) df) 0 None with
  | Some (j, v) =>
      (exists y, getitem (map (@Year F) df) j = Ok y) /\
      exists r, In r df /\ isnan (Mean_Sea_Level_m r) = false
  | None => forall r, In r df -> isnan (Mean_Sea_Level_m r) = true
  end.
Proof.
  pose proof (idx_extreme_spec better (map (@Mean_Sea_Level_m F) df) 0 None) as Hs.
  destruct (seaLevelAnalysis.idx_extreme better (map (@Mean_Sea_Level_m F) df) 0 None)
    as [[j v]|].
  - destruct Hs as [Hs|(Hj & Hn & Hv)]; [discriminate|].
    rewrite length_map in Hj. split.
    + rewrite (@getitem_nth _ 0 (map (@Year F) df) j) by (rewrite length_map; lia).
      eexists. reflexivity.
    + rewrite nth_error_map in Hn.
      destruct (nth_error df (Z.to_nat (j - 0))) as [r|] eqn:Er; [|discriminate].
      exists r. split; [apply nth_error_In with (n := Z.to_nat (j - 0)); exact Er|].
      simpl in Hn. congruence.
  - destruct Hs as (_ & Hall). intros r Hr.
    rewrite Forall_forall in Hall. apply Hall. apply in_map. exact Hr.
Qed.

Lemma year_of_max_Ok {F : Type} `{Arith F} (df : DataFrame F) :
  (exists hi, seaLevelAnalysis.year_of_max (map (@Year F) df)
                (map (@Mean_Sea_Level_m F) df) = Ok hi) <->
  (exists r, In r df /\ isnan (Mean_Sea_Level_m r) = false).
Proof.
  unfold seaLevelAnalysis.year_of_max.
  pose proof (year_of_extreme (fun x b => ltb b x) df) as Hs.
  destruct (seaLevelAnalysis.idx_extreme (fun x b => ltb b x)
              (map (@Mean_Sea_Level_m F) df) 0 None) as [[j v]|].
  - destruct Hs as ((y & Hy) & Hr). rewrite Hy. cbn [bind].
    split; [intros _; exact Hr | intros _; eexists; reflexivity].
  - split; [intros (hi & E); discriminate|].
    intros (r & Hr & Hv). rewrite (Hs r Hr) in Hv. discriminate.
Qed.

Lemma year_of_min_Ok {F : Type} `{Arith F} (df : DataFrame F) :
  (exists lo, seaLevelAnalysis.year_of_min (map (@Year F) df)
                (map (@Mean_Sea_Level_m F) df) = Ok lo) <->
  (exists r, In r df /\ isnan (Mean_Sea_Level_m r) = false).
Proof.
  unfold seaLevelAnalysis.year_of_min.
  pose proof (year_of_extreme (fun x b => ltb x b) df) as Hs.
  destruct (seaLevelAnalysis.idx_extreme (fun x b => ltb x b)
              (map (@Mean_Sea_Level_m F) df) 0 None) as [[j v]|].
  - destruct Hs as ((y & Hy) & Hr). rewrite Hy. cbn [bind].
    split; [intros _; exact Hr | intros _; eexists; reflexivity].
  - split; [intros (hi & E); discriminate|].
    intros (r & Hr & Hv). rewrite (Hs r Hr) in Hv. discriminate.
Qed.

Lemma polyfit1_Ok {F : Type} `{Arith F} (x : list Z) (y : list F) :
  (exists z, polyfit1 x y = Ok z) <-> x <> [] /\ List.length x = List.length y.
Proof.
  unfold polyfit1.
  destruct (Nat.eqb_spec (List.length x) 0) as [E0|E0].
  - split; [intros (z & E); discriminate|].
    intros (Hne & _). destruct x; [congruence | discriminate].
  - destruct (Nat.eqb_spec (List.length x) (List.length y)) as [E|E]; cbn [negb].
    + split; [|intros _; eexists; reflexivity].
      intros _. split; [intros ->; apply E0; reflexivity | exact E].
    + split; [intros (z & Ez); discriminate | intros (_ & E'); contradiction].
Qed.

Lemma polyfit1_frame {F : Type} `{Arith F} (g : SeaLevelRecord F -> F)
      (df : DataFrame F) :
  df <> [] -> exists z, polyfit1 (map (@Year F) df) (map g df) = Ok z.
Proof.
  intro Hne. apply polyfit1_Ok. split.
  - destruct df; [congruence | discriminate].
  - rewrite !length_map. reflexivity.
Qed.

Lemma panels_1_2_5_Ok {F : Type} `{Arith F} (df : DataFrame F) :
  (exists a, panels_1_2_5 df = Ok a) <-> df <> [].
Proof.
  unfold panels_1_2_5, create_comprehensive_analysis. split.
  - intros (a & E). inv_bind_as E z Ez.
    assert (Hz : exists z, polyfit1 (map (@Year F) df) (map (@Mean_Sea_Level_m F) df) = Ok z)
      by (exists z; exact Ez).
    apply polyfit1_Ok in Hz. destruct Hz as (Hne & _).
    intros ->. apply Hne. reflexivity.
  - intro Hne.
    destruct (polyfit1_frame (@Mean_Sea_Level_m F) Hne) as (z & ->). cbn [bind].
    destruct (filter (fun r => 1995 <=? Year r) df) as [|r t] eqn:Ef.
    + cbn [List.length Nat.ltb Nat.leb bind]. eexists. reflexivity.
    + cbn [List.length Nat.ltb Nat.leb].
      destruct (@polyfit1_frame F _ (@Mean_Sea_Level_m F) (r :: t) ltac:(discriminate))
        as (zr & ->).
      cbn [bind]. eexists. reflexivity.
Qed.

Lemma tidal_range_changes_Ok {F : Type} `{Arith F} (df : DataFrame F) :
  exists p4, seaLevelAnalysis.tidal_range_changes df = Ok p4.
Proof.
  unfold seaLevelAnalysis.tidal_range_changes.
  destruct (seaLevelAnalysis.complete_data df) as [|r t] eqn:Ec.
  - cbn [List.length Nat.ltb Nat.leb]. eexists. reflexivity.
  - cbn [List.length Nat.ltb Nat.leb].
    destruct (@polyfit1_frame F _ seaLevelAnalysis.tidal_range (r :: t)
                ltac:(discriminate)) as (z & ->).
    cbn [bind]. eexists. reflexivity.
Qed.

(** When the first figure is produced, in the model. *)
Lemma comprehensive_Ok_iff {F : Type} `{Arith F} (df : DataFrame F) :
  (exists fig, seaLevelAnalysis.create_comprehensive_analysis df = Ok fig) <->
  (exists r, In r df /\ isnan (Mean_Sea_Level_m r) = false) /\
  (exists r, In r df /\ Year r = 2020) /\
  (exists r, In r df /\ Year r = 2024).
Proof.
  unfold seaLevelAnalysis.create_comprehensive_analysis,
    seaLevelAnalysis.statistics_summary.
  split.
  - intros (fig & E). inv_bind_as E a Ea. inv_bind_as E p4 Ep4. inv_bind_as E s Es.
    inv_bind_as Es hi Ehi. inv_bind_as Es lo Elo.
    inv_bind_as Es l2020 E20. inv_bind_as Es l2024 E24.
    split; [apply year_of_max_Ok; exists hi; exact Ehi|].
    destruct (level_in_Ok _ _ E20) as (pre0 & r0 & post0 & -> & Hy0 & _).
    split; [exists r0; split; [apply in_or_app; right; left; reflexivity | exact Hy0]|].
    destruct (level_in_Ok _ _ E24) as (pre4 & r4 & post4 & Hd4 & Hy4 & _).
    exists r4. split; [rewrite Hd4; apply in_or_app; right; left; reflexivity | exact Hy4].
  - intros (Hsome & H20 & H24).
    assert (Hne : df <> []).
    { destruct Hsome as (r & Hr & _). intros ->. destruct Hr. }
    destruct (proj2 (panels_1_2_5_Ok df) Hne) as (a & ->). cbn [bind].
    destruct (tidal_range_changes_Ok df) as (p4 & ->). cbn [bind].
    destruct (proj2 (year_of_max_Ok df) Hsome) as (hi & ->). cbn [bind].
    destruct (proj2 (year_of_min_Ok df) Hsome) as (lo & ->). cbn [bind].
    destruct (level_in_present df H20) as (l20 & ->). cbn [bind].
    destruct (level_in_present df H24) as (l24 & ->). cbn [bind].
    eexists. reflexivity.
Qed.

(** The recent levels of the statistics panel. *)
Lemma figure_recent_levels {F : Type} `{Arith F} (df : DataFrame F) fig :
  seaLevelAnalysis.create_comprehensive_analysis df = Ok fig ->
  exists pre0 r2020 post0 pre4 r2024 post4,
    df = pre0 ++ r2020 :: post0 /\ Year r2020 = 2020 /\
    (forall r, In r pre0 -> Year r <> 2020) /\
    df = pre4 ++ r2024 :: post4 /\ Year r2024 = 2024 /\
    (forall r, In r pre4 -> Year r <> 2024) /\
    seaLevelAnalysis.level_2020 (seaLevelAnalysis.statistics fig)
    = Mean_Sea_Level_m r2020 /\
    seaLevelAnalysis.level_2024 (seaLevelAnalysis.statistics fig)
    = Mean_Sea_Level_m r2024 /\
    seaLevelAnalysis.four_year_change (seaLevelAnalysis.statistics fig)
    = mul (sub (Mean_Sea_Level_m r2024) (Mean_Sea_Level_m r2020)) (of_int 100) /\
    seaLevelAnalysis.complete_tide_years (seaLevelAnalysis.statistics fig)
    = Z.of_nat (List.length (seaLevelAnalysis.complete_data df)) /\
    seaLevelAnalysis.tidal_range_changes df = Ok (seaLevelAnalysis.tidal_panel fig).
Proof.
  intro E.
  unfold seaLevelAnalysis.create_comprehensive_analysis,
    seaLevelAnalysis.statistics_summary in E.
  inv_bind_as E a Ea. inv_bind_as E p4 Ep4. inv_bind_as E s Es.
  inv_bind_as Es hi Ehi. inv_bind_as Es lo Elo.
  inv_bind_as Es l2020 E20. inv_bind_as Es l2024 E24.
  inv_bind_as Es l2024' E24'. inv_bind_as Es l2020' E20'.
  assert (l2024' = l2024) by congruence. assert (l2020' = l2020) by congruence.
  subst l2024' l2020'.
  destruct (level_in_Ok _ _ E20) as (pre0 & r0 & post0 & Hd0 & Hy0 & Hp0 & Hv0).
  destruct (level_in_Ok _ _ E24) as (pre4 & r4 & post4 & Hd4 & Hy4 & Hp4 & Hv4).
  exists pre0, r0, post0, pre4, r4, post4.
  assert (Hfig : fig = seaLevelAnalysis.mkFigure a
                         (seaLevelAnalysis.year_to_year_changes df) p4 s) by congruence.
  assert (Hs : s = seaLevelAnalysis.mkStatistics
                     (Z.of_nat (List.length df))
                     (agg_mean (seaLevelAnalysis.present (map (@Mean_Sea_Level_m F) df)))
                     (agg_std (seaLevelAnalysis.present (map (@Mean_Sea_Level_m F) df)))
                     hi lo (mul (fst (trend a)) (of_int 71))
                     (mul (fst (trend a)) (of_int 10))
                     l2020 l2024 (mul (sub l2024 l2020) (of_int 100))
                     (Z.of_nat (List.length (seaLevelAnalysis.complete_data df)))
                     (mul (div (of_int (Z.of_nat (List.length df))) (of_int 71))
                          (of_int 100))) by congruence.
  rewrite Hfig, Hs.
  cbn [seaLevelAnalysis.statistics seaLevelAnalysis.level_2020
         seaLevelAnalysis.level_2024 seaLevelAnalysis.four_year_change
         seaLevelAnalysis.complete_tide_years seaLevelAnalysis.tidal_panel].
  rewrite Hv0, Hv4. repeat (split; [assumption || reflexivity|]). exact Ep4.
Qed.

(** X16. The first figure can only be produced from a frame that has a row
    for 2020 and a row for 2024: its statistics panel shows the level of
    the first row of each of these years and 100 times their difference as
    the 4-year change.  On a non-empty frame whose levels are all present
    the figure is produced exactly when both years occur, and otherwise
    the function raises [IndexError]. *)
Theorem comprehensive_figure_needs_2020_and_2024 :
  forall (F : Type) (A : Arith F) (df : DataFrame F),
    (forall fig,
        seaLevelAnalysis.create_comprehensive_analysis df = Ok fig ->
        exists pre0 r2020 post0 pre4 r2024 post4,
          df = pre0 ++ r2020 :: post0 /\ Year r2020 = 2020 /\
          (forall r, In r pre0 -> Year r <> 2020) /\
          df = pre4 ++ r2024 :: post4 /\ Year r2024 = 2024 /\
          (forall r, In r pre4 -> Year r <> 2024) /\
          seaLevelAnalysis.level_2020 (seaLevelAnalysis.statistics fig)
          = Mean_Sea_Level_m r2020 /\
          seaLevelAnalysis.level_2024 (seaLevelAnalysis.statistics fig)
          = Mean_Sea_Level_m r2024 /\
          seaLevelAnalysis.four_year_change (seaLevelAnalysis.statistics fig)
          = mul (sub (Mean_Sea_Level_m r2024) (Mean_Sea_Level_m r2020)) (of_int 100))
    /\
    (df <> [] ->
     Forall (fun r => isnan (Mean_Sea_Level_m r) = false) df ->
     ((exists fig, seaLevelAnalysis.create_comprehensive_analysis df = Ok fig) <->
      (exists r, In r df /\ Year r = 2020) /\ (exists r, In r df /\ Year r = 2024)) /\
     ((forall r, In r df -> Year r <> 2020) \/ (forall r, In r df -> Year r <> 2024) ->
      seaLevelAnalysis.create_comprehensive_analysis df = Raise IndexError)).
Proof.
  intros F A df. split.
  - intros fig E.
    destruct (figure_recent_levels df E)
      as (pre0 & r0 & post0 & pre4 & r4 & post4 & Hd0 & Hy0 & Hp0 & Hd4 & Hy4 & Hp4
          & H20 & H24 & Hch & _).
    exists pre0, r0, post0, pre4, r4, post4. repeat (split; [assumption|]). exact Hch.
  - intros Hne Hall.
    assert (Hsome : exists r, In r df /\ isnan (Mean_Sea_Level_m r) = false).
    { destruct df as [|r t]; [congruence|]. exists r. split; [left; reflexivity|].
      inversion Hall; assumption. }
    split.
    + rewrite comprehensive_Ok_iff. tauto.
    + intro Hmiss.
      unfold seaLevelAnalysis.create_comprehensive_analysis,
        seaLevelAnalysis.statistics_summary.
      destruct (proj2 (panels_1_2_5_Ok df) Hne) as (a & ->). cbn [bind].
      destruct (tidal_range_changes_Ok df) as (p4 & ->). cbn [bind].
      destruct (proj2 (year_of_max_Ok df) Hsome) as (hi & ->). cbn [bind].
      destruct (proj2 (year_of_min_Ok df) Hsome) as (lo & ->). cbn [bind].
      destruct (seaLevelAnalysis.level_in df 2020) as [l20|e] eqn:E20.
      * cbn [bind]. destruct Hmiss as [Hmiss|Hmiss].
        -- rewrite (level_in_absent df Hmiss) in E20. discriminate.
        -- rewrite (level_in_absent df Hmiss). reflexivity.
      * cbn [bind]. destruct (filter (fun r => Year r =? 2020) df) as [|r t] eqn:Ef.
        -- unfold seaLevelAnalysis.level_in in E20. rewrite Ef in E20.
           cbn in E20. congruence.
        -- unfold seaLevelAnalysis.level_in in E20. rewrite Ef in E20.
           cbn [map] in E20. rewrite getitem_first in E20. discriminate.
Qed.

(** The years 2020 to 2024 give a figure; the years 1954 to 1956 do not. *)
Lemma comprehensive_figure_needs_2020_and_2024_witness :
  (exists fig,
      seaLevelAnalysis.create_comprehensive_analysis (@recent_five float Binary64)
      = Ok fig /\
      seaLevelAnalysis.level_2024 (seaLevelAnalysis.statistics fig) = dec 138 100) /\
  seaLevelAnalysis.create_comprehensive_analysis rows_1954 = Raise IndexError.
Proof.
  split.
  - eexists. split; [vm_compute; reflexivity|].
    destruct (@comprehensive_figure_needs_2020_and_2024 float Binary64 recent_five)
      as (Hfig & _).
    destruct (Hfig _ eq_refl) as (pre0 & r0 & post0 & pre4 & r4 & post4 & _).
    reflexivity.
  - destruct (@comprehensive_figure_needs_2020_and_2024 float Binary64 rows_1954)
      as (_ & Hraise).
    apply Hraise.
    + discriminate.
    + repeat constructor.
    + left. intros r [<-|[<-|[<-|[]]]]; discriminate.
Defined.

(** ** The analyzer: the report and the program *)

Lemma report_Ok_of_figure {F : Type} `{Arith F} (df : DataFrame F) :
  (exists fig, seaLevelAnalysis.create_comprehensive_analysis df = Ok fig) ->
  (exists report, seaLevelAnalysis.generate_summary_report df = Ok report) /\
  (exists k, seaLevelAnalysis.key_findings df = Ok k).
Proof.
  intro Hfig. apply comprehensive_Ok_iff in Hfig. destruct Hfig as (Hsome & H20 & H24).
  assert (Hne : df <> []).
  { destruct Hsome as (r & Hr & _). intros ->. destruct Hr. }
  destruct (polyfit1_frame (@Mean_Sea_Level_m F) Hne) as (z & Hz).
  split.
  - unfold seaLevelAnalysis.generate_summary_report.
    destruct (proj2 (year_of_max_Ok df) Hsome) as (hi & ->). cbn [bind].
    destruct (proj2 (year_of_min_Ok df) Hsome) as (lo & ->). cbn [bind].
    rewrite Hz. cbn [bind].
    destruct (filter (fun r => 2020 <=? Year r) df) as [|r t] eqn:Ef.
    + cbn [List.length]. replace (2 <=? Z.of_nat 0) with false by reflexivity.
      cbn [bind]. eexists. reflexivity.
    + destruct (2 <=? Z.of_nat (List.length (r :: t))).
      * rewrite (@getitem_minus_one _ r (r :: t)) by discriminate.
        rewrite getitem_first. cbn [bind]. eexists. reflexivity.
      * cbn [bind]. eexists. reflexivity.
  - unfold seaLevelAnalysis.key_findings. rewrite Hz. cbn [bind].
    destruct (level_in_present df H24) as (l24 & ->). cbn [bind].
    eexists. reflexivity.
Qed.

(** X17. The analyzer program writes all of its files or none.  Without a
    data file it ends quietly with nothing written; when the first figure
    cannot be produced the exception leaves the program before anything is
    written; and once the first figure is produced nothing later can fail:
    the figure, the tidal figure (exactly when some row has both the higher
    high and the lower low water) and the complete report are written and
    the program ends normally. *)
Theorem analyzer_main_all_or_nothing :
  forall (F : Type) (A : Arith F) (dir : list (DirEntry F)) saved outcome,
    seaLevelAnalysis.main dir = (saved, outcome) ->
    (saved = [] /\ outcome = Ok tt /\
     snd (seaLevelAnalysis.load_latest_data dir) = Ok None)
    \/
    (saved = [] /\ exists e, outcome = Raise e)
    \/
    (outcome = Ok tt /\
     exists df fig1 report,
       snd (seaLevelAnalysis.load_latest_data dir) = Ok (Some df) /\
       seaLevelAnalysis.create_comprehensive_analysis df = Ok fig1 /\
       seaLevelAnalysis.generate_summary_report df = Ok report /\
       ((forall r, In r df -> isnan (Mean_Higher_High_Water_m r) = true
                              \/ isnan (Mean_Lower_Low_Water_m r) = true) ->
        saved = [SavedComprehensive fig1; SavedReport report]) /\
       ((exists r, In r df /\ isnan (Mean_Higher_High_Water_m r) = false
                   /\ isnan (Mean_Lower_Low_Water_m r) = false) ->
        exists fig2,
          snd (seaLevelAnalysis.create_tide_components_analysis df) = Some fig2 /\
          saved = [SavedComprehensive fig1; SavedTidal fig2; SavedReport report])).
Proof.
  intros F A dir saved outcome Hmain.
  unfold seaLevelAnalysis.main in Hmain.
  destruct (snd (seaLevelAnalysis.load_latest_data dir)) as [[df|]|e] eqn:Eload.
  - destruct (seaLevelAnalysis.create_comprehensive_analysis df) as [fig1|e] eqn:Efig.
    + destruct (@report_Ok_of_figure F A df) as ((report & Hrep) & (k & Hkey));
        [exists fig1; exact Efig|].
      rewrite Hrep, Hkey in Hmain.
      right. right.
      assert (Hout : outcome = Ok tt) by congruence.
      split; [exact Hout|].
      exists df, fig1, report. split; [reflexivity|]. split; [exact Efig|].
      split; [exact Hrep|].
      unfold seaLevelAnalysis.create_tide_components_analysis in *.
      destruct (seaLevelAnalysis.complete_data df) as [|c t] eqn:Ec.
      * cbn [List.length Nat.eqb snd app] in *. split; [intros _; congruence|].
        intros (r & Hr & Hh & Hl). exfalso.
        assert (Hin : In r (seaLevelAnalysis.complete_data df)).
        { unfold seaLevelAnalysis.complete_data. apply filter_In.
          split; [exact Hr|]. rewrite Hh, Hl. reflexivity. }
        rewrite Ec in Hin. destruct Hin.
      * cbn [List.length Nat.eqb snd app] in *. split.
        -- intro Hnone. exfalso.
           assert (Hin : In c (seaLevelAnalysis.complete_data df))
             by (rewrite Ec; left; reflexivity).
           unfold seaLevelAnalysis.complete_data in Hin. apply filter_In in Hin.
           destruct Hin as (Hin & Hb). apply andb_prop in Hb. destruct Hb as (Hh & Hl).
           apply negb_true_iff in Hh, Hl.
           destruct (Hnone c Hin) as [Hx|Hx]; congruence.
        -- intros _. eexists. split; [reflexivity|]. congruence.
    + right. left. split; [congruence|]. exists e. congruence.
  - left. split; [congruence|]. split; [congruence | reflexivity].
  - right. left. split; [congruence|]. exists e. congruence.
Qed.

(** One data file with the years 2020 to 2024 and no tidal columns: the
    first figure and the report are written. *)
Lemma analyzer_main_all_or_nothing_witness :
  exists fig1 report,
    seaLevelAnalysis.main recent_dir
    = ([SavedComprehensive fig1; SavedReport report], Ok tt).
Proof.
  eexists. eexists.
  destruct (@analyzer_main_all_or_nothing float Binary64 recent_dir _ _ eq_refl)
    as [(Hs & _)|[(Hs & _)|(Hout & _)]]; try discriminate Hs.
  vm_compute. reflexivity.
Defined.

Lemma sorted_lt_le {F : Type} (df : DataFrame F) :
  StronglySorted (fun a b => Year a < Year b) df ->
  StronglySorted (fun a b => Year a <= Year b) df.
Proof.
  induction 1 as [|h t Hs IH Hh]; constructor; [exact IH|].
  eapply Forall_impl; [|exact Hh]. simpl. intros; lia.
Qed.

Lemma sorted_lt_filter {F : Type} (f : SeaLevelRecord F -> bool) (df : DataFrame F) :
  StronglySorted (fun a b => Year a < Year b) df ->
  StronglySorted (fun a b => Year a < Year b) (filter f df).
Proof.
  induction 1 as [|h t Hs IH Hh]; simpl; [constructor|].
  destruct (f h); [|exact IH]. constructor; [exact IH|].
  apply Forall_forall. intros x Hx. apply filter_In in Hx.
  rewrite Forall_forall in Hh. apply Hh. tauto.
Qed.

Lemma sorted_lt_year_inj {F : Type} (df : DataFrame F) (a b : SeaLevelRecord F) :
  StronglySorted (fun a b => Year a < Year b) df ->
  In a df -> In b df -> Year a = Year b -> a = b.
Proof.
  induction 1 as [|h t Hs IH Hh]; intros Ha Hb E; [destruct Ha|].
  rewrite Forall_forall in Hh.
  destruct Ha as [<-|Ha], Hb as [<-|Hb].
  - reflexivity.
  - specialize (Hh b Hb). lia.
  - specialize (Hh a Ha). lia.
  - apply IH; assumption.
Qed.

Lemma getitem_In {A : Type} (l : list A) (i : Z) (a : A) :
  getitem l i = Ok a -> In a l.
Proof.
  unfold getitem.
  destruct ((((if i <? 0 then i + Z.of_nat (List.length l) else i) <? 0)
             || (Z.of_nat (List.length l)
                 <=? (if i <? 0 then i + Z.of_nat (List.length l) else i)))%bool);
    [discriminate|].
  destruct (nth_error l (Z.to_nat (if i <? 0 then i + Z.of_nat (List.length l) else i)))
    as [b|] eqn:E; [|discriminate].
  intro Eb. assert (b = a) by congruence. subst b.
  apply nth_error_In with (n := Z.to_nat (if i <? 0 then i + Z.of_nat (List.length l) else i)).
  exact E.
Qed.

(** X18. On a frame in strictly ascending year order that ends in 2024,
    the report's line "Change 2020-2024" (last minus first row from 2020
    on, times 100) shows the same number as the 4-year change of the
    statistics panel (the level of 2024 minus the level of 2020, times
    100). *)
Theorem report_change_agrees_with_panel :
  forall (F : Type) (A : Arith F) (df : DataFrame F) fig report,
    seaLevelAnalysis.create_comprehensive_analysis df = Ok fig ->
    seaLevelAnalysis.generate_summary_report df = Ok report ->
    StronglySorted (fun a b => Year a < Year b) df ->
    (forall r, In r df -> Year r <= 2024) ->
    seaLevelAnalysis.report_recent_change report
    = Some (seaLevelAnalysis.four_year_change (seaLevelAnalysis.statistics fig)).
Proof.
  intros F A df fig report Hfig Hrep Hsort Hmax.
  destruct (figure_recent_levels df Hfig)
    as (pre0 & r0 & post0 & pre4 & r4 & post4 & Hd0 & Hy0 & _ & Hd4 & Hy4 & _
        & _ & _ & Hch & _).
  rewrite Hch.
  assert (Hin0 : In r0 df) by (rewrite Hd0; apply in_or_app; right; left; reflexivity).
  assert (Hin4 : In r4 df) by (rewrite Hd4; apply in_or_app; right; left; reflexivity).
  unfold seaLevelAnalysis.generate_summary_report in Hrep.
  inv_bind_as Hrep hi Ehi. inv_bind_as Hrep lo Elo. inv_bind_as Hrep z Ez.
  inv_bind_as Hrep change Echange.
  assert (Hrc : seaLevelAnalysis.report_recent_change report = change).
  { inversion Hrep. reflexivity. }
  rewrite Hrc. clear Hrep Hrc.
  set (recent := filter (fun r => 2020 <=? Year r) df) in *.
  assert (Hr0 : In r0 recent)
    by (apply filter_In; split; [exact Hin0 | apply Z.leb_le; lia]).
  assert (Hr4 : In r4 recent)
    by (apply filter_In; split; [exact Hin4 | apply Z.leb_le; lia]).
  assert (Hrs : StronglySorted (fun a b => Year a <= Year b) recent)
    by (apply sorted_lt_le, sorted_lt_filter; exact Hsort).
  destruct (Z.leb_spec 2 (Z.of_nat (List.length recent))) as [Hlen|Hlen].
  - inv_bind_as Echange last Elast. inv_bind_as Echange first Efirst.
    pose proof (sorted_bounds Hrs Efirst Elast) as Hb.
    assert (Hfi : In first recent) by (apply getitem_In with (i := 0); exact Efirst).
    assert (Hla : In last recent) by (apply getitem_In with (i := -1); exact Elast).
    apply filter_In in Hfi. destruct Hfi as (Hfi & Hfy). apply Z.leb_le in Hfy.
    apply filter_In in Hla. destruct Hla as (Hla & _).
    assert (first = r0).
    { apply (@sorted_lt_year_inj _ df first r0 Hsort Hfi Hin0). specialize (Hb r0 Hr0). lia. }
    assert (last = r4).
    { apply (@sorted_lt_year_inj _ df last r4 Hsort Hla Hin4).
      specialize (Hb r4 Hr4). specialize (Hmax last Hla). lia. }
    subst first last. congruence.
  - exfalso. destruct recent as [|x [|y t]]; cbn [List.length] in Hlen; [destruct Hr0| |lia].
    destruct Hr0 as [<-|[]]. destruct Hr4 as [E|[]]. rewrite E in Hy0. lia.
Qed.

(** The years 2020 to 2024: both show 100 * (1.38 - 1.30). *)
Lemma report_change_agrees_with_panel_witness :
  exists fig report,
    seaLevelAnalysis.create_comprehensive_analysis (@recent_five float Binary64)
    = Ok fig /\
    seaLevelAnalysis.generate_summary_report (@recent_five float Binary64)
    = Ok report /\
    seaLevelAnalysis.report_recent_change report
    = Some (seaLevelAnalysis.four_year_change (seaLevelAnalysis.statistics fig)).
Proof.
  destruct (seaLevelAnalysis.create_comprehensive_analysis (@recent_five float Binary64))
    as [fig|e] eqn:Efig; [|vm_compute in Efig; discriminate].
  destruct (seaLevelAnalysis.generate_summary_report (@recent_five float Binary64))
    as [report|e] eqn:Erep; [|vm_compute in Erep; discriminate].
  exists fig, report. split; [reflexivity|]. split; [reflexivity|].
  apply (@report_change_agrees_with_panel float Binary64 recent_five fig report Efig Erep).
  - unfold recent_five.
    repeat (constructor; [|repeat (constructor; [cbn; lia|]); constructor]).
    constructor.
  - intros r [<-|[<-|[<-|[<-|[<-|[]]]]]]; cbn; lia.
Defined.

(** ** The analyzer: the tidal figure *)

(** X19. The tidal figure is produced exactly when some row has both the
    mean higher high water and the mean lower low water; otherwise the
    function prints its message and returns None.  The figure plots one
    point per such row, in file order, with the total range MHHW − MLLW;
    the fourth panel of the first figure plots the same points, and the
    "complete tide data" count of the statistics panel and of the report
    is their number.  In exact arithmetic no plotted total range is
    missing. *)
Theorem tidal_figure_iff_complete_rows :
  (forall (F : Type) (A : Arith F) (df : DataFrame F),
      (seaLevelAnalysis.create_tide_components_analysis df
       = ([Printed "No complete tidal data available"], None)
       <->
       forall r, In r df -> isnan (Mean_Higher_High_Water_m r) = true
                            \/ isnan (Mean_Lower_Low_Water_m r) = true) /\
      (forall fig2,
          snd (seaLevelAnalysis.create_tide_components_analysis df) = Some fig2 ->
          let rows := filter (fun r => negb (isnan (Mean_Higher_High_Water_m r))
                                       && negb (isnan (Mean_Lower_Low_Water_m r))) df in
          (1 <= List.length rows)%nat /\
          fst (seaLevelAnalysis.create_tide_components_analysis df) = [] /\
          seaLevelAnalysis.tidal_years fig2 = map (@Year F) rows /\
          seaLevelAnalysis.total_tidal_range fig2
          = map (fun r => sub (Mean_Higher_High_Water_m r) (Mean_Lower_Low_Water_m r))
                rows /\
          List.length (seaLevelAnalysis.high_water_range fig2) = List.length rows /\
          List.length (seaLevelAnalysis.low_water_range fig2) = List.length rows /\
          (forall fig1,
              seaLevelAnalysis.create_comprehensive_analysis df = Ok fig1 ->
              seaLevelAnalysis.complete_tide_years (seaLevelAnalysis.statistics fig1)
              = Z.of_nat (List.length rows) /\
              exists z_range,
                seaLevelAnalysis.tidal_panel fig1
                = Some (combine (seaLevelAnalysis.tidal_years fig2)
                                (seaLevelAnalysis.total_tidal_range fig2), z_range)) /\
          (forall report,
              seaLevelAnalysis.generate_summary_report df = Ok report ->
              seaLevelAnalysis.report_complete report = Z.of_nat (List.length rows))))
  /\
  (forall (df : DataFrame xreal) fig2,
      snd (seaLevelAnalysis.create_tide_components_analysis df) = Some fig2 ->
      Forall (fun v : xreal => isnan v = false)
             (seaLevelAnalysis.total_tidal_range fig2)).
Proof.
  assert (Hshape : forall (F : Type) (A : Arith F) (df : DataFrame F) fig2,
             snd (seaLevelAnalysis.create_tide_components_analysis df) = Some fig2 ->
             seaLevelAnalysis.complete_data df <> [] /\
             fst (seaLevelAnalysis.create_tide_components_analysis df) = [] /\
             fig2 = seaLevelAnalysis.mkTidalFigure
                      (map (@Year F) (seaLevelAnalysis.complete_data df))
                      (map seaLevelAnalysis.tidal_range (seaLevelAnalysis.complete_data df))
                      (map (fun r => sub (Mean_Higher_High_Water_m r)
                                         (Mean_Lower_High_Water_m r))
                           (seaLevelAnalysis.complete_data df))
                      (map (fun r => sub (Mean_Higher_Low_Water_m r)
                                         (Mean_Lower_Low_Water_m r))
                           (seaLevelAnalysis.complete_data df))).
  { intros F A df fig2. unfold seaLevelAnalysis.create_tide_components_analysis.
    destruct (seaLevelAnalysis.complete_data df) as [|c t] eqn:Ec;
      cbn [List.length Nat.eqb snd fst]; [discriminate|].
    intro E. split; [discriminate|]. split; [reflexivity | congruence]. }
  split.
  - intros F A df. split.
    + unfold seaLevelAnalysis.create_tide_components_analysis.
      destruct (seaLevelAnalysis.complete_data df) as [|c t] eqn:Ec;
        cbn [List.length Nat.eqb].
      * split; [|reflexivity]. intros _ r Hr.
        destruct (isnan (Mean_Higher_High_Water_m r)) eqn:Eh; [left; reflexivity|].
        destruct (isnan (Mean_Lower_Low_Water_m r)) eqn:El; [right; reflexivity|].
        exfalso.
        assert (Hin : In r (seaLevelAnalysis.complete_data df)).
        { unfold seaLevelAnalysis.complete_data. apply filter_In.
          split; [exact Hr|]. rewrite Eh, El. reflexivity. }
        rewrite Ec in Hin. destruct Hin.
      * split; [discriminate|]. intro Hnone. exfalso.
        assert (Hin : In c (seaLevelAnalysis.complete_data df))
          by (rewrite Ec; left; reflexivity).
        unfold seaLevelAnalysis.complete_data in Hin. apply filter_In in Hin.
        destruct Hin as (Hin & Hb). apply andb_prop in Hb. destruct Hb as (Hh & Hl).
        apply negb_true_iff in Hh, Hl.
        destruct (Hnone c Hin) as [Hx|Hx]; congruence.
    + intros fig2 Hfig2. cbv zeta.
      destruct (Hshape F A df fig2 Hfig2) as (Hne & Hout & ->).
      change (filter (fun r => negb (isnan (Mean_Higher_High_Water_m r))
                               && negb (isnan (Mean_Lower_Low_Water_m r))) df)
        with (seaLevelAnalysis.complete_data df).
      cbn [seaLevelAnalysis.tidal_years seaLevelAnalysis.total_tidal_range
             seaLevelAnalysis.high_water_range seaLevelAnalysis.low_water_range].
      split; [destruct (seaLevelAnalysis.complete_data df);
              [congruence | cbn [List.length]; lia]|].
      split; [exact Hout|]. split; [reflexivity|]. split; [reflexivity|].
      split; [apply length_map|]. split; [apply length_map|]. split.
      * intros fig1 Hfig1.
        destruct (figure_recent_levels df Hfig1)
          as (_ & _ & _ & _ & _ & _ & _ & _ & _ & _ & _ & _ & _ & _ & _ & Hcount & Hpanel).
        split; [exact Hcount|].
        unfold seaLevelAnalysis.tidal_range_changes in Hpanel.
        destruct (seaLevelAnalysis.complete_data df) as [|c t] eqn:Ec; [congruence|].
        cbn [List.length Nat.ltb Nat.leb] in Hpanel.
        inv_bind_as Hpanel z Ez. exists z.
        assert (Hp : seaLevelAnalysis.tidal_panel fig1
                     = Some (map (fun r => (Year r, seaLevelAnalysis.tidal_range r))
                                 (c :: t), z)) by congruence.
        rewrite Hp, combine_maps. reflexivity.
      * intros report Hrep.
        unfold seaLevelAnalysis.generate_summary_report in Hrep.
        inv_bind Hrep. inv_bind Hrep. inv_bind Hrep. inv_bind Hrep.
        inversion Hrep. reflexivity.
  - intros df fig2 Hfig2.
    destruct (Hshape xreal Exact df fig2 Hfig2) as (_ & _ & ->).
    cbn [seaLevelAnalysis.total_tidal_range].
    apply Forall_forall. intros v Hv. apply in_map_iff in Hv.
    destruct Hv as (r & <- & Hr).
    unfold seaLevelAnalysis.complete_data in Hr. apply filter_In in Hr.
    destruct Hr as (_ & Hb). apply andb_prop in Hb. destruct Hb as (Hh & Hl).
    apply negb_true_iff in Hh, Hl.
    destruct (xisnan_false _ Hh) as (x & Ex). destruct (xisnan_false _ Hl) as (y & Ey).
    unfold seaLevelAnalysis.tidal_range. rewrite Ex, Ey. reflexivity.
Qed.

(** Of three years the middle one has no tidal levels: two points are
    plotted. *)
Lemma tidal_figure_iff_complete_rows_witness :
  exists fig2,
    snd (seaLevelAnalysis.create_tide_components_analysis tidal_rows) = Some fig2 /\
    seaLevelAnalysis.tidal_years fig2 = [1990; 2024].
Proof.
  destruct tidal_figure_iff_complete_rows as (Hgen & _).
  destruct (Hgen float Binary64 tidal_rows) as (_ & Hfig).
  eexists. split; [vm_compute; reflexivity|].
  destruct (Hfig _ eq_refl) as (_ & _ & Hy & _).
  exact Hy.
Defined.
